(** * news-agent: the chat relay of flask-server/server.py and the agent
      wrapper of flask-server/agent.py, embedded and verified.

    Python strings are embedded as [string]; a character stands for a code
    point below 256.  Dictionaries used as maps are [gmap]s, the message log
    is a list, and the handlers run in a small state, exception and output
    monad: the state is the pair of module globals [messages] and
    [sessions] together with the pool of sleeping [delayed_response]
    threads, the output is the list of Socket.IO emissions. *)

From Stdlib Require Import Ascii String.
From stdpp Require Import gmap strings list fin_maps pretty.

(** ** Python string helpers *)

Module Py.

(** [str.isspace] on one code point below 256: TAB..CR, FS..US, space,
    NEL and NBSP. *)
Definition isspace (c : ascii) : bool :=
  let n := nat_of_ascii c in
  (((9 <=? n) && (n <=? 13)) || ((28 <=? n) && (n <=? 32))
   || (n =? 133) || (n =? 160))%nat.

Fixpoint lstrip (s : string) : string :=
  match s with
  | EmptyString => EmptyString
  | String c s' => if isspace c then lstrip s' else s
  end.

Definition rstrip (s : string) : string :=
  String.rev (lstrip (String.rev s)).

(** [s.strip()] *)
Definition strip (s : string) : string := lstrip (rstrip s).

(** Truth value of a string: [not s] holds of the empty string only. *)
Definition truthy (s : string) : bool :=
  match s with EmptyString => false | _ => true end.

(** Exceptions, by class and message. *)
Inductive exn :=
| KeyError (key : string)
| IndexError (msg : string)
| TypeError (msg : string)
| ValueError (msg : string)
| Exception (msg : string).

(** [repr(s)] of a string.  The quote is the apostrophe, unless the string
    holds an apostrophe and no double quote.  The quote and the backslash
    are escaped with a backslash, TAB, LF and CR as [\t], [\n] and [\r],
    and every other code point that is not printable (below 32, 127 to
    160, and 173) as [\x] and two lower-case hexadecimal digits. *)
Definition squote : ascii := "039"%char.
Definition dquote : ascii := "034"%char.
Definition backslash : ascii := "092"%char.

Definition isprintable (c : ascii) : bool :=
  let n := nat_of_ascii c in
  (((32 <=? n) && (n <=? 126)) || ((161 <=? n) && negb (n =? 173)))%nat.

Definition hex_digit (n : nat) : ascii :=
  nth n (list_ascii_of_string "0123456789abcdef") "0"%char.

Fixpoint contains (c : ascii) (s : string) : bool :=
  match s with
  | EmptyString => false
  | String c' s' => if Ascii.eqb c c' then true else contains c s'
  end.

Definition repr_char (quote c : ascii) : string :=
  let n := nat_of_ascii c in
  if Ascii.eqb c quote || Ascii.eqb c backslash
  then String backslash (String c EmptyString)
  else if (n =? 9)%nat then String backslash "t"
  else if (n =? 10)%nat then String backslash "n"
  else if (n =? 13)%nat then String backslash "r"
  else if isprintable c then String c EmptyString
  else String backslash
         (String "x" (String (hex_digit (n / 16))
                        (String (hex_digit (n mod 16)) EmptyString))).

Fixpoint repr_body (quote : ascii) (s : string) : string :=
  match s with
  | EmptyString => EmptyString
  | String c s' => repr_char quote c +:+ repr_body quote s'
  end.

Definition repr (s : string) : string :=
  let quote :=
    if contains squote s && negb (contains dquote s) then dquote else squote in
  String quote (repr_body quote s +:+ String quote EmptyString).

(** [str(e)].  An exception with one argument prints as that argument,
    except [KeyError], which prints as the [repr] of its key. *)
Definition str (e : exn) : string :=
  match e with
  | KeyError k => repr k
  | IndexError m | TypeError m | ValueError m | Exception m => m
  end.

End Py.

(** ** agent.py *)

Module Agent.

Import Py.

Record question := Question {
  key : string;
  question_text : string;
  description : string
}.

(** [self.preference_questions], assigned in [NewsAgent.__init__]. *)
Definition preference_questions : list question := [
  Question "tone_of_voice"
    "Hi, before we begin, please answer some questions. 
What's your preferred tone of voice? (formal, casual, enthusiastic)"
    "Preferred communication style";
  Question "response_format"
    "How do you like information presented? (bullet points, paragraphs)"
    "Response format preference";
  Question "language"
    "What's your preferred language? (English, Spanish, etc.)"
    "Language preference";
  Question "interaction_style"
    "What's your preferred interaction style? (concise, detailed)"
    "Level of detail preference";
  Question "news_topics"
    "What news topics interest you most? (technology, sports, politics, etc.)"
    "Preferred news topics"
].

(** *** Construction of the agent

    The process environment holds the two API keys or not; the two client
    constructors belong to external packages and either return or raise. *)

Record environ := Environ {
  OPENAI_API_KEY : option string;
  EXA_API_KEY : option string;
  OpenAI_ctor : option exn;     (* [Some e]: [OpenAI(...)] raises [e] *)
  Exa_ctor : option exn         (* [Some e]: [Exa(...)] raises [e] *)
}.

(** The instance, as far as the server reads it. *)
Record NewsAgent := MkNewsAgent {
  model : string;
  questions : list question
}.

(** [def __init__(self)]: the positional parameters after [self]. *)
Definition init_params : list string := [].

(** The body of [__init__]. *)
Definition init_body (env : environ) : exn + NewsAgent :=
  match OPENAI_API_KEY env with
  | None => inl (ValueError "OPENAI_API_KEY environment variable is required")
  | Some k1 =>
    if negb (truthy k1)
    then inl (ValueError "OPENAI_API_KEY environment variable is required")
    else
      match EXA_API_KEY env with
      | None => inl (ValueError "EXA_API_KEY environment variable is required")
      | Some k2 =>
        if negb (truthy k2)
        then inl (ValueError "EXA_API_KEY environment variable is required")
        else
          match OpenAI_ctor env with
          | Some e => inl e
          | None =>
            match Exa_ctor env with
            | Some e => inl e
            | None => inr (MkNewsAgent "gpt-4.1-nano" preference_questions)
            end
          end
      end
  end.

(** A call [NewsAgent(a1, ..., an)] with positional arguments only: Python
    binds the arguments to the parameters of [__init__] before it runs the
    body, and raises [TypeError] when there are more arguments than
    parameters.  [A] is the type of argument values. *)
Definition call_NewsAgent {A : Type} (args : list A) (env : environ)
  : exn + NewsAgent :=
  if decide (length args ≤ length init_params)
  then init_body env
  else inl (TypeError
    ("NewsAgent.__init__() takes " +:+ pretty (S (length init_params))
     +:+ " positional argument but " +:+ pretty (S (length args))
     +:+ " were given")).

(** Loading agent.py: the class statement, then the last line of the
    module, [news_agent = NewsAgent()]. *)
Definition load_agent_module (env : environ) : exn + NewsAgent :=
  call_NewsAgent (@nil unit) env.

(** *** One conversation turn

    Every call into the OpenAI client is external: it returns a value or
    raises.  [backend] records what each of those calls does during one
    evaluation of [_handle_assistant_conversation]. *)

Record run := Run {
  status : string
}.

(** [messages.data]: a list of messages, a message being its list of
    content parts; reading [.text.value] of a part returns or raises. *)
Definition thread_listing := list (list (exn + string)).

Record backend := Backend {
  get_or_create_assistant : exn + string;
  create_thread : exn + string;
  messages_create : option exn;
  create_and_poll : exn + run;
  (* the loop over [required_action]'s tool calls: it raises, or collects
     this many tool outputs *)
  execute_tool_calls : exn + nat;
  submit_tool_outputs_and_poll : exn + run;
  messages_list : exn + thread_listing
}.

(** The dictionary returned next to the reply, with the keys the server
    looks at. *)
Record session_data := SessionData {
  sd_assistant_id : option string;
  sd_thread_id : option string;
  sd_error : option string
}.

Definition try_ {A B} (r : exn + A) (k : A → exn + B) : exn + B :=
  match r with inl e => inl e | inr a => k a end.

(** The body of the [try] of [_handle_assistant_conversation]. *)
Definition conversation_body (b : backend) (thread_id : option string)
  : exn + (string * session_data) :=
  try_ (get_or_create_assistant b) (λ assistant_id,
  try_ (match thread_id with
        | Some t => if truthy t then inr t else create_thread b
        | None => create_thread b
        end) (λ thread_id,
  try_ (match messages_create b with Some e => inl e | None => inr tt end)
       (λ _,
  try_ (create_and_poll b) (λ run0,
  try_ (if decide (status run0 = "requires_action") then
          try_ (execute_tool_calls b) (λ tool_outputs,
          if decide (tool_outputs = 0) then inr (inr run0)
          else match submit_tool_outputs_and_poll b with
               | inr r => inr (inr r)
               | inl e =>
                 inr (inl ("Error submitting tool outputs: " +:+ str e,
                           SessionData (Some assistant_id) (Some thread_id)
                                       (Some (str e))))
               end)
        else inr (inr run0)) (λ after_tools,
  match after_tools with
  | inl early => inr early
  | inr run1 =>
    if decide (status run1 = "completed") then
      try_ (messages_list b) (λ data,
      match data with
      | latest_message :: _ =>
        match latest_message with
        | part :: _ =>
          try_ part (λ assistant_message,
          inr (assistant_message,
               SessionData (Some assistant_id) (Some thread_id) None))
        | [] =>
          inr ("I apologize, but I couldn't generate a response.",
               SessionData (Some assistant_id) (Some thread_id)
                           (Some "No content in response"))
        end
      | [] =>
        inr ("I apologize, but I couldn't retrieve the response.",
             SessionData (Some assistant_id) (Some thread_id)
                         (Some "No messages in response"))
      end)
    else
      let error_message :=
        "Assistant run failed with status: " +:+ status run1 in
      inr (error_message,
           SessionData (Some assistant_id) (Some thread_id)
                       (Some error_message))
  end))))).

Definition _handle_assistant_conversation (b : backend)
    (thread_id : option string) : exn + (string * session_data) :=
  match conversation_body b thread_id with
  | inr r => inr r
  | inl e =>
    let error_message := "Error in assistant conversation: " +:+ str e in
    inr (error_message, SessionData None None (Some error_message))
  end.

Definition process_message (b : backend) (thread_id : option string)
  : exn + (string * session_data) :=
  match _handle_assistant_conversation b thread_id with
  | inr r => inr r
  | inl e =>
    let error_message :=
      "I apologize, but I encountered an error: " +:+ str e in
    inr (error_message, SessionData None None (Some (str e)))
  end.

End Agent.

(** ** server.py *)

Module Server.

Import Py Agent.

(** *** Data *)

Record message := Message {
  m_id : string;
  m_content : string;
  m_author : string;
  m_user_id : string;
  m_timestamp : string
}.

Record session := Session {
  thread_id : option string;
  assistant_id : option string;
  preferences : gmap string (option string);
  preferences_complete : bool;
  current_preference_index : nat;
  message_count : nat
}.

(** The dictionary literal with the five keys bound to [None]. *)
Definition no_preferences : gmap string (option string) :=
  <["tone_of_voice" := None]> (<["response_format" := None]>
  (<["language" := None]> (<["interaction_style" := None]>
  (<["news_topics" := None]> ∅)))).

(** The session literal of [handle_connect] and [handle_send_message]. *)
Definition new_session : session :=
  Session None None no_preferences false 0 0.

Definition with_thread_id (v : option string) (s : session) : session :=
  Session v (assistant_id s) (preferences s) (preferences_complete s)
          (current_preference_index s) (message_count s).
Definition with_assistant_id (v : option string) (s : session) : session :=
  Session (thread_id s) v (preferences s) (preferences_complete s)
          (current_preference_index s) (message_count s).
Definition with_preferences (v : gmap string (option string)) (s : session)
  : session :=
  Session (thread_id s) (assistant_id s) v (preferences_complete s)
          (current_preference_index s) (message_count s).
Definition with_preferences_complete (v : bool) (s : session) : session :=
  Session (thread_id s) (assistant_id s) (preferences s) v
          (current_preference_index s) (message_count s).
Definition with_current_preference_index (v : nat) (s : session) : session :=
  Session (thread_id s) (assistant_id s) (preferences s)
          (preferences_complete s) v (message_count s).
Definition with_message_count (v : nat) (s : session) : session :=
  Session (thread_id s) (assistant_id s) (preferences s)
          (preferences_complete s) (current_preference_index s) v.

(** The module-level construction [news_agent = NewsAgent({...})], after
    [from agent import NewsAgent] has loaded agent.py. *)
Definition load_server_module (env : environ) : exn + NewsAgent :=
  match load_agent_module env with
  | inl e => inl e
  | inr _ => call_NewsAgent [no_preferences] env
  end.

(** A thread started by [send_bot_response] and still asleep; the delay is
    kept in milliseconds. *)
Record delayed := Delayed {
  d_client_id : string;
  d_content : string;
  d_delay_ms : nat
}.

(** The globals [messages] and [sessions], and the sleeping threads. *)
Record server := MkServer {
  messages : list message;
  sessions : gmap string session;
  threads : list delayed
}.

Definition initial : server := MkServer [] ∅ [].

(** *** Emissions

    [Broadcast] is [broadcast=True]: every connected client.  [Room sid] is
    [room=sid]; each client is alone in the room named by its own sid, and
    an [emit] inside a handler with neither argument goes to the room of
    the client whose event is being handled. *)
Inductive target := Broadcast | Room (sid : string).

Inductive payload :=
| connection_response (status message : string)
| new_message (m : message)
| preference_update (preferenceId value : string)
| preferences_reset
| chat_cleared (cleared_by message timestamp : string)
| message_deleted (message_id deleted_by : string)
| error (message : string).

Record emission := Emit { ev : payload; to : target }.

(** Does client [c] get the emission? *)
Definition receives (c : string) (e : emission) : bool :=
  match to e with
  | Broadcast => true
  | Room sid => bool_decide (c = sid)
  end.

(** *** The handler monad: state, exceptions and emitted events *)

Definition M (A : Type) : Type := server → (exn + A) * server * list emission.

Definition ret {A} (a : A) : M A := λ st, (inr a, st, []).
Definition raise {A} (e : exn) : M A := λ st, (inl e, st, []).
Definition bind {A B} (m : M A) (k : A → M B) : M B := λ st,
  match m st with
  | (inr a, st1, out1) =>
    match k a st1 with (r, st2, out2) => (r, st2, out1 ++ out2) end
  | (inl e, st1, out1) => (inl e, st1, out1)
  end.
Definition try_except {A} (m : M A) (h : exn → M A) : M A := λ st,
  match m st with
  | (inl e, st1, out1) =>
    match h e st1 with (r, st2, out2) => (r, st2, out1 ++ out2) end
  | r => r
  end.

Declare Scope py_scope.
Delimit Scope py_scope with py.
Notation "x <~ m ;; k" := (bind m (λ x, k))
  (at level 100, m at next level, right associativity) : py_scope.
Notation "m ;;; k" := (bind m (λ _, k))
  (at level 100, right associativity) : py_scope.
Local Open Scope py_scope.

Definition gets {A} (f : server → A) : M A := λ st, (inr (f st), st, []).
Definition modify (f : server → server) : M unit := λ st, (inr tt, f st, []).
Definition lift {A} (r : exn + A) : M A :=
  match r with inl e => raise e | inr a => ret a end.

Definition emit (p : payload) (t : target) : M unit :=
  λ st, (inr tt, st, [Emit p t]).

Definition set_messages (l : list message) : M unit :=
  modify (λ st, MkServer l (sessions st) (threads st)).
Definition set_sessions (m : gmap string session) : M unit :=
  modify (λ st, MkServer (messages st) m (threads st)).

(** [sessions[client_id]]: the session object, or [KeyError]. *)
Definition session_get {A} (client_id : string) (f : session → A) : M A :=
  sess <~ gets sessions ;;
  match sess !! client_id with
  | Some s => ret (f s)
  | None => raise (KeyError client_id)
  end.

(** An item assignment on the session object held by [sessions]. *)
Definition session_update (client_id : string) (f : session → session)
  : M unit :=
  sess <~ gets sessions ;;
  match sess !! client_id with
  | Some s => set_sessions (<[client_id := f s]> sess)
  | None => raise (KeyError client_id)
  end.

(** [l[i]] *)
Definition index {A} (l : list A) (i : nat) : M A :=
  match l !! i with
  | Some a => ret a
  | None => raise (IndexError "list index out of range")
  end.

(** *** Handlers

    The handlers read [news_agent.preference_questions], the list every
    [NewsAgent] instance is given by [__init__]. *)

Definition handle_connect (client_id : string) : M unit :=
  sess <~ gets sessions ;;
  set_sessions (<[client_id := new_session]> sess) ;;;
  emit (connection_response "connected"
          "Successfully connected to chat server") (Room client_id).

Definition handle_disconnect (client_id : string) : M unit :=
  sess <~ gets sessions ;;
  if decide (is_Some (sess !! client_id))
  then set_sessions (delete client_id sess)
  else ret tt.

(** [send_bot_response] only starts the thread. *)
Definition send_bot_response (client_id content : string) (delay_ms : nat)
  : M unit :=
  modify (λ st, MkServer (messages st) (sessions st)
                         (threads st ++ [Delayed client_id content delay_ms])).

(** The body of the thread once [time.sleep] has returned; [uid] is what
    [uuid.uuid4()] gives and [now] what [datetime.now().isoformat()]
    gives. *)
Definition delayed_response (d : delayed) (uid now : string) : M unit :=
  let bot_message :=
    Message uid (d_content d) "Assistant" "assistant" now in
  msgs <~ gets messages ;;
  set_messages (msgs ++ [bot_message]) ;;;
  emit (new_message bot_message) (Room (d_client_id d)).

Definition completion_message : string :=
  "Great! I have all your preferences. Now I can help you with news and information. What would you like to know about?".

(** The user message and the preferences are handed to the external calls
    only, whose results [api] fixes. *)
Definition process_with_news_agent (client_id user_input : string)
    (api : backend) : M unit :=
  _ <~ session_get client_id (λ s, s) ;;
  try_except
    (tid <~ session_get client_id thread_id ;;
     r <~ lift (process_message api tid) ;;
     let '(response, session_data) := r in
     match sd_thread_id session_data with
     | Some t => session_update client_id (with_thread_id (Some t))
     | None => ret tt
     end ;;;
     match sd_assistant_id session_data with
     | Some a => session_update client_id (with_assistant_id (Some a))
     | None => ret tt
     end ;;;
     send_bot_response client_id response 500)
    (λ e,
     let error_message :=
       "I apologize, but I encountered an error: " +:+ str e in
     send_bot_response client_id error_message 500).

Definition handle_preference_collection (client_id user_input : string)
    (api : backend) : M unit :=
  i <~ session_get client_id current_preference_index ;;
  if decide (i < length preference_questions) then
    current_question <~ index preference_questions i ;;
    let preference_key := key current_question in
    session_update client_id (λ s,
      with_preferences (<[preference_key := Some user_input]> (preferences s))
                       s) ;;;
    emit (preference_update preference_key user_input) (Room client_id) ;;;
    session_update client_id (λ s,
      with_current_preference_index (current_preference_index s + 1) s) ;;;
    j <~ session_get client_id current_preference_index ;;
    if decide (length preference_questions ≤ j) then
      session_update client_id (with_preferences_complete true) ;;;
      send_bot_response client_id completion_message 500
    else
      next_question <~ index preference_questions j ;;
      send_bot_response client_id (question_text next_question) 500
  else
    process_with_news_agent client_id user_input api.

(** [data] is the event's JSON object. *)
Definition handle_send_message (client_id : string)
    (data : gmap string string) (uid now : string) (api : backend)
  : M unit :=
  let content := strip (default EmptyString (data !! "content")) in
  if negb (truthy content) then
    emit (error "Message content cannot be empty") (Room client_id)
  else
    sess <~ gets sessions ;;
    (if decide (sess !! client_id = None)
     then set_sessions (<[client_id := new_session]> sess)
     else ret tt) ;;;
    session_update client_id (λ s,
      with_message_count (message_count s + 1) s) ;;;
    let user_message := Message uid content "User" "user" now in
    msgs <~ gets messages ;;
    set_messages (msgs ++ [user_message]) ;;;
    emit (new_message user_message) Broadcast ;;;
    n <~ session_get client_id message_count ;;
    if decide (n = 1) then
      first_question <~ index preference_questions 0 ;;
      send_bot_response client_id (question_text first_question) 500
    else
      complete <~ session_get client_id preferences_complete ;;
      if complete
      then process_with_news_agent client_id content api
      else handle_preference_collection client_id content api.

(** The [for] loop of [handle_delete_message] over [enumerate(messages)]. *)
Inductive scan_result :=
| Popped (message_to_delete : message) (remaining : list message)
| Refused
| Exhausted.

Fixpoint scan (message_id : string) (msgs : list message) : scan_result :=
  match msgs with
  | [] => Exhausted
  | msg :: rest =>
    if decide (m_id msg = message_id) then
      if decide (m_user_id msg = "user") then Popped msg rest else Refused
    else
      match scan message_id rest with
      | Popped m remaining => Popped m (msg :: remaining)
      | r => r
      end
  end.

Definition handle_delete_message (client_id : string)
    (data : gmap string string) : M unit :=
  match data !! "message_id" with
  | None => emit (error "Message ID is required") (Room client_id)
  | Some message_id =>
    if negb (truthy message_id) then
      emit (error "Message ID is required") (Room client_id)
    else
      msgs <~ gets messages ;;
      match scan message_id msgs with
      | Refused =>
        emit (error "You can only delete your own messages") (Room client_id)
      | Popped _ remaining =>
        set_messages remaining ;;;
        emit (message_deleted message_id "User") Broadcast
      | Exhausted => emit (error "Message not found") (Room client_id)
      end
  end.

Definition handle_clear_chat (client_id now : string) : M unit :=
  msgs <~ gets messages ;;
  let message_count := length msgs in
  set_messages [] ;;;
  sess <~ gets sessions ;;
  (if decide (is_Some (sess !! client_id)) then
     session_update client_id (with_preferences_complete false) ;;;
     session_update client_id (with_current_preference_index 0) ;;;
     session_update client_id (with_message_count 0) ;;;
     session_update client_id (with_preferences no_preferences) ;;;
     emit preferences_reset (Room client_id)
   else ret tt) ;;;
  emit (chat_cleared "User"
          ("Chat cleared (" +:+ pretty message_count +:+ " messages removed)")
          now) Broadcast.

(** *** Events

    What the server reacts to: the four Socket.IO events, connection and
    disconnection, and a sleeping thread waking up.  An event carries what
    the environment supplies while it is handled. *)
Inductive event :=
| Connect (sid : string)
| Disconnect (sid : string)
| SendMessage (sid : string) (data : gmap string string)
              (uid now : string) (api : backend)
| DeleteMessage (sid : string) (data : gmap string string)
| ClearChat (sid now : string)
| Wake (k : nat) (uid now : string).

Definition handle (e : event) : M unit :=
  match e with
  | Connect sid => handle_connect sid
  | Disconnect sid => handle_disconnect sid
  | SendMessage sid data uid now api =>
    handle_send_message sid data uid now api
  | DeleteMessage sid data => handle_delete_message sid data
  | ClearChat sid now => handle_clear_chat sid now
  | Wake k uid now =>
    pool <~ gets threads ;;
    match pool !! k with
    | Some d =>
      modify (λ st, MkServer (messages st) (sessions st)
                             (take k pool ++ drop (S k) pool)) ;;;
      delayed_response d uid now
    | None => ret tt
    end
  end.

(** The state after the event, what was emitted, and the exception that
    escaped the handler, if any. *)
Definition step (e : event) (st : server) : server := (handle e st).1.2.
Definition emitted (e : event) (st : server) : list emission := (handle e st).2.
Definition escaped (e : event) (st : server) : option exn :=
  match (handle e st).1.1 with inl x => Some x | inr _ => None end.

Definition run (es : list event) (st : server) : server :=
  foldl (λ s e, step e s) st es.

Inductive reachable : server → Prop :=
| reachable_initial : reachable initial
| reachable_step e st : reachable st → reachable (step e st).

End Server.

(** * Derived notions

    Closed forms of what the handlers compute, the session invariant, and
    sample data for the examples. *)

Import Py Agent Server.
Local Open Scope py_scope.

(** The reply and the dictionary the server gets from the agent. *)
Definition reply (api : backend) (tid : option string)
  : string * session_data :=
  match process_message api tid with
  | inr r => r
  | inl e => (EmptyString, SessionData None None None)
  end.

(** The session after the dispatcher has stored what the agent returned. *)
Definition dispatched (api : backend) (s : session) : session :=
  let sd := (reply api (thread_id s)).2 in
  let s1 := match sd_thread_id sd with
            | Some t => with_thread_id (Some t) s
            | None => s
            end in
  match sd_assistant_id sd with
  | Some a => with_assistant_id (Some a) s1
  | None => s1
  end.

(** The session after its answer to question [q] has been stored. *)
Definition answered (q : question) (user_input : string) (s : session)
  : session :=
  let s1 := with_preferences
              (<[key q := Some user_input]> (preferences s)) s in
  let s2 := with_current_preference_index
              (current_preference_index s1 + 1) s1 in
  if decide (length preference_questions ≤ current_preference_index s2)
  then with_preferences_complete true s2
  else s2.

(** What the bot says after the answer: the next prompt, or the closing
    message. *)
Definition follow_up (i : nat) : string :=
  match preference_questions !! (i + 1) with
  | Some next_question => question_text next_question
  | None => completion_message
  end.

(** The branches of [handle_send_message] and, below it, of
    [handle_preference_collection]. *)
Inductive route :=
| Rejected          (* empty after [strip] *)
| FirstQuestion     (* [message_count == 1] *)
| Dispatch          (* preferences complete: the news agent *)
| Collect           (* an answer is stored *)
| CollectFallback.  (* the [else] of [handle_preference_collection] *)

(** The session a [send_message] works on, its counter already bumped. *)
Definition counted (st : server) (client_id : string) : session :=
  let s := default new_session (sessions st !! client_id) in
  with_message_count (message_count s + 1) s.

(** The content the handler works with. *)
Definition content_of (data : gmap string string) : string :=
  strip (default EmptyString (data !! "content"%string)).

(** The branch taken, read off the conditions of the two functions. *)
Definition route_of (st : server) (client_id : string)
    (data : gmap string string) : route :=
  if negb (truthy (content_of data)) then Rejected
  else
    let s := counted st client_id in
    if decide (message_count s = 1) then FirstQuestion
    else if preferences_complete s then Dispatch
    else if decide (current_preference_index s < length preference_questions)
         then Collect
         else CollectFallback.

(** After the common prefix of [handle_send_message]: the session exists
    with its counter bumped and the user message is stored. *)
Definition stored (st : server) (client_id : string)
    (data : gmap string string) (uid now : string) : server :=
  MkServer
    (messages st ++ [Message uid (content_of data) "User" "user" now])
    (<[client_id := counted st client_id]> (sessions st)) (threads st).

(** What [handle_send_message] does, route by route. *)
Definition send_result (st : server) (client_id : string)
    (data : gmap string string) (uid now : string) (api : backend)
  : (exn + unit) * server * list emission :=
  let s := counted st client_id in
  let user_message := Message uid (content_of data) "User" "user" now in
  match route_of st client_id data with
  | Rejected =>
    (inr tt, st,
     [Emit (error "Message content cannot be empty") (Room client_id)])
  | FirstQuestion =>
    (inr tt,
     MkServer (messages st ++ [user_message])
       (<[client_id := s]> (sessions st))
       (threads st ++
        [Delayed client_id
           (from_option question_text EmptyString (preference_questions !! 0))
           500]),
     [Emit (new_message user_message) Broadcast])
  | Dispatch | CollectFallback =>
    (inr tt,
     MkServer (messages st ++ [user_message])
       (<[client_id := dispatched api s]> (sessions st))
       (threads st ++ [Delayed client_id (reply api (thread_id s)).1 500]),
     [Emit (new_message user_message) Broadcast])
  | Collect =>
    match preference_questions !! current_preference_index s with
    | Some q =>
      (inr tt,
       MkServer (messages st ++ [user_message])
         (<[client_id := answered q (content_of data) s]> (sessions st))
         (threads st ++
          [Delayed client_id (follow_up (current_preference_index s)) 500]),
       [Emit (new_message user_message) Broadcast;
        Emit (preference_update (key q) (content_of data)) (Room client_id)])
    | None => (inl (IndexError "list index out of range"), st, [])
    end
  end.

(** The session of the requester after a [clear_chat]. *)
Definition cleared (s : session) : session :=
  Session (thread_id s) (assistant_id s) no_preferences false 0 0.

(** The registry entry of the sender after its [send_message]. *)
Definition session_after_send (st : server) (client_id : string)
    (data : gmap string string) (api : backend) : option session :=
  let s := counted st client_id in
  match route_of st client_id data with
  | Rejected => sessions st !! client_id
  | FirstQuestion => Some s
  | Dispatch | CollectFallback => Some (dispatched api s)
  | Collect =>
    match preference_questions !! current_preference_index s with
    | Some q => Some (answered q (content_of data) s)
    | None => sessions st !! client_id
    end
  end.

(** The registry entry of client [c] after event [e]. *)
Definition session_after (e : event) (st : server) (c : string)
  : option session :=
  match e with
  | Connect sid =>
    if decide (sid = c) then Some new_session else sessions st !! c
  | Disconnect sid => if decide (sid = c) then None else sessions st !! c
  | SendMessage sid data _ _ api =>
    if decide (sid = c) then session_after_send st sid data api
    else sessions st !! c
  | ClearChat sid _ =>
    if decide (sid = c) then cleared <$> sessions st !! c
    else sessions st !! c
  | DeleteMessage _ _ | Wake _ _ _ => sessions st !! c
  end.

Abbreviation N_questions := (length preference_questions).

(** The session holds an answer to question [q]. *)
Definition answer_stored (s : session) (q : question) : Prop :=
  ∃ v, preferences s !! key q = Some (Some v).

Record session_invariant (s : session) : Prop := {
  index_bounded : current_preference_index s ≤ N_questions;
  complete_iff :
    preferences_complete s = true ↔ current_preference_index s = N_questions;
  answers_below_index : ∀ j q,
    preference_questions !! j = Some q →
    answer_stored s q ↔ j < current_preference_index s
}.

(** How an event can change the onboarding state of a session that is in
    the registry before and after it. *)
Inductive session_step (e : event) (c : string) (s s' : session) : Prop :=
| step_kept :
    preferences s' = preferences s →
    current_preference_index s' = current_preference_index s →
    preferences_complete s' = preferences_complete s →
    session_step e c s s'
| step_answer data uid now api q :
    e = SendMessage c data uid now api →
    preferences_complete s = false →
    message_count s ≠ 0 →
    preference_questions !! current_preference_index s = Some q →
    preferences s' = <[key q := Some (content_of data)]> (preferences s) →
    current_preference_index s' = current_preference_index s + 1 →
    (preferences_complete s' = true
     ↔ current_preference_index s + 1 = N_questions) →
    session_step e c s s'
| step_reset :
    (e = Connect c ∨ ∃ now, e = ClearChat c now) →
    preferences s' = no_preferences →
    current_preference_index s' = 0 →
    preferences_complete s' = false →
    session_step e c s s'.

(** Events that are not an accepted message, a clear, a connect or a
    disconnect of client [c]. *)
Definition quiet (c : string) (e : event) : bool :=
  match e with
  | Connect sid | Disconnect sid | ClearChat sid _ =>
    negb (bool_decide (sid = c))
  | SendMessage sid data _ _ _ =>
    negb (bool_decide (sid = c)) || negb (truthy (content_of data))
  | DeleteMessage _ _ | Wake _ _ _ => true
  end.

(** A session that has not yet seen a message: absent from the registry
    (it is created on the first message), or as [handle_connect] and
    [handle_clear_chat] leave it. *)
Definition at_start (o : option session) : Prop :=
  match o with
  | None => True
  | Some s =>
    message_count s = 0 ∧ current_preference_index s = 0 ∧
    preferences_complete s = false ∧ preferences s = no_preferences
  end.

Definition first_char (s : string) : option ascii :=
  match s with String c _ => Some c | EmptyString => None end.
Definition last_char (s : string) : option ascii :=
  first_char (String.rev s).

(** The answer stored for a preference key, if any. *)
Definition stored_answer (st : server) (c k : string) : option string :=
  sessions st !! c ≫= λ s, mjoin (preferences s !! k).

(** Sample data: a backend whose calls all succeed, and event
    payloads. *)
Definition fine : backend :=
  Backend (inr "asst_1"%string) (inr "thread_1"%string) None
          (inr (Run "completed")) (inr 0) (inr (Run "completed"))
          (inr [[inr "Here is the news."%string]]).

Definition content (raw : string) : gmap string string :=
  {[ "content"%string := raw ]}.

Definition delete_request (message_id : string) : gmap string string :=
  {[ "message_id"%string := message_id ]}.

(** The wording of the code's apologies. *)
Definition apologetic (text : string) : bool :=
  String.prefix "I apologize" text.

(** A server on which client A has answered the five questions. *)
Definition onboarded : server :=
  run [Connect "A";
       SendMessage "A" (content "hello") "u1" "t1" fine;
       SendMessage "A" (content "formal") "u2" "t2" fine;
       SendMessage "A" (content "bullet points") "u3" "t3" fine;
       SendMessage "A" (content "English") "u4" "t4" fine;
       SendMessage "A" (content "concise") "u5" "t5" fine;
       SendMessage "A" (content "technology") "u6" "t6" fine]
      initial.

(** The assistant cannot be created or retrieved: the first external
    call raises. *)
Definition unreachable_api : backend :=
  Backend (inl (Exception "Connection error.")) (inr "thread_1"%string) None
          (inr (Run "completed")) (inr 0) (inr (Run "completed")) (inr []).

(** * Further notions *)

(** Every character of the string is white space. *)
Fixpoint all_space (s : string) : bool :=
  match s with
  | EmptyString => true
  | String c s' => isspace c && all_space s'
  end.

(** The payload has no content, or only white space. *)
Definition blank (data : gmap string string) : bool :=
  all_space (default EmptyString (data !! "content"%string)).

(** The event is not the wake-up of a thread. *)
Definition not_wake (e : event) : bool :=
  match e with Wake _ _ _ => false | _ => true end.

(** The message a thread appends when it wakes. *)
Definition bot_message (d : delayed) (uid now : string) : message :=
  Message uid (d_content d) "Assistant" "assistant" now.

(** A stored message as the two places that build messages make it: a
    user message with stripped, non-empty content, or a bot message. *)
Definition well_formed_message (m : message) : Prop :=
  (m_author m = "User"%string ∧ m_user_id m = "user"%string ∧
   m_content m ≠ EmptyString ∧ strip (m_content m) = m_content m) ∨
  (m_author m = "Assistant"%string ∧ m_user_id m = "assistant"%string).

(** The preference dictionary keeps its five keys, its answers are
    stripped and not empty, and there are fewer answers than messages: the
    question index is below the message count, unless both are 0. *)
Definition session_tidy (s : session) : Prop :=
  dom (preferences s) = dom no_preferences ∧
  (∀ k v, preferences s !! k = Some (Some v) →
          v ≠ EmptyString ∧ strip v = v) ∧
  (current_preference_index s < message_count s ∨
   current_preference_index s = 0 ∧ message_count s = 0).

(** The contents of the messages of client [c] that are accepted, in the
    order of the events. *)
Definition accepted (c : string) (es : list event) : list string :=
  omap (λ e, match e with
             | SendMessage sid data _ _ _ =>
               if bool_decide (sid = c) && truthy (content_of data)
               then Some (content_of data) else None
             | _ => None
             end) es.

(** The event is not a connect, a disconnect or a clear of client [c]. *)
Definition no_reset (c : string) (e : event) : bool :=
  match e with
  | Connect sid | Disconnect sid | ClearChat sid _ =>
    negb (bool_decide (sid = c))
  | _ => true
  end.

(** The preference dictionary once the answers [vs] have been given to
    the questions, in their order; answers beyond the last question are
    not kept. *)
Definition answers_of (vs : list string) : gmap string (option string) :=
  foldl (λ m qv, <[key qv.1 := Some qv.2]> m) no_preferences
        (zip preference_questions vs).

(** Where a session stands after the accepted messages [cs]. *)
Definition progress (cs : list string) (o : option session) : Prop :=
  match cs with
  | [] => at_start o
  | _ =>
    ∃ s, o = Some s ∧
      message_count s = length cs ∧
      current_preference_index s
      = (length cs - 1) `min` length preference_questions ∧
      preferences_complete s
      = bool_decide (length preference_questions < length cs) ∧
      preferences s = answers_of (drop 1 cs)
  end.

(** The client whose event it is; a wake-up is nobody's. *)
Definition originator (e : event) : option string :=
  match e with
  | Connect sid | Disconnect sid | SendMessage sid _ _ _ _
  | DeleteMessage sid _ | ClearChat sid _ => Some sid
  | Wake _ _ _ => None
  end.

(** Whom each kind of emission is for. *)
Definition addressed (e : event) (st : server) (em : emission) : Prop :=
  match ev em with
  | new_message m =>
    if decide (m_user_id m = "user"%string) then to em = Broadcast
    else ∃ k uid now d, e = Wake k uid now ∧ threads st !! k = Some d ∧
                        to em = Room (d_client_id d)
  | chat_cleared _ _ _ | message_deleted _ _ => to em = Broadcast
  | error _ | preference_update _ _ | preferences_reset
  | connection_response _ _ =>
    ∃ sid, originator e = Some sid ∧ to em = Room sid
  end.

(** The thread a turn works on: the one handed in when there is one, else
    the one [_create_thread] returns. *)
Definition thread_of_turn (b : backend) (tid : option string)
  : exn + string :=
  match tid with
  | Some t => if truthy t then inr t else create_thread b
  | None => create_thread b
  end.

(** The assistant and the thread of the turn were obtained and the user's
    message was added to the thread. *)
Definition started (b : backend) (tid : option string) (a t : string)
  : Prop :=
  get_or_create_assistant b = inr a ∧ thread_of_turn b tid = inr t ∧
  messages_create b = None.

(** The run the turn goes on with after its tool calls, if it gets that
    far: the first run, or the one that [submit_tool_outputs_and_poll]
    returns when the first run required tool calls and outputs were
    collected. *)
Definition run_after_tools (b : backend) : option Agent.run :=
  match create_and_poll b with
  | inl _ => None
  | inr run0 =>
    if decide (status run0 = "requires_action"%string) then
      match execute_tool_calls b with
      | inl _ => None
      | inr 0 => Some run0
      | inr (S _) =>
        match submit_tool_outputs_and_poll b with
        | inr r => Some r
        | inl _ => None
        end
      end
    else Some run0
  end.

(** An external call of the turn other than the submission of tool outputs
    raises [x], the calls before it having returned. *)
Inductive raised_by (b : backend) (tid : option string) (x : exn) : Prop :=
| raised_by_assistant :
    get_or_create_assistant b = inl x → raised_by b tid x
| raised_by_thread a :
    get_or_create_assistant b = inr a → thread_of_turn b tid = inl x →
    raised_by b tid x
| raised_by_message a t :
    get_or_create_assistant b = inr a → thread_of_turn b tid = inr t →
    messages_create b = Some x → raised_by b tid x
| raised_by_run a t :
    started b tid a t → create_and_poll b = inl x → raised_by b tid x
| raised_by_tools a t run0 :
    started b tid a t → create_and_poll b = inr run0 →
    status run0 = "requires_action"%string →
    execute_tool_calls b = inl x → raised_by b tid x
| raised_by_listing a t r :
    started b tid a t → run_after_tools b = Some r →
    status r = "completed"%string →
    messages_list b = inl x → raised_by b tid x
| raised_by_part a t r rest more :
    started b tid a t → run_after_tools b = Some r →
    status r = "completed"%string →
    messages_list b = inr ((inl x :: rest) :: more) → raised_by b tid x.

(** The ways a turn fails, each with the text the agent returns for it. *)
Inductive failure_reply (b : backend) (tid : option string)
  : string → Prop :=
| failure_raised x :
    raised_by b tid x →
    failure_reply b tid ("Error in assistant conversation: " +:+ str x)
| failure_submit a t run0 n x :
    started b tid a t → create_and_poll b = inr run0 →
    status run0 = "requires_action"%string →
    execute_tool_calls b = inr (S n) →
    submit_tool_outputs_and_poll b = inl x →
    failure_reply b tid ("Error submitting tool outputs: " +:+ str x)
| failure_status a t r :
    started b tid a t → run_after_tools b = Some r →
    status r ≠ "completed"%string →
    failure_reply b tid ("Assistant run failed with status: " +:+ status r)
| failure_no_messages a t r :
    started b tid a t → run_after_tools b = Some r →
    status r = "completed"%string →
    messages_list b = inr [] →
    failure_reply b tid "I apologize, but I couldn't retrieve the response."
| failure_no_content a t r more :
    started b tid a t → run_after_tools b = Some r →
    status r = "completed"%string →
    messages_list b = inr ([] :: more) →
    failure_reply b tid "I apologize, but I couldn't generate a response.".

(** A completed run whose listing holds no message, or a latest message
    without content. *)
Definition malformed (b : backend) : Prop :=
  messages_list b = inr [] ∨ ∃ more, messages_list b = inr ([] :: more).

(** ** agent.py, continued *)

(** How an f-string renders a value that is a string or [None]. *)
Definition format_value (v : option string) : string :=
  match v with Some s => s | None => "None"%string end.

(** [d.get(k, default)], rendered. *)
Definition get_rendered (d : gmap string (option string))
    (k default : string) : string :=
  match d !! k with Some v => format_value v | None => default end.

(** The text of the f-string of [_build_system_prompt], with its five
    holes. *)
Definition prompt_with (tone format language style topics : string)
  : string :=
  "You are a helpful AI news agent. 

User Preferences:
- Tone of Voice: " +:+
  tone +:+
  ": Always format your responses in this tone of voice.
- Response Format: " +:+
  format +:+
  ": Ensure to format all your responses in this format.
- Language: " +:+
  language +:+
  ": Always respond in this language.
- Interaction Style: " +:+
  style +:+
  ": Always respond in this interaction style.
- Preferred News Topics: " +:+
  topics +:+
  ": Use these preferred news topics to craft queries when searching for news articles unless explicitly specified otherwise.

You have access to tools for:
- Fetching the latest news articles on a given topic (search_news)
- Summarizing fetched news articles to provide concise information to the user (summarize_article)

Unless the user asks for a summary, or the information in a concise manner, use the search_news tool to fetch the latest news articles on a given topic, and simply return the results in appropriate formatting. 
Remember to match their tone, format, language, and interaction style preferences.".

Definition _build_system_prompt (preferences : gmap string (option string))
  : string :=
  prompt_with
    (get_rendered preferences "tone_of_voice" "not specified")
    (get_rendered preferences "response_format" "not specified")
    (get_rendered preferences "language" "not specified")
    (get_rendered preferences "interaction_style" "not specified")
    (get_rendered preferences "news_topics" "not specified").

(** The instance attributes that [_get_or_create_assistant] and
    [_create_thread] assign. *)
Record agent_state := AgentState {
  self_assistant_id : option string;
  self_thread_id : option string
}.

(** What the three calls on [client.beta.assistants] do during one
    evaluation: [create] returns the new assistant's id, [retrieve] the
    instructions of the assistant it is asked for. *)
Record assistants_api := AssistantsApi {
  assistants_create : exn + string;
  assistants_retrieve : exn + string;
  assistants_update : option exn
}.

(** The calls made, with the arguments that vary. *)
Inductive api_call :=
| Create (name instructions model : string)
| Retrieve (assistant_id : string)
| Update (assistant_id instructions : string).

(** The result, the instance afterwards, and the calls made. *)
Definition _get_or_create_assistant (self : agent_state)
    (preferences : gmap string (option string)) (api : assistants_api)
  : (exn + string) * agent_state * list api_call :=
  let system_prompt := _build_system_prompt preferences in
  match self_assistant_id self with
  | None =>
    let call := Create "News Agent" system_prompt "gpt-4.1-nano" in
    match assistants_create api with
    | inl e => (inl e, self, [call])
    | inr id =>
      (inr id, AgentState (Some id) (self_thread_id self), [call])
    end
  | Some a =>
    match assistants_retrieve api with
    | inl e => (inl e, self, [Retrieve a])
    | inr instructions =>
      if decide (instructions ≠ system_prompt) then
        match assistants_update api with
        | Some e => (inl e, self, [Retrieve a; Update a system_prompt])
        | None => (inr a, self, [Retrieve a; Update a system_prompt])
        end
      else (inr a, self, [Retrieve a])
    end
  end.

(** A sequence of calls of [_get_or_create_assistant] on one instance. *)
Fixpoint get_or_create_many (self : agent_state)
    (calls : list (gmap string (option string) * assistants_api))
  : list (exn + string) * agent_state * list api_call :=
  match calls with
  | [] => ([], self, [])
  | (preferences, api) :: rest =>
    match _get_or_create_assistant self preferences api with
    | (r, self1, log1) =>
      match get_or_create_many self1 rest with
      | (rs, self2, log2) => (r :: rs, self2, log1 ++ log2)
      end
    end
  end.

(** The environment variable is set and not empty. *)
Definition present (v : option string) : bool :=
  match v with Some k => truthy k | None => false end.

(** * Properties *)

(** Case analysis on the event, with the names used throughout. *)
Ltac event_cases e :=
  destruct e as [sid|sid|sid data uid now api|sid data|sid now|k uid now].

(** ** The model on concrete inputs *)

Example strip_spaces : strip "  formal 	" = "formal"%string.
Proof. reflexivity. Qed.

Example strip_blank : strip "   " = EmptyString.
Proof. reflexivity. Qed.

Example strip_inner : strip "bullet points" = "bullet points"%string.
Proof. reflexivity. Qed.

(** [str] of a [KeyError] is the [repr] of its key. *)
Example str_KeyError_plain :
  str (KeyError "client-1") = "'client-1'"%string.
Proof. reflexivity. Qed.

Example str_KeyError_apostrophe :
  str (KeyError "it's")
  = String dquote ("it's" +:+ String dquote EmptyString).
Proof. reflexivity. Qed.

Example str_KeyError_escapes :
  str (KeyError (String backslash (String "010" (String "233" "'"))))
  = String dquote
      (String backslash (String backslash (String backslash
         ("n" +:+ String "233" ("'" +:+ String dquote EmptyString))))).
Proof. reflexivity. Qed.

Example construction_message :
  call_NewsAgent [no_preferences]
    (Environ (Some "sk-1"%string) (Some "exa-1"%string) None None)
  = inl (TypeError
      "NewsAgent.__init__() takes 1 positional argument but 2 were given").
Proof. reflexivity. Qed.

(** A hello, then an answer: the prompt of the first question is
    scheduled, then "formal" is stored and the second prompt scheduled. *)
Example hello_then_formal :
  let st := run [Connect "A";
                 SendMessage "A" (content "hello") "u1" "t1" fine;
                 SendMessage "A" (content "formal") "u2" "t2" fine]
                initial in
  stored_answer st "A" "tone_of_voice" = Some "formal"%string ∧
  d_content <$> threads st
  = ["Hi, before we begin, please answer some questions. 
What's your preferred tone of voice? (formal, casual, enthusiastic)"%string;
     "How do you like information presented? (bullet points, paragraphs)"%string] ∧
  emitted (SendMessage "A" (content "formal") "u2" "t2" fine)
    (run [Connect "A"; SendMessage "A" (content "hello") "u1" "t1" fine]
         initial)
  = [Emit (new_message (Message "u2" "formal" "User" "user" "t2")) Broadcast;
     Emit (preference_update "tone_of_voice" "formal") (Room "A")].
Proof. repeat split; by vm_compute. Qed.

(** After the five answers the sixth message goes to the agent. *)
Example sixth_message_dispatched :
  preferences_complete <$> sessions onboarded !! "A"%string = Some true ∧
  route_of onboarded "A" (content "tell me about space news") = Dispatch ∧
  last (threads (step (SendMessage "A" (content "tell me about space news")
                         "u7" "t7" fine) onboarded))
  = Some (Delayed "A" "Here is the news." 500).
Proof. repeat split; by vm_compute. Qed.

(** ** Stepping through the monad *)

Section Primitives.

Context (st : server) (client_id : string) (s : session).
Hypothesis Hs : sessions st !! client_id = Some s.

Lemma session_get_some {A} (f : session → A) :
  session_get client_id f st = (inr (f s), st, []).
Proof. unfold session_get, bind, gets. by rewrite Hs. Qed.

Lemma session_update_some (f : session → session) :
  session_update client_id f st
  = (inr tt, MkServer (messages st) (<[client_id := f s]> (sessions st))
                      (threads st), []).
Proof. unfold session_update, bind, gets. by rewrite Hs. Qed.

End Primitives.

Lemma server_eta st : MkServer (messages st) (sessions st) (threads st) = st.
Proof. by destruct st. Qed.

(** The agent hands back a reply whatever the external calls do. *)
Lemma _handle_assistant_conversation_returns api tid :
  ∃ r, _handle_assistant_conversation api tid = inr r.
Proof.
  unfold _handle_assistant_conversation.
  destruct (conversation_body api tid); eauto.
Qed.

Lemma process_message_returns api tid :
  ∃ r, process_message api tid = inr r.
Proof.
  unfold process_message.
  destruct (_handle_assistant_conversation_returns api tid) as [r ->]. eauto.
Qed.

Lemma process_message_reply api tid :
  process_message api tid = inr (reply api tid).
Proof.
  unfold reply. by destruct (process_message_returns api tid) as [r ->].
Qed.

Lemma process_with_news_agent_eq st client_id user_input api s :
  sessions st !! client_id = Some s →
  process_with_news_agent client_id user_input api st
  = (inr tt,
     MkServer (messages st) (<[client_id := dispatched api s]> (sessions st))
       (threads st ++ [Delayed client_id (reply api (thread_id s)).1 500]),
     []).
Proof.
  intros Hs. unfold process_with_news_agent, dispatched.
  unfold bind at 1. rewrite (session_get_some _ _ _ Hs).
  unfold try_except, bind. rewrite (session_get_some _ _ _ Hs).
  rewrite process_message_reply. simpl.
  destruct (reply api (thread_id s)) as [response sd]. simpl.
  destruct (sd_thread_id sd) as [t|], (sd_assistant_id sd) as [a|]; simpl.
  - rewrite (session_update_some _ _ _ Hs). simpl.
    erewrite session_update_some by (simpl; apply lookup_insert_eq). simpl.
    by rewrite insert_insert_eq.
  - rewrite (session_update_some _ _ _ Hs). simpl. done.
  - rewrite (session_update_some _ _ _ Hs). simpl. done.
  - by rewrite (insert_id _ _ _ Hs).
Qed.

Lemma handle_preference_collection_eq st client_id user_input api s q :
  sessions st !! client_id = Some s →
  preference_questions !! current_preference_index s = Some q →
  handle_preference_collection client_id user_input api st
  = (inr tt,
     MkServer (messages st)
       (<[client_id := answered q user_input s]> (sessions st))
       (threads st ++ [Delayed client_id
                         (follow_up (current_preference_index s)) 500]),
     [Emit (preference_update (key q) user_input) (Room client_id)]).
Proof.
  intros Hs Hq. unfold handle_preference_collection, answered, follow_up.
  unfold bind at 1. rewrite (session_get_some _ _ _ Hs).
  pose proof (lookup_lt_Some _ _ _ Hq) as Hlt.
  destruct (decide _) as [_|]; [|lia].
  unfold index. rewrite Hq. unfold bind, ret.
  rewrite (session_update_some _ _ _ Hs). simpl.
  erewrite session_update_some by (simpl; apply lookup_insert_eq). simpl.
  erewrite session_get_some by (simpl; apply lookup_insert_eq). simpl.
  destruct (decide _) as [Hge|Hnge].
  - erewrite session_update_some by (simpl; apply lookup_insert_eq). simpl.
    rewrite !insert_insert_eq.
    rewrite (lookup_ge_None_2 preference_questions
               (current_preference_index s + 1)) by done.
    done.
  - destruct (lookup_lt_is_Some_2 preference_questions
               (current_preference_index s + 1)) as [q' Hq'];
      [simpl in *; lia|].
    rewrite Hq'. simpl. by rewrite !insert_insert_eq.
Qed.

(** The fallback of [handle_preference_collection]. *)
Lemma handle_preference_collection_fallback st client_id user_input api s :
  sessions st !! client_id = Some s →
  length preference_questions ≤ current_preference_index s →
  handle_preference_collection client_id user_input api st
  = process_with_news_agent client_id user_input api st.
Proof.
  intros Hs Hge. unfold handle_preference_collection.
  unfold bind at 1. rewrite (session_get_some _ _ _ Hs).
  destruct (decide _); [lia|]. by destruct (process_with_news_agent _ _ _ _) as [[[] ?] ?]; rewrite ?app_nil_l.
Qed.

(** *** The four ways a [send_message] event is treated *)

Section SendMessage.

Context (st : server) (client_id : string) (data : gmap string string)
        (uid now : string) (api : backend).

Let s := counted st client_id.
Let user_message := Message uid (content_of data) "User" "user" now.

Lemma handle_send_message_rejected :
  route_of st client_id data = Rejected →
  handle_send_message client_id data uid now api st
  = (inr tt, st,
     [Emit (error "Message content cannot be empty") (Room client_id)]).
Proof.
  unfold route_of, handle_send_message. fold (content_of data).
  destruct (negb _); [done|]. intros H. exfalso.
  repeat (destruct (decide _) || destruct (preferences_complete _)
          || done).
Qed.

Lemma handle_send_message_accepted :
  route_of st client_id data ≠ Rejected →
  handle_send_message client_id data uid now api st
  = match
      (if decide (message_count s = 1) then
         first_question <~ index preference_questions 0 ;;
         send_bot_response client_id (question_text first_question) 500
       else if preferences_complete s
            then process_with_news_agent client_id (content_of data) api
            else handle_preference_collection client_id (content_of data) api)
      (stored st client_id data uid now)
    with
    | (r, st2, out2) =>
      (r, st2, Emit (new_message user_message) Broadcast :: out2)
    end.
Proof.
  unfold route_of, handle_send_message. fold (content_of data).
  destruct (negb _); [done|]. intros _.
  unfold bind at 1. unfold gets at 1.
  assert (Hpre : ∀ k : M unit,
    ((if decide (sessions st !! client_id = None)
      then set_sessions (<[client_id := new_session]> (sessions st))
      else ret tt) ;;;
     session_update client_id
       (λ s0, with_message_count (message_count s0 + 1) s0) ;;; k) st
    = k (MkServer (messages st) (<[client_id := s]> (sessions st))
                  (threads st))).
  { intros k. subst s. unfold counted, bind at 1.
    destruct (decide _) as [Hn|Hn].
    - rewrite Hn. simpl. unfold bind.
      erewrite session_update_some by (simpl; apply lookup_insert_eq).
      simpl. rewrite insert_insert_eq.
      by destruct (k _) as [[? ?] ?].
    - destruct (sessions st !! client_id) as [s0|] eqn:Hs0; [|done].
      simpl. unfold bind. rewrite (session_update_some _ _ _ Hs0). simpl.
      by destruct (k _) as [[? ?] ?]. }
  rewrite Hpre. clear Hpre.
  unfold bind at 1, gets at 1. unfold bind at 1, set_messages at 1,
    modify at 1. unfold bind at 1, emit at 1. cbn [messages sessions threads].
  change (MkServer (messages st ++ [Message uid (content_of data) "User" "user" now])
            (<[client_id := s]> (sessions st)) (threads st))
    with (stored st client_id data uid now).
  fold user_message. unfold bind at 1.
  erewrite session_get_some by apply lookup_insert_eq.
  fold s. destruct (decide (message_count s = 1)) as [?|?].
  { by destruct (bind _ _ (stored st client_id data uid now)) as [[? ?] ?]. }
  unfold bind at 1.
  erewrite session_get_some by apply lookup_insert_eq.
  fold s. cbn [app]. destruct (preferences_complete s).
  - by destruct (process_with_news_agent _ _ _ (stored st client_id data uid now)) as [[? ?] ?].
  - by destruct (handle_preference_collection _ _ _ (stored st client_id data uid now)) as [[? ?] ?].
Qed.

End SendMessage.

Section SendMessageRoutes.

Context (st : server) (client_id : string) (data : gmap string string)
        (uid now : string) (api : backend).

Let s := counted st client_id.
Let user_message := Message uid (content_of data) "User" "user" now.

Lemma stored_session :
  sessions (stored st client_id data uid now) !! client_id = Some s.
Proof. apply lookup_insert_eq. Qed.

Lemma handle_send_message_by_route :
  handle_send_message client_id data uid now api st
  = send_result st client_id data uid now api.
Proof.
  unfold send_result. fold s user_message.
  destruct (route_of st client_id data) eqn:Hr.
  - by apply handle_send_message_rejected.
  - rewrite handle_send_message_accepted by congruence.
    unfold route_of in Hr. fold s in Hr |- *.
    destruct (negb _); [done|].
    destruct (decide (message_count s = 1)); [|by repeat case_match].
    done.
  - rewrite handle_send_message_accepted by congruence.
    unfold route_of in Hr. fold s in Hr |- *.
    destruct (negb _); [done|].
    destruct (decide (message_count s = 1)); [done|].
    destruct (preferences_complete s); [|by repeat case_match].
    rewrite (process_with_news_agent_eq _ _ _ _ _ stored_session).
    unfold stored. cbn [messages sessions threads]. fold s user_message.
    by rewrite insert_insert_eq.
  - rewrite handle_send_message_accepted by congruence.
    unfold route_of in Hr. fold s in Hr |- *.
    destruct (negb _); [done|].
    destruct (decide (message_count s = 1)); [done|].
    destruct (preferences_complete s); [done|].
    destruct (decide _) as [Hlt|]; [|done].
    destruct (lookup_lt_is_Some_2 _ _ Hlt) as [q Hq]. rewrite Hq.
    rewrite (handle_preference_collection_eq _ _ _ _ _ _ stored_session Hq).
    unfold stored. cbn [messages sessions threads]. fold s user_message.
    by rewrite insert_insert_eq.
  - rewrite handle_send_message_accepted by congruence.
    unfold route_of in Hr. fold s in Hr |- *.
    destruct (negb _); [done|].
    destruct (decide (message_count s = 1)); [done|].
    destruct (preferences_complete s); [done|].
    destruct (decide _) as [|Hge]; [done|].
    rewrite (handle_preference_collection_fallback _ _ _ _ _ stored_session)
      by lia.
    rewrite (process_with_news_agent_eq _ _ _ _ _ stored_session).
    unfold stored. cbn [messages sessions threads]. fold s user_message.
    by rewrite insert_insert_eq.
Qed.

End SendMessageRoutes.

(** *** The other handlers *)

Lemma handle_connect_eq client_id st :
  handle_connect client_id st
  = (inr tt,
     MkServer (messages st) (<[client_id := new_session]> (sessions st))
              (threads st),
     [Emit (connection_response "connected"
              "Successfully connected to chat server") (Room client_id)]).
Proof. done. Qed.

Lemma handle_disconnect_eq client_id st :
  handle_disconnect client_id st
  = (inr tt,
     MkServer (messages st) (delete client_id (sessions st)) (threads st),
     []).
Proof.
  unfold handle_disconnect, bind, gets.
  destruct (decide _) as [|Hn]; [done|].
  rewrite delete_id; [by rewrite server_eta|].
  by apply eq_None_not_Some.
Qed.

Lemma handle_clear_chat_eq client_id now st :
  handle_clear_chat client_id now st
  = (inr tt,
     MkServer [] (match sessions st !! client_id with
                  | Some s => <[client_id := cleared s]> (sessions st)
                  | None => sessions st
                  end) (threads st),
     match sessions st !! client_id with
     | Some _ => [Emit preferences_reset (Room client_id)]
     | None => []
     end ++
     [Emit (chat_cleared "User"
              ("Chat cleared (" +:+ pretty (length (messages st))
               +:+ " messages removed)") now) Broadcast]).
Proof.
  unfold handle_clear_chat.
  unfold bind at 1, gets at 1. unfold bind at 1, set_messages at 1,
    modify at 1. unfold bind at 1, gets at 1. cbn [messages sessions threads].
  destruct (sessions st !! client_id) as [s|] eqn:Hs.
  - destruct (decide _) as [_|Hn]; [|by destruct Hn].
    unfold bind.
    erewrite session_update_some by (cbn [sessions]; exact Hs).
    cbn [messages sessions threads].
    do 3 (erewrite session_update_some
            by (cbn [sessions]; apply lookup_insert_eq);
          cbn [messages sessions threads]).
    unfold emit. cbn [app]. by rewrite !insert_insert_eq.
  - destruct (decide _) as [[? Hn]|_]; [done|]. done.
Qed.

Lemma handle_delete_message_eq client_id data st :
  handle_delete_message client_id data st
  = match data !! "message_id"%string with
    | None =>
      (inr tt, st, [Emit (error "Message ID is required") (Room client_id)])
    | Some message_id =>
      if negb (truthy message_id) then
        (inr tt, st, [Emit (error "Message ID is required") (Room client_id)])
      else
        match scan message_id (messages st) with
        | Refused =>
          (inr tt, st,
           [Emit (error "You can only delete your own messages")
                 (Room client_id)])
        | Popped _ remaining =>
          (inr tt, MkServer remaining (sessions st) (threads st),
           [Emit (message_deleted message_id "User") Broadcast])
        | Exhausted =>
          (inr tt, st, [Emit (error "Message not found") (Room client_id)])
        end
    end.
Proof.
  unfold handle_delete_message.
  destruct (data !! _) as [message_id|]; [|done].
  destruct (negb _); [done|].
  unfold bind at 1, gets at 1.
  by destruct (scan _ _).
Qed.

Lemma handle_wake_eq k uid now st :
  handle (Wake k uid now) st
  = match threads st !! k with
    | Some d =>
      let bot_message :=
        Message uid (d_content d) "Assistant" "assistant" now in
      (inr tt,
       MkServer (messages st ++ [bot_message]) (sessions st)
                (take k (threads st) ++ drop (S k) (threads st)),
       [Emit (new_message bot_message) (Room (d_client_id d))])
    | None => (inr tt, st, [])
    end.
Proof.
  unfold handle. unfold bind at 1, gets at 1.
  by destruct (threads st !! k).
Qed.

(** ** How one event changes one session *)

Lemma step_session e st c :
  sessions (step e st) !! c = session_after e st c.
Proof.
  unfold step. event_cases e;
    cbn [session_after]; [cbn [handle]..|].
  - rewrite handle_connect_eq. cbn. by rewrite lookup_insert.
  - rewrite handle_disconnect_eq. cbn. by rewrite lookup_delete.
  - rewrite handle_send_message_by_route.
    unfold send_result, session_after_send.
    destruct (route_of st sid data); cbn;
      try (rewrite lookup_insert; by case_decide; subst).
    + by case_decide; subst.
    + destruct (preference_questions !! _); cbn;
        [rewrite lookup_insert|]; by case_decide; subst.
  - rewrite handle_delete_message_eq.
    by repeat (case_match; cbn).
  - rewrite handle_clear_chat_eq. cbn.
    destruct (sessions st !! sid) as [s|] eqn:Hs.
    + rewrite lookup_insert. case_decide; subst; [by rewrite Hs|done].
    + case_decide; subst; [by rewrite Hs|done].
  - rewrite handle_wake_eq. by case_match.
Qed.

(** No handler lets an exception escape. *)
Lemma step_never_raises e st : escaped e st = None.
Proof.
  unfold escaped. event_cases e;
    [cbn [handle]..|].
  - by rewrite handle_connect_eq.
  - by rewrite handle_disconnect_eq.
  - rewrite handle_send_message_by_route. unfold send_result.
    destruct (route_of st sid data) eqn:Hr; try done.
    unfold route_of in Hr.
    destruct (negb _); [done|]. destruct (decide (_ = 1)); [done|].
    destruct (preferences_complete _); [done|].
    destruct (decide (_ < _)) as [Hlt|]; [|done].
    by destruct (lookup_lt_is_Some_2 _ _ Hlt) as [q ->].
  - rewrite handle_delete_message_eq. by repeat (case_match; cbn).
  - by rewrite handle_clear_chat_eq.
  - rewrite handle_wake_eq. by destruct (threads st !! k).
Qed.

(** ** The session invariant *)

Lemma keys_NoDup : NoDup (key <$> preference_questions).
Proof. apply (bool_decide_unpack _). by vm_compute. Qed.

Lemma key_inj i j q q' :
  preference_questions !! i = Some q →
  preference_questions !! j = Some q' →
  key q = key q' → i = j.
Proof.
  intros Hi Hj Hk.
  apply (NoDup_lookup _ i j (key q) keys_NoDup).
  - by rewrite list_lookup_fmap, Hi.
  - by rewrite list_lookup_fmap, Hj, Hk.
Qed.

Lemma no_preferences_None k v : no_preferences !! k = Some v → v = None.
Proof.
  unfold no_preferences. rewrite !lookup_insert, lookup_empty.
  repeat case_decide; congruence.
Qed.

Lemma new_session_invariant : session_invariant new_session.
Proof.
  split; cbn.
  - lia.
  - split; [done|lia].
  - intros j q _. split; [|lia].
    intros [v Hv]. cbn in Hv. by apply no_preferences_None in Hv.
Qed.

Lemma cleared_invariant s : session_invariant (cleared s).
Proof.
  split; cbn.
  - lia.
  - split; [done|lia].
  - intros j q _. split; [|lia].
    intros [v Hv]. cbn in Hv. by apply no_preferences_None in Hv.
Qed.

Lemma counted_invariant st c :
  (∀ s, sessions st !! c = Some s → session_invariant s) →
  session_invariant (counted st c).
Proof.
  intros H. unfold counted.
  destruct (sessions st !! c) as [s|]; cbn.
  - destruct (H s eq_refl) as [H1 H2 H3]. by split.
  - destruct new_session_invariant as [H1 H2 H3]. by split.
Qed.

Lemma dispatched_fields api s :
  preferences (dispatched api s) = preferences s ∧
  preferences_complete (dispatched api s) = preferences_complete s ∧
  current_preference_index (dispatched api s) = current_preference_index s ∧
  message_count (dispatched api s) = message_count s.
Proof. unfold dispatched. by repeat case_match. Qed.

Lemma dispatched_invariant api s :
  session_invariant s → session_invariant (dispatched api s).
Proof.
  intros [H1 H2 H3].
  destruct (dispatched_fields api s) as (Hp & Hc & Hi & _).
  split; unfold answer_stored; rewrite ?Hp, ?Hc, ?Hi; done.
Qed.

Lemma answered_fields q input s :
  preference_questions !! current_preference_index s = Some q →
  preferences (answered q input s)
    = <[key q := Some input]> (preferences s) ∧
  current_preference_index (answered q input s)
    = current_preference_index s + 1 ∧
  preferences_complete (answered q input s)
    = (if decide (current_preference_index s + 1 = N_questions)
       then true else preferences_complete s) ∧
  message_count (answered q input s) = message_count s ∧
  thread_id (answered q input s) = thread_id s ∧
  assistant_id (answered q input s) = assistant_id s.
Proof.
  intros Hq%lookup_lt_Some. unfold answered. cbn -[preference_questions].
  repeat case_decide; try done; lia.
Qed.

Lemma answered_invariant q input s :
  preference_questions !! current_preference_index s = Some q →
  session_invariant s → session_invariant (answered q input s).
Proof.
  intros Hq [H1 H2 H3].
  destruct (answered_fields q input s Hq) as (Hp & Hi & Hc & _).
  pose proof (lookup_lt_Some _ _ _ Hq) as Hlt.
  split; unfold answer_stored; rewrite ?Hp, ?Hc, ?Hi.
  - lia.
  - case_decide; [done|]. rewrite H2. lia.
  - intros j q' Hq'. rewrite lookup_insert.
    destruct (decide (key q = key q')) as [Hk|Hk].
    + pose proof (key_inj _ _ _ _ Hq Hq' Hk). split; [lia|eauto].
    + fold (answer_stored s q'). rewrite (H3 j q' Hq').
      split; [lia|]. intros Hj.
      destruct (decide (j = current_preference_index s)) as [->|]; [|lia].
      congruence.
Qed.

Lemma session_after_invariant e st c s' :
  (∀ c s, sessions st !! c = Some s → session_invariant s) →
  session_after e st c = Some s' → session_invariant s'.
Proof.
  intros Hinv.
  event_cases e;
    cbn [session_after]; try (by apply Hinv).
  - case_decide; [|by apply Hinv].
    intros [= <-]. apply new_session_invariant.
  - case_decide; [done|by apply Hinv].
  - case_decide; [subst c|by apply Hinv]. unfold session_after_send.
    pose proof (counted_invariant st sid (Hinv sid)) as Hc.
    destruct (route_of st sid data).
    + by apply Hinv.
    + by intros [= <-].
    + intros [= <-]. by apply dispatched_invariant.
    + destruct (preference_questions !! _) eqn:Hq; [|by apply Hinv].
      intros [= <-]. by apply answered_invariant.
    + intros [= <-]. by apply dispatched_invariant.
  - case_decide; [subst c|by apply Hinv].
    destruct (sessions st !! sid); [|done].
    intros [= <-]. apply cleared_invariant.
Qed.

Lemma reachable_invariant st :
  reachable st → ∀ c s, sessions st !! c = Some s → session_invariant s.
Proof.
  induction 1 as [|e st _ IH]; intros c s.
  - unfold initial. cbn [sessions]. by rewrite lookup_empty.
  - rewrite step_session. by apply session_after_invariant.
Qed.

Lemma counted_fields st c s :
  sessions st !! c = Some s →
  counted st c = with_message_count (message_count s + 1) s.
Proof. unfold counted. by intros ->. Qed.

Lemma session_after_step e st c s s' :
  session_invariant s →
  sessions st !! c = Some s →
  session_after e st c = Some s' →
  session_step e c s s'.
Proof.
  intros Hinv Hs.
  event_cases e;
    cbn [session_after].
  - case_decide; [subst c|].
    + intros [= <-]. apply step_reset; eauto.
    + rewrite Hs. intros [= <-]. by apply step_kept.
  - case_decide; [done|]. rewrite Hs. intros [= <-]. by apply step_kept.
  - case_decide; [subst c|rewrite Hs; intros [= <-]; by apply step_kept].
    unfold session_after_send, route_of.
    rewrite (counted_fields _ _ _ Hs).
    cbn [message_count preferences_complete current_preference_index
         with_message_count].
    destruct (negb _).
    { rewrite Hs. intros [= <-]. by apply step_kept. }
    destruct (decide (_ = 1)).
    { intros [= <-]. by apply step_kept. }
    destruct (preferences_complete s) eqn:Hc.
    { intros [= <-].
      destruct (dispatched_fields api
                  (with_message_count (message_count s + 1) s))
        as (Hp & Hc' & Hi & _).
      apply step_kept; rewrite ?Hp, ?Hc', ?Hi; done. }
    destruct (decide (_ < _)) as [Hlt|Hge].
    + destruct (lookup_lt_is_Some_2 _ _ Hlt) as [q Hq]. rewrite Hq.
      intros [= <-].
      destruct (answered_fields q (content_of data)
                  (with_message_count (message_count s + 1) s) Hq)
        as (Hp & Hi & Hc' & _).
      eapply step_answer; eauto; [lia|].
      rewrite Hc'. cbn [preferences_complete with_message_count
                        current_preference_index]. rewrite Hc.
      clear Hc'. case_decide; naive_solver.
    + exfalso. destruct Hinv as [Hb Hiff _].
      assert (current_preference_index s = N_questions) as Heq by lia.
      apply Hiff in Heq. congruence.
  - rewrite Hs. intros [= <-]. by apply step_kept.
  - case_decide; [subst c|rewrite Hs; intros [= <-]; by apply step_kept].
    rewrite Hs. intros [= <-]. apply step_reset; eauto.
  - rewrite Hs. intros [= <-]. by apply step_kept.
Qed.

(** C4.  In every state the server can reach, every session has its
    question index between 0 and the number of questions, has its
    [preferences_complete] flag set exactly when the index equals the
    number of questions, and has stored answers for exactly the questions
    below the index.  An event leaves the onboarding state of a session
    alone, or stores one answer and moves the index up by one, or (a clear
    by the client, or its connect) resets it; the flag turns from false to
    true only on the [send_message] that stores the answer to the last
    question. *)
Theorem onboarding_invariant st :
  reachable st →
  (∀ c s, sessions st !! c = Some s →
     0 ≤ current_preference_index s ≤ length preference_questions ∧
     (preferences_complete s = true
      ↔ current_preference_index s = length preference_questions) ∧
     (∀ j q, preference_questions !! j = Some q →
        answer_stored s q ↔ j < current_preference_index s)) ∧
  (∀ e c s s',
     sessions st !! c = Some s → sessions (step e st) !! c = Some s' →
     session_step e c s s') ∧
  (∀ e c s s',
     sessions st !! c = Some s → sessions (step e st) !! c = Some s' →
     preferences_complete s = false → preferences_complete s' = true →
     ∃ data uid now api q,
       e = SendMessage c data uid now api ∧
       preference_questions !! current_preference_index s = Some q ∧
       current_preference_index s + 1 = length preference_questions ∧
       current_preference_index s' = length preference_questions ∧
       preferences s' !! key q = Some (Some (content_of data))).
Proof.
  intros Hr. pose proof (reachable_invariant st Hr) as Hinv.
  assert (Hstep : ∀ e c s s',
     sessions st !! c = Some s → sessions (step e st) !! c = Some s' →
     session_step e c s s').
  { intros e c s s' Hs. rewrite step_session.
    apply session_after_step; eauto. }
  split; [|split; [exact Hstep|]].
  - intros c s Hs. destruct (Hinv c s Hs) as [H1 H2 H3].
    split; [lia|]. split; [exact H2|exact H3].
  - intros e c s s' Hs Hs' Hc Hc'.
    destruct (Hstep e c s s' Hs Hs')
      as [_ _ Hk|data uid now api q -> _ _ Hq Hp Hi Hiff|_ _ _ Hf];
      [congruence| |congruence].
    exists data, uid, now, api, q. apply Hiff in Hc'.
    repeat split; try done; [lia|].
    rewrite Hp. apply lookup_insert_eq.
Qed.

Lemma onboarding_invariant_witness :
  let st := run [Connect "A";
                 SendMessage "A" (content "hello") "u1" "t1" fine;
                 SendMessage "A" (content "formal") "u2" "t2" fine]
                initial in
  ∃ s, sessions st !! "A"%string = Some s ∧
       current_preference_index s = 1 ∧
       0 ≤ current_preference_index s ≤ length preference_questions ∧
       (preferences_complete s = true
        ↔ current_preference_index s = length preference_questions).
Proof.
  intros st.
  assert (Hr : reachable st).
  { unfold st, run. cbn [foldl].
    repeat apply reachable_step. apply reachable_initial. }
  assert (Hs : sessions st !! "A"%string
    = Some (Session None None
              (<["tone_of_voice"%string := Some "formal"%string]>
                 no_preferences) false 1 2))
    by (vm_compute; reflexivity).
  destruct (proj1 (onboarding_invariant st Hr) "A" _ Hs) as (Hb & Hiff & _).
  eexists. split; [exact Hs|]. split; [reflexivity|]. split; assumption.
Defined.

(** C10.  In every reachable state and for every [send_message] event,
    the handler does not take the fallback branch of
    [handle_preference_collection]: in the state in which that function
    is called, a session whose flag is false has its index strictly below
    the number of questions, and the function stores the answer there. *)
Theorem fallback_unreachable st :
  reachable st →
  ∀ client_id data uid now api,
    route_of st client_id data ≠ CollectFallback ∧
    ∀ s, sessions (stored st client_id data uid now) !! client_id = Some s →
         preferences_complete s = false →
         current_preference_index s < length preference_questions ∧
         ∃ q, preference_questions !! current_preference_index s = Some q ∧
              handle_preference_collection client_id (content_of data) api
                (stored st client_id data uid now)
              = (inr tt,
                 MkServer (messages (stored st client_id data uid now))
                   (<[client_id := answered q (content_of data) s]>
                      (sessions (stored st client_id data uid now)))
                   (threads st ++
                    [Delayed client_id
                       (follow_up (current_preference_index s)) 500]),
                 [Emit (preference_update (key q) (content_of data))
                       (Room client_id)]).
Proof.
  intros Hr client_id data uid now api.
  pose proof (counted_invariant st client_id
                (reachable_invariant st Hr client_id)) as [Hb Hiff _].
  assert (Hlt : preferences_complete (counted st client_id) = false →
                current_preference_index (counted st client_id)
                < length preference_questions).
  { intros Hc. destruct (decide (current_preference_index
                                   (counted st client_id)
                                 = length preference_questions)) as [He|];
      [|lia].
    apply Hiff in He. congruence. }
  split.
  - unfold route_of. destruct (negb _); [done|].
    destruct (decide (_ = 1)); [done|].
    destruct (preferences_complete _); [done|].
    destruct (decide (_ < _)) as [|Hn]; [done|]. by destruct Hn; apply Hlt.
  - intros s Hs Hc. pose proof Hs as Hs'.
    rewrite stored_session in Hs'. injection Hs' as <-.
    split; [by apply Hlt|].
    destruct (lookup_lt_is_Some_2 _ _ (Hlt Hc)) as [q Hq].
    exists q. split; [exact Hq|].
    by rewrite (handle_preference_collection_eq _ _ _ _ _ _ Hs Hq).
Qed.

Lemma fallback_unreachable_witness :
  let st :=
    run [Connect "A"; SendMessage "A" (content "hello") "u1" "t1" fine]
        initial in
  let data := content "formal" in
  let called := stored st "A" data "u2" "t2" in
  let s := Session None None no_preferences false 0 2 in
  sessions called !! "A"%string = Some s ∧
  preferences_complete s = false ∧
  route_of st "A" data ≠ CollectFallback ∧
  current_preference_index s < length preference_questions ∧
  ∃ q, preference_questions !! current_preference_index s = Some q ∧
       handle_preference_collection "A" (content_of data) fine called
       = (inr tt,
          MkServer (messages called)
            (<["A"%string := answered q (content_of data) s]>
               (sessions called))
            (threads st ++
             [Delayed "A" (follow_up (current_preference_index s)) 500]),
          [Emit (preference_update (key q) (content_of data)) (Room "A")]).
Proof.
  intros st data called s.
  assert (Hr : reachable st).
  { unfold st, run. cbn [foldl].
    repeat apply reachable_step. apply reachable_initial. }
  assert (Hs : sessions called !! "A"%string = Some s)
    by (vm_compute; reflexivity).
  destruct (fallback_unreachable st Hr "A" data "u2" "t2" fine) as [H1 H2].
  destruct (H2 s Hs eq_refl) as [Hlt Hq].
  split; [exact Hs|]. split; [reflexivity|]. split; [exact H1|].
  split; [exact Hlt|]. exact Hq.
Defined.

(** ** Events that leave a given session alone *)

Lemma quiet_step e st c :
  quiet c e = true → sessions (step e st) !! c = sessions st !! c.
Proof.
  rewrite step_session.
  event_cases e;
    cbn [quiet session_after]; try done;
    try (intros Hq%negb_true_iff%bool_decide_eq_false; by case_decide).
  intros [Hq%negb_true_iff%bool_decide_eq_false|Hq]%orb_true_iff;
    case_decide; try done.
  subst. unfold session_after_send, route_of. by rewrite Hq.
Qed.

Lemma quiet_run es st c :
  forallb (quiet c) es = true →
  sessions (run es st) !! c = sessions st !! c.
Proof.
  revert st. induction es as [|e es IH]; intros st; [done|].
  cbn [forallb run foldl]. intros [He Hes]%andb_true_iff.
  fold (run es (step e st)). rewrite IH by done. by apply quiet_step.
Qed.

Lemma step_send_eq client_id data uid now api st :
  step (SendMessage client_id data uid now api) st
  = (send_result st client_id data uid now api).1.2.
Proof. unfold step. cbn [handle]. by rewrite handle_send_message_by_route. Qed.

Lemma emitted_send_eq client_id data uid now api st :
  emitted (SendMessage client_id data uid now api) st
  = (send_result st client_id data uid now api).2.
Proof.
  unfold emitted. cbn [handle]. by rewrite handle_send_message_by_route.
Qed.

Lemma truthy_nonempty s : s ≠ EmptyString → negb (truthy s) = false.
Proof. by destruct s. Qed.

Lemma counted_at_start st c :
  at_start (sessions st !! c) →
  message_count (counted st c) = 1 ∧
  current_preference_index (counted st c) = 0 ∧
  preferences_complete (counted st c) = false ∧
  preferences (counted st c) = no_preferences.
Proof.
  unfold counted, at_start. destruct (sessions st !! c) as [s|]; cbn.
  - intros (-> & ? & ? & ?). done.
  - done.
Qed.

(** A message that stores an answer. *)
Lemma send_collect st client_id data uid now api s q :
  sessions st !! client_id = Some s →
  message_count s ≠ 0 →
  preferences_complete s = false →
  preference_questions !! current_preference_index s = Some q →
  content_of data ≠ EmptyString →
  send_result st client_id data uid now api
  = (inr tt,
     MkServer
       (messages st ++ [Message uid (content_of data) "User" "user" now])
       (<[client_id := answered q (content_of data) (counted st client_id)]>
          (sessions st))
       (threads st ++
        [Delayed client_id (follow_up (current_preference_index s)) 500]),
     [Emit (new_message (Message uid (content_of data) "User" "user" now))
           Broadcast;
      Emit (preference_update (key q) (content_of data)) (Room client_id)]).
Proof.
  intros Hs Hn Hc Hq Hne. unfold send_result, route_of.
  rewrite (truthy_nonempty _ Hne), (counted_fields _ _ _ Hs).
  cbn [message_count preferences_complete current_preference_index
       with_message_count].
  destruct (decide (_ = 1)); [lia|]. rewrite Hc.
  destruct (decide (_ < _)) as [|Hge];
    [|by destruct Hge; eapply lookup_lt_Some].
  by rewrite Hq.
Qed.

(** C3, as the code has it.  Take a session that has not yet seen a
    message since it was created or cleared, its first non-empty message,
    then any events that are not the client's own accepted messages,
    clears, connects or disconnects, and then its second non-empty message.
    After the first message no answer is stored, the index is still 0, no
    [preference_update] was emitted, and one thread was started for the
    client: when it wakes, it appends the prompt of question 0 as a bot
    message and emits it to the client.  After the second message the
    preferences hold exactly one answer, the second message's content,
    under the key of question 0. *)
Theorem first_message_only_prompts
    st client_id data1 uid1 now1 api1 es data2 uid2 now2 api2 :
  at_start (sessions st !! client_id) →
  content_of data1 ≠ EmptyString →
  content_of data2 ≠ EmptyString →
  forallb (quiet client_id) es = true →
  let e1 := SendMessage client_id data1 uid1 now1 api1 in
  let e2 := SendMessage client_id data2 uid2 now2 api2 in
  let st1 := step e1 st in
  let st2 := run es st1 in
  let st3 := step e2 st2 in
  ∃ q0, preference_questions !! 0 = Some q0 ∧ key q0 = "tone_of_voice"%string ∧
    (∃ s1, sessions st1 !! client_id = Some s1 ∧
           preferences s1 = no_preferences ∧
           current_preference_index s1 = 0 ∧
           preferences_complete s1 = false) ∧
    emitted e1 st
      = [Emit (new_message
                 (Message uid1 (content_of data1) "User" "user" now1))
              Broadcast] ∧
    threads st1 = threads st ++ [Delayed client_id (question_text q0) 500] ∧
    (∀ uid now,
       let w := Wake (length (threads st)) uid now in
       let prompt :=
         Message uid (question_text q0) "Assistant" "assistant" now in
       messages (step w st1) = messages st1 ++ [prompt] ∧
       sessions (step w st1) = sessions st1 ∧
       threads (step w st1) = threads st ∧
       emitted w st1 = [Emit (new_message prompt) (Room client_id)]) ∧
    (∃ s3, sessions st3 !! client_id = Some s3 ∧
           preferences s3
             = <[key q0 := Some (content_of data2)]> no_preferences ∧
           current_preference_index s3 = 1) ∧
    emitted e2 st2
      = [Emit (new_message
                 (Message uid2 (content_of data2) "User" "user" now2))
              Broadcast;
         Emit (preference_update (key q0) (content_of data2))
              (Room client_id)].
Proof.
  intros Hstart Hne1 Hne2 Hquiet e1 e2 st1 st2 st3.
  destruct (counted_at_start _ _ Hstart) as (Hn & Hi & Hc & Hp).
  assert (Hr1 : send_result st client_id data1 uid1 now1 api1
    = (inr tt,
       MkServer
         (messages st ++ [Message uid1 (content_of data1) "User" "user" now1])
         (<[client_id := counted st client_id]> (sessions st))
         (threads st ++
          [Delayed client_id
             (from_option question_text EmptyString
                (preference_questions !! 0)) 500]),
       [Emit (new_message
                (Message uid1 (content_of data1) "User" "user" now1))
             Broadcast])).
  { unfold send_result, route_of. rewrite (truthy_nonempty _ Hne1).
    by destruct (decide (_ = 1)). }
  assert (Hs1 : sessions st1 !! client_id = Some (counted st client_id)).
  { subst st1 e1. rewrite step_send_eq, Hr1. apply lookup_insert_eq. }
  assert (Hs2 : sessions st2 !! client_id = Some (counted st client_id)).
  { subst st2. by rewrite quiet_run. }
  destruct (preference_questions !! 0) as [q0|] eqn:Hq0'; [|done].
  injection Hq0' as Hq0'.
  assert (Hq0 : preference_questions
                !! current_preference_index (counted st client_id)
                = Some q0) by (by rewrite Hi, <- Hq0').
  exists q0. split; [by rewrite <- Hq0'|]. split; [by rewrite <- Hq0'|].
  pose proof (send_collect st2 client_id data2 uid2 now2 api2 _ _
                Hs2 ltac:(lia) Hc Hq0 Hne2) as Hr2.
  assert (Ht1 : threads st1
                = threads st ++ [Delayed client_id (question_text q0) 500]).
  { subst st1 e1. by rewrite step_send_eq, Hr1. }
  split; [eauto|].
  split; [subst e1; by rewrite emitted_send_eq, Hr1|].
  split; [exact Ht1|].
  split; [|split].
  - intros uid now w prompt. subst w prompt. unfold step, emitted.
    rewrite handle_wake_eq, Ht1, list_lookup_middle by done.
    cbn [fst snd messages sessions threads d_content d_client_id].
    rewrite take_app_length, drop_ge, app_nil_r
      by (rewrite length_app; cbn [length]; lia).
    done.
  - subst st3 e2. rewrite step_send_eq, Hr2. cbn [fst snd sessions].
    rewrite lookup_insert_eq. eexists. split; [done|].
    edestruct answered_fields as (Hp' & Hi' & _);
      [|rewrite Hp', Hi'].
    + rewrite (counted_fields _ _ _ Hs2). exact Hq0.
    + rewrite (counted_fields _ _ _ Hs2).
      cbn [preferences current_preference_index with_message_count].
      by rewrite Hp, Hi.
  - subst e2. by rewrite emitted_send_eq, Hr2.
Qed.

Lemma first_message_only_prompts_witness :
  let st1 := step (SendMessage "A" (content "hello") "u1" "t1" fine)
                  initial in
  let st2 := run [Connect "B"; Wake 0 "u2" "t2";
                  SendMessage "A" (content "   ") "u3" "t3" fine] st1 in
  let st3 := step (SendMessage "A" (content " formal ") "u4" "t4" fine)
                  st2 in
  stored_answer st1 "A" "tone_of_voice" = None ∧
  (∃ q0, preference_questions !! 0 = Some q0 ∧
         messages (step (Wake 0 "u2" "t2") st1)
         = messages st1
           ++ [Message "u2" (question_text q0) "Assistant" "assistant" "t2"]) ∧
  stored_answer st3 "A" "tone_of_voice" = Some "formal"%string.
Proof.
  intros st1 st2 st3.
  assert (H1 : content_of (content "hello") ≠ EmptyString).
  { intros H. vm_compute in H. discriminate H. }
  assert (H2 : content_of (content " formal ") ≠ EmptyString).
  { intros H. vm_compute in H. discriminate H. }
  destruct (first_message_only_prompts initial "A"
              (content "hello") "u1" "t1" fine
              [Connect "B"; Wake 0 "u2" "t2";
               SendMessage "A" (content "   ") "u3" "t3" fine]
              (content " formal ") "u4" "t4" fine I H1 H2 eq_refl)
    as (q0 & Hq0 & Hk & (s1 & Hs1 & Hp1 & _) & _ & _ & Hw
        & (s3 & Hs3 & Hp3 & _) & _).
  destruct (Hw "u2"%string "t2"%string) as (Hm & _).
  unfold stored_answer. fold st1 in Hs1, Hm. fold st1 st2 st3 in Hs3.
  rewrite Hs1, Hs3. cbn [mbind option_bind]. rewrite Hp1, Hp3, Hk.
  split; [reflexivity|]. split; [|reflexivity].
  exists q0. split; [exact Hq0|exact Hm].
Defined.

(** The claim C3 fails when the client clears the chat between its first
    and its second message: after hello, clear, formal and casual, the
    session's second message (formal) stores nothing, being treated as a
    first message again, and the first stored answer is the third message
    (casual). *)
Lemma second_message_after_clear_not_stored :
  let st2 :=
    run [Connect "A";
         SendMessage "A" (content "hello") "u1" "t1" fine;
         ClearChat "A" "t2";
         SendMessage "A" (content "formal") "u3" "t3" fine] initial in
  let st3 := step (SendMessage "A" (content "casual") "u4" "t4" fine) st2 in
  stored_answer st2 "A" "tone_of_voice" = None ∧
  stored_answer st3 "A" "tone_of_voice" = Some "casual"%string.
Proof. vm_compute. repeat split; reflexivity. Qed.

(** ** [strip] *)

Lemma rev_app_rev_app s1 s2 s3 :
  String.rev_app (String.rev_app s1 s2) s3
  = String.rev_app s2 (s1 +:+ s3).
Proof.
  revert s2 s3. induction s1 as [|a s1 IH]; intros s2 s3; [done|].
  cbn [String.rev_app]. by rewrite IH.
Qed.

Lemma append_empty_r s : s +:+ EmptyString = s.
Proof.
  induction s as [|a s IH]; [done|].
  change (String a s +:+ EmptyString) with (String a (s +:+ EmptyString)).
  by rewrite IH.
Qed.

Lemma rev_involutive s : String.rev (String.rev s) = s.
Proof.
  unfold String.rev. rewrite rev_app_rev_app.
  exact (append_empty_r s).
Qed.

Lemma lstrip_clean s :
  (∀ c, first_char s = Some c → isspace c = false) → lstrip s = s.
Proof. destruct s as [|c s]; [done|]. cbn. intros H. by rewrite H. Qed.

(** A string that neither begins nor ends with white space is its own
    [strip]. *)
Lemma strip_clean s :
  (∀ c, first_char s = Some c → isspace c = false) →
  (∀ c, last_char s = Some c → isspace c = false) →
  strip s = s.
Proof.
  intros Hf Hl. unfold strip, rstrip.
  rewrite (lstrip_clean (String.rev s)) by exact Hl.
  rewrite rev_involutive. by apply lstrip_clean.
Qed.

(** C6, as the code has it.  For a session that is collecting question
    [i] and has already seen its first message, a [send_message] whose
    content is not empty once stripped stores the content with leading and
    trailing white space removed under the key of question [i], and emits
    one [preference_update] with that key and value, to the room of the
    sending client only.  Content without white space at either end is
    stored as received. *)
Theorem answer_stored_stripped st client_id data uid now api s q :
  sessions st !! client_id = Some s →
  message_count s ≠ 0 →
  preferences_complete s = false →
  preference_questions !! current_preference_index s = Some q →
  content_of data ≠ EmptyString →
  let e := SendMessage client_id data uid now api in
  let value := strip (default EmptyString (data !! "content"%string)) in
  (∃ s', sessions (step e st) !! client_id = Some s' ∧
         preferences s' = <[key q := Some value]> (preferences s)) ∧
  stored_answer (step e st) client_id (key q) = Some value ∧
  emitted e st
    = [Emit (new_message (Message uid value "User" "user" now)) Broadcast;
       Emit (preference_update (key q) value) (Room client_id)] ∧
  (∀ c, receives c (Emit (preference_update (key q) value) (Room client_id))
        = true ↔ c = client_id) ∧
  (∀ raw, data !! "content"%string = Some raw →
     (∀ c, first_char raw = Some c → isspace c = false) →
     (∀ c, last_char raw = Some c → isspace c = false) →
     value = raw).
Proof.
  intros Hs Hn Hc Hq Hne e value.
  pose proof (send_collect st client_id data uid now api s q
                Hs Hn Hc Hq Hne) as Hr.
  assert (Hq' : preference_questions
                !! current_preference_index (counted st client_id) = Some q).
  { by rewrite (counted_fields _ _ _ Hs). }
  destruct (answered_fields q (content_of data) _ Hq') as (Hp & _).
  rewrite (counted_fields _ _ _ Hs) in Hp at 2.
  cbn [preferences with_message_count] in Hp.
  assert (Hs' : sessions (step e st) !! client_id
                = Some (answered q (content_of data) (counted st client_id))).
  { subst e. rewrite step_send_eq, Hr. apply lookup_insert_eq. }
  repeat split.
  - eauto.
  - unfold stored_answer. rewrite Hs'. cbn [mbind option_bind].
    rewrite Hp. by rewrite lookup_insert_eq.
  - subst e. by rewrite emitted_send_eq, Hr.
  - cbn. by intros ->%bool_decide_eq_true.
  - intros ->. cbn. by apply bool_decide_eq_true.
  - intros raw Hraw Hf Hl. subst value. rewrite Hraw. cbn [default].
    by apply strip_clean.
Qed.

Lemma answer_stored_stripped_witness :
  let st := run [Connect "A"; SendMessage "A" (content "hello") "u1" "t1" fine]
                initial in
  stored_answer
    (step (SendMessage "A" (content "formal") "u2" "t2" fine) st)
    "A" "tone_of_voice"
  = Some "formal"%string.
Proof.
  intros st.
  refine (proj1 (proj2 (answer_stored_stripped st "A" (content "formal")
             "u2" "t2" fine
             (with_message_count 1 new_session)
             (default (Question EmptyString EmptyString EmptyString)
                      (preference_questions !! 0)) _ _ _ _ _)));
    try reflexivity; intros H; vm_compute in H; discriminate H.
Defined.

(** The claim C6 fails in two places.  A session that is collecting
    question 0 and receives the payload content " formal " stores "formal",
    not the content as received; and the first message of a session that is
    collecting question 0 is not stored at all. *)
Lemma answer_not_stored_as_received :
  let st0 := step (Connect "A") initial in
  let st1 := step (SendMessage "A" (content "hello") "u1" "t1" fine) st0 in
  let st2 := step (SendMessage "A" (content " formal ") "u2" "t2" fine) st1 in
  (current_preference_index <$> sessions st1 !! "A"%string = Some 0 ∧
   preferences_complete <$> sessions st1 !! "A"%string = Some false) ∧
  stored_answer st2 "A" "tone_of_voice" = Some "formal"%string ∧
  stored_answer st2 "A" "tone_of_voice" ≠ Some " formal "%string ∧
  (current_preference_index <$> sessions st0 !! "A"%string = Some 0 ∧
   preferences_complete <$> sessions st0 !! "A"%string = Some false) ∧
  stored_answer st1 "A" "tone_of_voice" = None.
Proof.
  intros st0 st1 st2. repeat split; by vm_compute.
Qed.

(** ** clear_chat *)

(** C1, as the code has it.  A [clear_chat] empties the message store and
    resets the session of the requesting client, when it has one: all five
    preferences absent, onboarding incomplete, question index 0 (and
    message count 0).  Every other session is left as it was. *)
Theorem clear_resets_requester st client_id now :
  let e := ClearChat client_id now in
  messages (step e st) = [] ∧
  escaped e st = None ∧
  sessions (step e st) !! client_id = cleared <$> sessions st !! client_id ∧
  (∀ s, preferences (cleared s) = no_preferences ∧
        (∀ k v, preferences (cleared s) !! k = Some v → v = None) ∧
        preferences_complete (cleared s) = false ∧
        current_preference_index (cleared s) = 0 ∧
        message_count (cleared s) = 0) ∧
  (∀ c, c ≠ client_id → sessions (step e st) !! c = sessions st !! c).
Proof.
  intros e. split; [|split; [|split; [|split]]].
  - unfold e, step. cbn [handle]. by rewrite handle_clear_chat_eq.
  - apply step_never_raises.
  - rewrite step_session. cbn. by case_decide.
  - intros s. repeat split. intros k v. apply no_preferences_None.
  - intros c Hc. rewrite step_session. cbn. by case_decide.
Qed.

(** The claim C1 fails where it speaks of every session: B has answered
    the first question; after A's clear B is still at index 1 with its
    answer stored. *)
Lemma clear_keeps_other_session :
  let st := run [Connect "A"; Connect "B";
                 SendMessage "B" (content "hello") "u1" "t1" fine;
                 SendMessage "B" (content "formal") "u2" "t2" fine]
                initial in
  let st' := step (ClearChat "A" "t3") st in
  is_Some (sessions st !! "B"%string) ∧
  current_preference_index <$> sessions st' !! "B"%string = Some 1 ∧
  current_preference_index <$> sessions st' !! "B"%string ≠ Some 0 ∧
  stored_answer st' "B" "tone_of_voice" = Some "formal"%string.
Proof.
  intros st st'. split; [by eexists; vm_compute|].
  split; [by vm_compute|]. split; [by vm_compute|by vm_compute].
Qed.

(** ** Messages and broadcasts *)

Lemma scan_popped_length message_id msgs m remaining :
  scan message_id msgs = Popped m remaining →
  length msgs = S (length remaining).
Proof.
  revert remaining. induction msgs as [|msg rest IH]; intros remaining;
    [done|].
  cbn [scan]. repeat case_decide.
  - by intros [= _ <-].
  - done.
  - destruct (scan message_id rest) as [m' r| |] eqn:Hs; [|done..].
    intros [= -> <-]. cbn. by rewrite (IH r).
Qed.

Lemma step_delete_eq client_id data st :
  step (DeleteMessage client_id data) st
  = (handle_delete_message client_id data st).1.2.
Proof. done. Qed.

(** C2, as the code has it.  When an event appends a message to the
    store, the event is an accepted [send_message] and the message, a user
    message, is emitted as [new_message] to every client, or the event is
    the wake-up of a sleeping [delayed_response] thread and the message,
    a bot message, is emitted as [new_message] to the room of the one
    client the thread was started for. *)
Theorem appended_message_emitted e st m :
  messages (step e st) = messages st ++ [m] →
  (∃ sid data uid now api,
     e = SendMessage sid data uid now api ∧
     m = Message uid (content_of data) "User" "user" now ∧
     Emit (new_message m) Broadcast ∈ emitted e st ∧
     ∀ c, receives c (Emit (new_message m) Broadcast) = true) ∨
  (∃ k uid now d,
     e = Wake k uid now ∧ threads st !! k = Some d ∧
     m = Message uid (d_content d) "Assistant" "assistant" now ∧
     emitted e st = [Emit (new_message m) (Room (d_client_id d))] ∧
     ∀ c, receives c (Emit (new_message m) (Room (d_client_id d))) = true
          ↔ c = d_client_id d).
Proof.
  assert (Hsame : ∀ l : list message, l ≠ l ++ [m]).
  { intros l Hl%(f_equal length). rewrite length_app in Hl. cbn in Hl. lia. }
  event_cases e.
  - intros H. by destruct (Hsame (messages st)).
  - unfold step. cbn [handle]. rewrite handle_disconnect_eq.
    intros H. by destruct (Hsame (messages st)).
  - rewrite step_send_eq, emitted_send_eq. unfold send_result.
    intros H. left. exists sid, data, uid, now, api.
    split; [done|].
    destruct (route_of st sid data); cbn in H |- *.
    + by destruct (Hsame (messages st)).
    + apply app_inv_head in H as [= <-]. repeat split. set_solver.
    + apply app_inv_head in H as [= <-]. repeat split. set_solver.
    + destruct (preference_questions !! _); cbn in H |- *.
      * apply app_inv_head in H as [= <-]. repeat split. set_solver.
      * by destruct (Hsame (messages st)).
    + apply app_inv_head in H as [= <-]. repeat split. set_solver.
  - rewrite step_delete_eq, handle_delete_message_eq. intros H. exfalso.
    destruct (data !! _) as [message_id|]; [|by destruct (Hsame (messages st))].
    destruct (negb _); [by destruct (Hsame (messages st))|].
    destruct (scan _ _) as [m' r| |] eqn:Hscan;
      [|by destruct (Hsame (messages st))..].
    apply scan_popped_length in Hscan. cbn in H.
    apply (f_equal length) in H. rewrite length_app in H. cbn in H. lia.
  - unfold step. cbn [handle]. rewrite handle_clear_chat_eq. cbn.
    intros H. by destruct (messages st).
  - unfold step, emitted. rewrite handle_wake_eq.
    destruct (threads st !! k) as [d|] eqn:Hd; cbn.
    + intros [= <-]%app_inv_head. right. exists k, uid, now, d.
      repeat split; try done.
      * by intros ->%bool_decide_eq_true.
      * intros ->. by apply bool_decide_eq_true.
    + intros H. by destruct (Hsame (messages st)).
Qed.

Lemma appended_message_emitted_witness :
  let st := run [Connect "A"; Connect "B";
                 SendMessage "A" (content "hello") "u1" "t1" fine]
                initial in
  ∃ d, threads st !! 0 = Some d ∧
       emitted (Wake 0 "u2" "t2") st
       = [Emit (new_message
                  (Message "u2" (d_content d) "Assistant" "assistant" "t2"))
               (Room (d_client_id d))].
Proof.
  intros st.
  set (m := Message "u2"
              (from_option d_content EmptyString (threads st !! 0))
              "Assistant" "assistant" "t2").
  assert (H : messages (step (Wake 0 "u2" "t2") st) = messages st ++ [m])
    by (vm_compute; reflexivity).
  destruct (appended_message_emitted _ _ _ H)
    as [(sid & data & uid & now & api & Heq & _)
       |(k & uid & now & d & Heq & Hd & Hm & Hem & _)].
  - discriminate Heq.
  - injection Heq as <- <- <-. exists d. split; [exact Hd|].
    rewrite Hem. rewrite Hm. reflexivity.
Defined.

(** The claim C2 fails for bot messages: A and B are connected, the bot's
    reply to A's message is appended to the store and emitted to A's room,
    which B does not receive. *)
Lemma bot_message_not_broadcast :
  let st := run [Connect "A"; Connect "B";
                 SendMessage "A" (content "hello") "u1" "t1" fine]
                initial in
  let e := Wake 0 "u2" "t2" in
  ∃ m, messages (step e st) = messages st ++ [m] ∧
       is_Some (sessions (step e st) !! "B"%string) ∧
       emitted e st = [Emit (new_message m) (Room "A")] ∧
       receives "B" (Emit (new_message m) (Room "A")) = false.
Proof.
  intros st e. eexists. split; [by vm_compute|].
  split; [by eexists; vm_compute|]. split; by vm_compute.
Qed.

(** A thread is started for the client whose message is being handled. *)
Lemma threads_started_for_sender e st d :
  d ∈ threads (step e st) →
  d ∈ threads st ∨
  ∃ sid data uid now api,
    e = SendMessage sid data uid now api ∧ d_client_id d = sid.
Proof.
  event_cases e.
  - by left.
  - unfold step. cbn [handle]. rewrite handle_disconnect_eq. by left.
  - rewrite step_send_eq. unfold send_result.
    assert (Hin : ∀ text,
      d ∈ threads st ++ [Delayed sid text 500] →
      d ∈ threads st ∨
      ∃ sid0 data0 uid0 now0 api0,
        SendMessage sid data uid now api
        = SendMessage sid0 data0 uid0 now0 api0 ∧ d_client_id d = sid0).
    { intros text [?| ->%list_elem_of_singleton]%elem_of_app; [by left|].
      right. by exists sid, data, uid, now, api. }
    destruct (route_of st sid data); cbn; try apply Hin; [by left|].
    destruct (preference_questions !! _); cbn; [apply Hin|by left].
  - rewrite step_delete_eq, handle_delete_message_eq.
    repeat (case_match; cbn); by left.
  - unfold step. cbn [handle]. rewrite handle_clear_chat_eq. by left.
  - unfold step. rewrite handle_wake_eq.
    destruct (threads st !! k); cbn; [|by left].
    intros [H|H]%elem_of_app; left.
    + by apply (subseteq_take k (threads st)).
    + by apply (subseteq_drop (S k) (threads st)).
Qed.

(** ** delete_message *)

Section Delete.

Context (message_id : string).

Lemma scan_exhausted msgs :
  (∀ m, m ∈ msgs → m_id m ≠ message_id) → scan message_id msgs = Exhausted.
Proof.
  induction msgs as [|msg rest IH]; [done|]. intros H. cbn [scan].
  destruct (decide _) as [He|_]; [by destruct (H msg); [left|]|].
  rewrite IH; [done|]. intros m Hm. apply H. by right.
Qed.

Lemma scan_found l1 m l2 :
  NoDup (m_id <$> (l1 ++ m :: l2)) →
  m_id m = message_id →
  scan message_id (l1 ++ m :: l2)
  = if decide (m_user_id m = "user"%string) then Popped m (l1 ++ l2)
    else Refused.
Proof.
  intros Hnd Hm. induction l1 as [|msg l1 IH]; cbn [scan app].
  - destruct (decide _); [done|congruence].
  - cbn in Hnd. apply NoDup_cons in Hnd as [Hnotin Hnd].
    destruct (decide (m_id msg = message_id)) as [He|_].
    { destruct Hnotin. rewrite He, <- Hm. apply list_elem_of_fmap_2.
      apply elem_of_app. right. by left. }
    rewrite (IH Hnd). by case_decide.
Qed.

End Delete.

(** C5.  Take a store whose ids are pairwise distinct and a delete request
    that carries a non-empty id.  If the message with
    that id is not a user message, the requester gets the error "You can
    only delete your own messages" and the state is unchanged.  If no
    message has the id, the requester gets "Message not found" and the state
    is unchanged.  If the message is a user message, exactly that message
    is removed, the deletion is broadcast, and the same request once more
    gets "Message not found".  No exception escapes. *)
Theorem delete_message_outcomes st client_id data message_id :
  data !! "message_id"%string = Some message_id →
  message_id ≠ EmptyString →
  NoDup (m_id <$> messages st) →
  let e := DeleteMessage client_id data in
  escaped e st = None ∧
  (∀ m, m ∈ messages st → m_id m = message_id →
        m_user_id m ≠ "user"%string →
        step e st = st ∧
        emitted e st
        = [Emit (error "You can only delete your own messages")
                (Room client_id)]) ∧
  ((∀ m, m ∈ messages st → m_id m ≠ message_id) →
   step e st = st ∧
   emitted e st = [Emit (error "Message not found") (Room client_id)]) ∧
  (∀ l1 m l2, messages st = l1 ++ m :: l2 → m_id m = message_id →
        m_user_id m = "user"%string →
        step e st = MkServer (l1 ++ l2) (sessions st) (threads st) ∧
        emitted e st = [Emit (message_deleted message_id "User") Broadcast] ∧
        step e (step e st) = step e st ∧
        emitted e (step e st)
        = [Emit (error "Message not found") (Room client_id)]).
Proof.
  intros Hd Hne Hnd e.
  assert (Hh : ∀ st', handle e st'
    = match scan message_id (messages st') with
      | Refused =>
        (inr tt, st',
         [Emit (error "You can only delete your own messages")
               (Room client_id)])
      | Popped _ remaining =>
        (inr tt, MkServer remaining (sessions st') (threads st'),
         [Emit (message_deleted message_id "User") Broadcast])
      | Exhausted =>
        (inr tt, st', [Emit (error "Message not found") (Room client_id)])
      end).
  { intros st'. unfold e. cbn [handle]. rewrite handle_delete_message_eq, Hd.
    by rewrite (truthy_nonempty _ Hne). }
  split; [apply step_never_raises|]. split; [|split].
  - intros m Hm Hid Hu.
    apply list_elem_of_split in Hm as (l1 & l2 & Hm).
    unfold step, emitted. rewrite Hh, Hm.
    rewrite scan_found by (by rewrite <- ?Hm).
    by destruct (decide _).
  - intros Hno. unfold step, emitted. rewrite Hh.
    by rewrite scan_exhausted.
  - intros l1 m l2 Hm Hid Hu.
    assert (Hst : step e st
                  = MkServer (l1 ++ l2) (sessions st) (threads st)).
    { unfold step. rewrite Hh, Hm.
      rewrite scan_found by (by rewrite <- ?Hm).
      by destruct (decide _). }
    assert (Hgone : ∀ m', m' ∈ l1 ++ l2 → m_id m' ≠ message_id).
    { intros m' Hin He. rewrite Hm in Hnd.
      rewrite fmap_app, fmap_cons in Hnd.
      apply NoDup_app in Hnd as (_ & Hdisj & Hnd2).
      apply NoDup_cons in Hnd2 as [Hnotin _].
      apply elem_of_app in Hin as [Hin|Hin].
      - apply (Hdisj (m_id m')); [by apply list_elem_of_fmap_2|].
        rewrite He, <- Hid. by left.
      - apply Hnotin. rewrite Hid, <- He. by apply list_elem_of_fmap_2. }
    split; [exact Hst|]. split.
    + unfold emitted. rewrite Hh, Hm.
      rewrite scan_found by (by rewrite <- ?Hm).
      by destruct (decide _).
    + rewrite Hst. unfold step, emitted. rewrite Hh. cbn [messages].
      by rewrite scan_exhausted.
Qed.

Lemma delete_message_outcomes_witness :
  let st := run [Connect "A";
                 SendMessage "A" (content "hello") "u1" "t1" fine;
                 Wake 0 "u2" "t2"] initial in
  let e := DeleteMessage "A" (delete_request "u1") in
  messages (step e st)
  = [Message "u2"
       (from_option question_text EmptyString (preference_questions !! 0))
       "Assistant" "assistant" "t2"] ∧
  emitted e (step e st) = [Emit (error "Message not found") (Room "A")].
Proof.
  intros st e.
  assert (Hne : "u1"%string ≠ EmptyString) by discriminate.
  assert (Hnd : NoDup (m_id <$> messages st)).
  { apply (bool_decide_unpack _). vm_compute. exact I. }
  destruct (delete_message_outcomes st "A" (delete_request "u1") "u1"
              eq_refl Hne Hnd) as (_ & _ & _ & H).
  set (bot := Message "u2"
                (from_option question_text EmptyString
                   (preference_questions !! 0))
                "Assistant" "assistant" "t2").
  assert (Hm : messages st
               = [] ++ Message "u1" "hello" "User" "user" "t1" :: [bot])
    by (vm_compute; reflexivity).
  destruct (H [] _ [bot] Hm eq_refl eq_refl)
    as (H1 & _ & _ & H4).
  split; [|exact H4]. unfold e. by rewrite H1.
Defined.

(** A request whose id is the empty string is treated as one without an
    id: the error is "Message ID is required", and the store is not
    searched. *)
Lemma delete_empty_id_not_a_lookup :
  let e := DeleteMessage "A" (delete_request EmptyString) in
  (∀ m, m ∈ messages initial → m_id m ≠ EmptyString) ∧
  emitted e initial = [Emit (error "Message ID is required") (Room "A")] ∧
  emitted e initial ≠ [Emit (error "Message not found") (Room "A")].
Proof.
  intros e. split; [by intros m Hm%elem_of_nil|]. split; [by vm_compute|].
  intros H. vm_compute in H. discriminate H.
Qed.

(** ** The dispatcher and a failing backend *)

Lemma process_message_raised api tid x :
  conversation_body api tid = inl x →
  process_message api tid
  = inr ("Error in assistant conversation: " +:+ str x,
         SessionData None None
           (Some ("Error in assistant conversation: " +:+ str x))).
Proof.
  unfold process_message, _handle_assistant_conversation. by intros ->.
Qed.

(** The agent's reply for each kind of failure. *)
Example reply_when_run_failed :
  process_message
    (Backend (inr "asst_1"%string) (inr "thread_1"%string) None
             (inr (Run "failed")) (inr 0) (inr (Run "failed")) (inr []))
    None
  = inr ("Assistant run failed with status: failed"%string,
         SessionData (Some "asst_1"%string) (Some "thread_1"%string)
           (Some "Assistant run failed with status: failed"%string)).
Proof. reflexivity. Qed.

Example reply_when_no_messages :
  process_message
    (Backend (inr "asst_1"%string) (inr "thread_1"%string) None
             (inr (Run "completed")) (inr 0) (inr (Run "completed"))
             (inr []))
    (Some "thread_0"%string)
  = inr ("I apologize, but I couldn't retrieve the response."%string,
         SessionData (Some "asst_1"%string) (Some "thread_0"%string)
           (Some "No messages in response"%string)).
Proof. reflexivity. Qed.

Example reply_when_no_content :
  process_message
    (Backend (inr "asst_1"%string) (inr "thread_1"%string) None
             (inr (Run "requires_action")) (inr 2) (inr (Run "completed"))
             (inr [[]]))
    None
  = inr ("I apologize, but I couldn't generate a response."%string,
         SessionData (Some "asst_1"%string) (Some "thread_1"%string)
           (Some "No content in response"%string)).
Proof. reflexivity. Qed.

Example reply_when_tool_submission_fails :
  process_message
    (Backend (inr "asst_1"%string) (inr "thread_1"%string) None
             (inr (Run "requires_action")) (inr 1)
             (inl (Exception "Bad request")) (inr []))
    None
  = inr ("Error submitting tool outputs: Bad request"%string,
         SessionData (Some "asst_1"%string) (Some "thread_1"%string)
           (Some "Bad request"%string)).
Proof. reflexivity. Qed.

(** A message after onboarding. *)
Lemma send_dispatch st client_id data uid now api s :
  sessions st !! client_id = Some s →
  message_count s ≠ 0 →
  preferences_complete s = true →
  content_of data ≠ EmptyString →
  send_result st client_id data uid now api
  = (inr tt,
     MkServer
       (messages st ++ [Message uid (content_of data) "User" "user" now])
       (<[client_id := dispatched api (counted st client_id)]> (sessions st))
       (threads st ++
        [Delayed client_id (reply api (thread_id s)).1 500]),
     [Emit (new_message (Message uid (content_of data) "User" "user" now))
           Broadcast]) ∧
  route_of st client_id data = Dispatch.
Proof.
  intros Hs Hn Hc Hne. unfold send_result, route_of.
  rewrite (truthy_nonempty _ Hne), (counted_fields _ _ _ Hs).
  cbn [message_count preferences_complete current_preference_index
       with_message_count thread_id].
  destruct (decide (_ = 1)); [lia|]. by rewrite Hc.
Qed.

(** What the turn does with the run it goes on with. *)
Lemma conversation_body_run b tid a t r :
  started b tid a t →
  run_after_tools b = Some r →
  conversation_body b tid
  = if decide (status r = "completed"%string) then
      match messages_list b with
      | inl x => inl x
      | inr [] =>
        inr ("I apologize, but I couldn't retrieve the response."%string,
             SessionData (Some a) (Some t) (Some "No messages in response"%string))
      | inr ([] :: _) =>
        inr ("I apologize, but I couldn't generate a response."%string,
             SessionData (Some a) (Some t) (Some "No content in response"%string))
      | inr ((inl x :: _) :: _) => inl x
      | inr ((inr text :: _) :: _) =>
        inr (text, SessionData (Some a) (Some t) None)
      end
    else
      inr ("Assistant run failed with status: " +:+ status r,
           SessionData (Some a) (Some t)
             (Some ("Assistant run failed with status: " +:+ status r))).
Proof.
  intros (Ha & Ht & Hm) Hr. unfold conversation_body.
  fold (thread_of_turn b tid). rewrite Ha, Ht, Hm. cbn [try_].
  unfold run_after_tools in Hr.
  destruct (create_and_poll b) as [|run0]; [discriminate Hr|]. cbn [try_].
  destruct (decide (status run0 = _)).
  - destruct (execute_tool_calls b) as [|[|n]]; [discriminate Hr| |];
      cbn [try_].
    + injection Hr as ->. destruct (decide (0 = 0)); [|done]. cbn [try_].
      destruct (decide _); [|done].
      destruct (messages_list b) as [|[|[|[] ?] ?]]; done.
    + destruct (decide (S n = 0)); [done|].
      destruct (submit_tool_outputs_and_poll b); [discriminate Hr|].
      injection Hr as ->. cbn [try_].
      destruct (decide _); [|done].
      destruct (messages_list b) as [|[|[|[] ?] ?]]; done.
  - injection Hr as ->. cbn [try_]. destruct (decide _); [|done].
    destruct (messages_list b) as [|[|[|[] ?] ?]]; done.
Qed.

(** What the turn does when the submission of tool outputs raises. *)
Lemma conversation_body_submit b tid a t run0 n x :
  started b tid a t →
  create_and_poll b = inr run0 →
  status run0 = "requires_action"%string →
  execute_tool_calls b = inr (S n) →
  submit_tool_outputs_and_poll b = inl x →
  conversation_body b tid
  = inr ("Error submitting tool outputs: " +:+ str x,
         SessionData (Some a) (Some t) (Some (str x))).
Proof.
  intros (Ha & Ht & Hm) Hr Hs He Hx. unfold conversation_body.
  fold (thread_of_turn b tid). rewrite Ha, Ht, Hm, Hr. cbn [try_].
  rewrite decide_True by done. rewrite He. cbn [try_].
  rewrite decide_False by done. by rewrite Hx.
Qed.

Lemma raised_by_body b tid x :
  raised_by b tid x → conversation_body b tid = inl x.
Proof.
  intros [H|a Ha Ht|a t Ha Ht Hm|a t Hst Hr|a t run0 Hst Hr Hs He
          |a t r Hst Hr Hs Hl|a t r rest more Hst Hr Hs Hl].
  - unfold conversation_body. by rewrite H.
  - unfold conversation_body. fold (thread_of_turn b tid). by rewrite Ha, Ht.
  - unfold conversation_body. fold (thread_of_turn b tid).
    by rewrite Ha, Ht, Hm.
  - destruct Hst as (Ha & Ht & Hm).
    unfold conversation_body. fold (thread_of_turn b tid).
    by rewrite Ha, Ht, Hm, Hr.
  - destruct Hst as (Ha & Ht & Hm).
    unfold conversation_body. fold (thread_of_turn b tid).
    rewrite Ha, Ht, Hm, Hr. cbn [try_]. rewrite decide_True by done.
    by rewrite He.
  - rewrite (conversation_body_run _ _ _ _ _ Hst Hr), decide_True by done.
    by rewrite Hl.
  - rewrite (conversation_body_run _ _ _ _ _ Hst Hr), decide_True by done.
    by rewrite Hl.
Qed.

Lemma body_raised_by b tid x :
  conversation_body b tid = inl x → raised_by b tid x.
Proof.
  destruct (get_or_create_assistant b) as [x0|a] eqn:Ha.
  { unfold conversation_body. rewrite Ha. intros [= <-].
    by apply raised_by_assistant. }
  destruct (thread_of_turn b tid) as [x0|t] eqn:Ht.
  { unfold conversation_body. fold (thread_of_turn b tid).
    rewrite Ha, Ht. intros [= <-]. by eapply raised_by_thread. }
  destruct (messages_create b) as [x0|] eqn:Hm.
  { unfold conversation_body. fold (thread_of_turn b tid).
    rewrite Ha, Ht, Hm. intros [= <-]. by eapply raised_by_message. }
  assert (Hst : started b tid a t) by done.
  destruct (run_after_tools b) as [r|] eqn:Hr.
  - rewrite (conversation_body_run _ _ _ _ _ Hst Hr).
    destruct (decide _) as [Hs|]; [|done].
    destruct (messages_list b) as [x0|[|[|[x0|] ?] ?]] eqn:Hl; try done.
    + intros [= <-]. by eapply raised_by_listing.
    + intros [= <-]. by eapply raised_by_part.
  - unfold run_after_tools in Hr.
    destruct (create_and_poll b) as [x0|run0] eqn:Hc.
    { unfold conversation_body. fold (thread_of_turn b tid).
      rewrite Ha, Ht, Hm, Hc. intros [= <-]. by eapply raised_by_run. }
    destruct (decide _) as [Hs|]; [|done].
    destruct (execute_tool_calls b) as [x0|[|n]] eqn:He; [|done|].
    { unfold conversation_body. fold (thread_of_turn b tid).
      rewrite Ha, Ht, Hm, Hc. cbn [try_]. rewrite decide_True by done.
      rewrite He. intros [= <-]. by eapply raised_by_tools. }
    destruct (submit_tool_outputs_and_poll b) as [x0|] eqn:Hx; [|done].
    by rewrite (conversation_body_submit _ _ _ _ _ _ _ Hst Hc Hs He Hx).
Qed.

(** Each failure of the turn gives its text, with an error entry. *)
Lemma failure_reply_text b tid txt :
  failure_reply b tid txt →
  ∃ sd err, process_message b tid = inr (txt, sd) ∧ sd_error sd = Some err.
Proof.
  intros [x Hx|a t run0 n x Hst Hc Hs He Hx|a t r Hst Hr Hs
          |a t r Hst Hr Hs Hl|a t r more Hst Hr Hs Hl].
  - apply raised_by_body in Hx. rewrite (process_message_raised _ _ _ Hx).
    eauto.
  - unfold process_message, _handle_assistant_conversation.
    rewrite (conversation_body_submit _ _ _ _ _ _ _ Hst Hc Hs He Hx). eauto.
  - unfold process_message, _handle_assistant_conversation.
    rewrite (conversation_body_run _ _ _ _ _ Hst Hr), decide_False by done.
    eauto.
  - unfold process_message, _handle_assistant_conversation.
    rewrite (conversation_body_run _ _ _ _ _ Hst Hr), decide_True, Hl by done.
    eauto.
  - unfold process_message, _handle_assistant_conversation.
    rewrite (conversation_body_run _ _ _ _ _ Hst Hr), decide_True, Hl by done.
    eauto.
Qed.

(** A reply with an error entry comes from one of the failures. *)
Lemma error_failure_reply b tid text sd err :
  process_message b tid = inr (text, sd) →
  sd_error sd = Some err →
  failure_reply b tid text.
Proof.
  destruct (conversation_body b tid) as [x|[text' sd']] eqn:Hb.
  { rewrite (process_message_raised _ _ _ Hb). intros [= <- <-] _.
    apply failure_raised. by apply body_raised_by. }
  unfold process_message, _handle_assistant_conversation. rewrite Hb.
  intros [= <- <-] Herr. revert Hb.
  destruct (get_or_create_assistant b) as [x0|a] eqn:Ha.
  { unfold conversation_body. by rewrite Ha. }
  destruct (thread_of_turn b tid) as [x0|t] eqn:Ht.
  { unfold conversation_body. fold (thread_of_turn b tid). 
    by rewrite Ha, Ht. }
  destruct (messages_create b) as [x0|] eqn:Hm.
  { unfold conversation_body. fold (thread_of_turn b tid).
    by rewrite Ha, Ht, Hm. }
  assert (Hst : started b tid a t) by done.
  destruct (run_after_tools b) as [r|] eqn:Hr.
  - rewrite (conversation_body_run _ _ _ _ _ Hst Hr).
    destruct (decide _) as [Hs|Hs].
    + destruct (messages_list b) as [x0|[|[|[x0|] ?] ?]] eqn:Hl; try done.
      * intros [= <- <-]. by eapply failure_no_messages.
      * intros [= <- <-]. by eapply failure_no_content.
      * intros [= <- <-]. done.
    + intros [= <- <-]. by eapply failure_status.
  - unfold run_after_tools in Hr.
    destruct (create_and_poll b) as [x0|run0] eqn:Hc.
    { unfold conversation_body. fold (thread_of_turn b tid).
      by rewrite Ha, Ht, Hm, Hc. }
    destruct (decide _) as [Hs|]; [|done].
    destruct (execute_tool_calls b) as [x0|[|n]] eqn:He; [|done|].
    { unfold conversation_body. fold (thread_of_turn b tid).
      rewrite Ha, Ht, Hm, Hc. cbn [try_]. rewrite decide_True by done.
      by rewrite He. }
    destruct (submit_tool_outputs_and_poll b) as [x0|] eqn:Hx; [|done].
    rewrite (conversation_body_submit _ _ _ _ _ _ _ Hst Hc Hs He Hx).
    intros [= <- <-]. by eapply failure_submit.
Qed.

(** Of the texts of the failures, only the two for a malformed response
    are worded as an apology. *)
Lemma failure_reply_apologetic b tid txt :
  failure_reply b tid txt → apologetic txt = true → malformed b.
Proof.
  intros [x Hx|a t run0 n x Hst Hc Hs He Hx|a t r Hst Hr Hs
          |a t r Hst Hr Hs Hl|a t r more Hst Hr Hs Hl] Hap.
  - vm_compute in Hap. discriminate Hap.
  - vm_compute in Hap. discriminate Hap.
  - vm_compute in Hap. discriminate Hap.
  - by left.
  - right. by exists more.
Qed.

(** C7, as the code has it.  For a message after onboarding, whatever
    the external calls do: no exception escapes the handler; the text
    returned by the agent is scheduled as a bot reply for the sending
    client, and is appended as an Assistant message and emitted to that
    client when the thread wakes; the session stays in the registry with
    its preferences and its complete flag, so that the next message is
    dispatched again without an exception.  The agent reports an error
    exactly when the turn fails in one of five ways, and the text is the
    message of that failure: "Error in assistant conversation: " and the
    exception's message when an external call other than the submission
    of tool outputs raises; "Error submitting tool outputs: " and the
    exception's message when that submission raises; "Assistant run failed
    with status: " and the status when the run does not end as completed;
    and one of two apologies when the completed run lists no message, or a
    message without content.  Only those two are worded as an apology. *)
Theorem backend_failure_recovered st client_id data uid now api s :
  sessions st !! client_id = Some s →
  preferences_complete s = true →
  message_count s ≠ 0 →
  content_of data ≠ EmptyString →
  let e := SendMessage client_id data uid now api in
  let st' := step e st in
  ∃ text sd,
    process_message api (thread_id s) = inr (text, sd) ∧
    escaped e st = None ∧
    threads st' = threads st ++ [Delayed client_id text 500] ∧
    (∀ uid' now',
       let w := Wake (length (threads st)) uid' now' in
       let bot_message := Message uid' text "Assistant" "assistant" now' in
       messages (step w st') = messages st' ++ [bot_message] ∧
       emitted w st' = [Emit (new_message bot_message) (Room client_id)]) ∧
    (∃ s', sessions st' !! client_id = Some s' ∧
           preferences_complete s' = true ∧
           preferences s' = preferences s ∧
           message_count s' = message_count s + 1) ∧
    (∀ data2 uid2 now2 api2,
       content_of data2 ≠ EmptyString →
       route_of st' client_id data2 = Dispatch ∧
       escaped (SendMessage client_id data2 uid2 now2 api2) st' = None) ∧
    (∀ err, sd_error sd = Some err → failure_reply api (thread_id s) text) ∧
    (∀ txt, failure_reply api (thread_id s) txt →
            text = txt ∧ ∃ err, sd_error sd = Some err) ∧
    (∀ err, sd_error sd = Some err → apologetic text = true →
            malformed api).
Proof.
  intros Hs Hc Hn Hne e st'.
  destruct (send_dispatch st client_id data uid now api s Hs Hn Hc Hne)
    as [Hr _].
  pose proof (process_message_reply api (thread_id s)) as Hreply.
  destruct (reply api (thread_id s)) as [text sd] eqn:Hrep.
  cbn [fst] in Hr.
  assert (Hst' : st' = MkServer
    (messages st ++ [Message uid (content_of data) "User" "user" now])
    (<[client_id := dispatched api (counted st client_id)]> (sessions st))
    (threads st ++ [Delayed client_id text 500])).
  { unfold st', e. by rewrite step_send_eq, Hr. }
  destruct (dispatched_fields api (counted st client_id))
    as (Hp' & Hc' & _ & Hn').
  rewrite (counted_fields _ _ _ Hs) in Hp', Hc', Hn'.
  cbn [preferences preferences_complete message_count with_message_count]
    in Hp', Hc', Hn'.
  rewrite <- (counted_fields _ _ _ Hs) in Hp', Hc', Hn'.
  assert (Hs' : sessions st' !! client_id
                = Some (dispatched api (counted st client_id))).
  { rewrite Hst'. apply lookup_insert_eq. }
  exists text, sd. split; [done|]. split; [apply step_never_raises|].
  split; [by rewrite Hst'|]. split; [|split; [|split; [|split; [|split]]]].
  - intros uid' now' w bot_message. unfold step, emitted, w.
    rewrite handle_wake_eq. rewrite Hst' at 1 3. cbn [threads].
    rewrite list_lookup_middle by done. cbn. done.
  - eexists. split; [exact Hs'|]. rewrite Hp', Hc', Hn'. by rewrite Hc.
  - intros data2 uid2 now2 api2 Hne2. split; [|apply step_never_raises].
    refine (proj2 (send_dispatch st' client_id data2 uid2 now2 api2 _
                     Hs' _ _ Hne2)); [rewrite Hn'; lia|by rewrite Hc', Hc].
  - intros err. by apply (error_failure_reply api (thread_id s)).
  - intros txt (sd1 & err & Hp & Herr)%failure_reply_text.
    rewrite Hp in Hreply. injection Hreply as <- <-. eauto.
  - intros err Herr.
    by apply (failure_reply_apologetic api (thread_id s)),
             (error_failure_reply api (thread_id s) text sd err).
Qed.

(** A backend whose first call raises, and one on which the submission of
    tool outputs raises. *)
Lemma backend_failure_recovered_witness :
  let ask := content "tell me about space news" in
  let no_submit :=
    Backend (inr "asst_1"%string) (inr "thread_1"%string) None
            (inr (Run "requires_action")) (inr 1)
            (inl (KeyError "it's")) (inr []) in
  threads (step (SendMessage "A" ask "u7" "t7" unreachable_api) onboarded)
  = threads onboarded
    ++ [Delayed "A" "Error in assistant conversation: Connection error."
                500] ∧
  threads (step (SendMessage "A" ask "u7" "t7" no_submit) onboarded)
  = threads onboarded
    ++ [Delayed "A"
          ("Error submitting tool outputs: "
           +:+ String dquote ("it's" +:+ String dquote EmptyString)) 500].
Proof.
  intros ask no_submit.
  assert (H1 : sessions onboarded !! "A"%string
    = Some (Session None None
        (<["news_topics"%string := Some "technology"%string]>
        (<["interaction_style"%string := Some "concise"%string]>
        (<["language"%string := Some "English"%string]>
        (<["response_format"%string := Some "bullet points"%string]>
        (<["tone_of_voice"%string := Some "formal"%string]>
           no_preferences)))))
        true 5 6)) by (vm_compute; reflexivity).
  assert (H3 : 6 ≠ 0) by discriminate.
  assert (H4 : content_of ask ≠ EmptyString).
  { intros H. vm_compute in H. discriminate H. }
  split.
  - destruct (backend_failure_recovered onboarded "A" ask "u7" "t7"
                unreachable_api _ H1 eq_refl H3 H4)
      as (text & sd & _ & _ & Ht & _ & _ & _ & _ & Hf & _).
    destruct (Hf _ (failure_raised unreachable_api None _
                      (raised_by_assistant unreachable_api None
                         (Exception "Connection error.") eq_refl)))
      as [Htext _].
    rewrite Ht, Htext. reflexivity.
  - destruct (backend_failure_recovered onboarded "A" ask "u7" "t7"
                no_submit _ H1 eq_refl H3 H4)
      as (text & sd & _ & _ & Ht & _ & _ & _ & _ & Hf & _).
    destruct (Hf _ (failure_submit no_submit None "asst_1" "thread_1"
                      (Run "requires_action") 0 (KeyError "it's")
                      (conj eq_refl (conj eq_refl eq_refl))
                      eq_refl eq_refl eq_refl eq_refl))
      as [Htext _].
    rewrite Ht, Htext. reflexivity.
Defined.

(** The claim C7 fails on the wording: after onboarding, with a backend
    whose first call raises, the reply scheduled for the client is an error
    message that is not an apology. *)
Lemma exception_reply_not_apologetic :
  let e := SendMessage "A" (content "tell me about space news") "u7" "t7"
                       unreachable_api in
  preferences_complete <$> sessions onboarded !! "A"%string = Some true ∧
  route_of onboarded "A" (content "tell me about space news") = Dispatch ∧
  conversation_body unreachable_api None
  = inl (Exception "Connection error.") ∧
  last (threads (step e onboarded))
  = Some (Delayed "A"
            "Error in assistant conversation: Connection error." 500) ∧
  apologetic "Error in assistant conversation: Connection error." = false.
Proof.
  intros e. repeat split; by vm_compute.
Qed.

(** ** Delayed deliveries fire as their threads wake *)

(** The wake-up of a pending delivery. *)
Lemma wake_fires st k d uid now :
  threads st !! k = Some d →
  step (Wake k uid now) st
  = MkServer (messages st ++ [bot_message d uid now]) (sessions st)
             (take k (threads st) ++ drop (S k) (threads st)) ∧
  emitted (Wake k uid now) st
  = [Emit (new_message (bot_message d uid now)) (Room (d_client_id d))].
Proof.
  intros Hk. unfold step, emitted. by rewrite handle_wake_eq, Hk.
Qed.

(** The pool once the thread at [i] is gone. *)
Lemma lookup_pool_after {A} (l : list A) i k :
  i < length l → i ≤ k →
  (take i l ++ drop (S i) l) !! k = l !! S k.
Proof.
  intros Hi Hk.
  rewrite lookup_app_r by (rewrite length_take; lia).
  rewrite length_take, lookup_drop. f_equal. lia.
Qed.

Lemma lookup_pool_before {A} (l : list A) i k :
  i ≤ k →
  (take (S k) l ++ drop (S (S k)) l) !! i = l !! i.
Proof.
  intros Hk. destruct (decide (i < length l)) as [Hi|Hi].
  - rewrite lookup_app_l by (rewrite length_take; lia).
    apply lookup_take_lt. lia.
  - rewrite (lookup_ge_None_2 l i) by lia.
    apply lookup_ge_None_2. rewrite length_app, length_take, length_drop. lia.
Qed.

(** C8, as the code has it.  Take two deliveries that are pending, the
    first scheduled before the second (it is earlier in the pool).  Each
    fires when its own thread wakes: the bot message is appended to the
    store and emitted to its target.  So when the first thread wakes first
    the two messages are stored and emitted in the order of the schedule
    calls, and when the second thread wakes first they are stored and
    emitted in the opposite order; either way both have then fired and
    left the pool.  (The second delivery is at place [S k]; once the first
    thread is gone it is at place [k].)  The schedule call itself only
    starts the thread: it returns without appending or emitting
    anything. *)
Theorem deliveries_fire_in_wake_order st i k d1 d2 uid1 now1 uid2 now2 :
  threads st !! i = Some d1 →
  threads st !! S k = Some d2 →
  i ≤ k →
  let m1 := bot_message d1 uid1 now1 in
  let m2 := bot_message d2 uid2 now2 in
  let first1 := Wake i uid1 now1 in
  let then2 := Wake k uid2 now2 in
  let first2 := Wake (S k) uid2 now2 in
  let then1 := Wake i uid1 now1 in
  (messages (run [first1; then2] st) = messages st ++ [m1; m2] ∧
   emitted first1 st = [Emit (new_message m1) (Room (d_client_id d1))] ∧
   emitted then2 (step first1 st)
   = [Emit (new_message m2) (Room (d_client_id d2))]) ∧
  (messages (run [first2; then1] st) = messages st ++ [m2; m1] ∧
   emitted first2 st = [Emit (new_message m2) (Room (d_client_id d2))] ∧
   emitted then1 (step first2 st)
   = [Emit (new_message m1) (Room (d_client_id d1))]) ∧
  threads (run [first1; then2] st) = threads (run [first2; then1] st) ∧
  length (threads (run [first1; then2] st)) + 2 = length (threads st) ∧
  (∀ client_id content delay_ms,
     send_bot_response client_id content delay_ms st
     = (inr tt,
        MkServer (messages st) (sessions st)
                 (threads st ++ [Delayed client_id content delay_ms]),
        [])).
Proof.
  intros H1 H2 Hik m1 m2 first1 then2 first2 then1.
  pose proof (lookup_lt_Some _ _ _ H1) as Hl1.
  pose proof (lookup_lt_Some _ _ _ H2) as Hl2.
  destruct (wake_fires st i d1 uid1 now1 H1) as [Hs1 He1].
  destruct (wake_fires st (S k) d2 uid2 now2 H2) as [Hs2 He2].
  assert (H2' : threads (step first1 st) !! k = Some d2).
  { unfold first1. rewrite Hs1. cbn [threads].
    by rewrite lookup_pool_after. }
  assert (H1' : threads (step first2 st) !! i = Some d1).
  { unfold first2. rewrite Hs2. cbn [threads].
    by rewrite lookup_pool_before. }
  destruct (wake_fires _ k d2 uid2 now2 H2') as [Hs12 He12].
  destruct (wake_fires _ i d1 uid1 now1 H1') as [Hs21 He21].
  assert (Hr12 : run [first1; then2] st = step then2 (step first1 st))
    by done.
  assert (Hr21 : run [first2; then1] st = step then1 (step first2 st))
    by done.
  assert (Hpool :
    threads (step then2 (step first1 st))
    = threads (step then1 (step first2 st))).
  { unfold then2, then1. rewrite Hs12, Hs21. cbn [threads].
    unfold first1, first2. rewrite Hs1, Hs2. cbn [threads].
    apply list_eq. intros n.
    destruct (decide (n < i)) as [Hn|Hn].
    - rewrite !lookup_app_l
        by (rewrite !length_take, ?length_app, ?length_take, ?length_drop;
            lia).
      rewrite !lookup_take_lt by lia.
      rewrite !lookup_app_l by (rewrite length_take; lia).
      by rewrite !lookup_take_lt by lia.
    - destruct (decide (n < k)) as [Hnk|Hnk].
      + rewrite (lookup_pool_after _ i n)
          by (rewrite ?length_app, ?length_take, ?length_drop; lia).
        rewrite lookup_app_l
          by (rewrite length_take, length_app, length_take, length_drop;
              lia).
        rewrite lookup_take_lt by lia.
        rewrite lookup_pool_after by lia.
        rewrite lookup_app_l by (rewrite length_take; lia).
        by rewrite lookup_take_lt by lia.
      + rewrite (lookup_pool_after _ i n)
          by (rewrite ?length_app, ?length_take, ?length_drop; lia).
        rewrite (lookup_pool_after _ k n)
          by (rewrite ?length_app, ?length_take, ?length_drop; lia).
        rewrite (lookup_pool_after _ i (S n)) by lia.
        by rewrite (lookup_pool_after _ (S k) (S n)) by lia. }
  split; [|split; [|split; [|split]]].
  - rewrite Hr12. unfold then2 at 1. rewrite Hs12. unfold first1 at 1.
    rewrite Hs1. cbn [messages]. by rewrite <- app_assoc.
  - rewrite Hr21. unfold then1 at 1. rewrite Hs21. unfold first2 at 1.
    rewrite Hs2. cbn [messages]. by rewrite <- app_assoc.
  - by rewrite Hr12, Hr21.
  - rewrite Hr12. unfold then2. rewrite Hs12. cbn [threads].
    unfold first1. rewrite Hs1. cbn [threads].
    rewrite !length_app, !length_take, !length_drop,
            !length_app, !length_take, !length_drop. lia.
  - done.
Qed.

Lemma deliveries_fire_in_wake_order_witness :
  let st :=
    run [Connect "A";
         SendMessage "A" (content "hello") "u1" "t1" fine;
         SendMessage "A" (content "formal") "u2" "t2" fine] initial in
  let d1 :=
    Delayed "A"
      (from_option question_text EmptyString (preference_questions !! 0))
      500 in
  let d2 := Delayed "A" (follow_up 0) 500 in
  threads st = [d1; d2] ∧
  messages (run [Wake 0 "u3" "t3"; Wake 0 "u4" "t4"] st)
  = messages st ++ [bot_message d1 "u3" "t3"; bot_message d2 "u4" "t4"] ∧
  messages (run [Wake 1 "u4" "t4"; Wake 0 "u3" "t3"] st)
  = messages st ++ [bot_message d2 "u4" "t4"; bot_message d1 "u3" "t3"].
Proof.
  intros st d1 d2.
  assert (Ht : threads st = [d1; d2]) by (vm_compute; reflexivity).
  assert (H1 : threads st !! 0 = Some d1) by (by rewrite Ht).
  assert (H2 : threads st !! 1 = Some d2) by (by rewrite Ht).
  destruct (deliveries_fire_in_wake_order st 0 0 d1 d2 "u3" "t3" "u4" "t4"
              H1 H2 (le_n 0))
    as ((Ha & _) & (Hb & _) & _).
  split; [exact Ht|]. split; [exact Ha|exact Hb].
Defined.

(** The claim C8 fails: the server keeps no order among the deliveries of
    one target.  After hello and formal, two deliveries are pending for
    client A, the prompt of question 0 and then the prompt of question 1;
    when the thread of the second wakes first, the second prompt is stored
    and emitted to A before the first. *)
Lemma deliveries_not_fifo :
  let st :=
    run [Connect "A";
         SendMessage "A" (content "hello") "u1" "t1" fine;
         SendMessage "A" (content "formal") "u2" "t2" fine] initial in
  let d1 :=
    Delayed "A"
      (from_option question_text EmptyString (preference_questions !! 0))
      500 in
  let d2 := Delayed "A" (follow_up 0) 500 in
  let later := Wake 1 "u3" "t3" in
  let earlier := Wake 0 "u4" "t4" in
  threads st = [d1; d2] ∧
  d_content d1 ≠ d_content d2 ∧
  messages (run [later; earlier] st)
  = messages st ++ [bot_message d2 "u3" "t3"; bot_message d1 "u4" "t4"] ∧
  emitted later st
  = [Emit (new_message (bot_message d2 "u3" "t3")) (Room "A")] ∧
  emitted earlier (step later st)
  = [Emit (new_message (bot_message d1 "u4" "t4")) (Room "A")].
Proof.
  intros st d1 d2 later earlier.
  split; [by vm_compute|]. split.
  { intros H. vm_compute in H. discriminate H. }
  repeat split; by vm_compute.
Qed.

(** ** The module-level construction of the agent *)

(** C9.  Whatever the environment holds, the call [NewsAgent({...})] of
    server.py raises [TypeError], and loading the server module never
    yields an agent. *)
Theorem server_agent_construction_fails env :
  (∃ msg, call_NewsAgent [no_preferences] env = inl (TypeError msg)) ∧
  (∀ agent, load_server_module env ≠ inr agent).
Proof.
  assert (H : ∃ msg,
    call_NewsAgent [no_preferences] env = inl (TypeError msg)).
  { unfold call_NewsAgent, init_params. cbn [length].
    destruct (decide _) as [Hle|_]; [lia|]. eauto. }
  split; [exact H|]. intros agent. unfold load_server_module.
  destruct (load_agent_module env); [done|].
  destruct H as [msg ->]. done.
Qed.

(** * More about the relay *)

(** ** White space *)

Lemma all_space_lstrip s : all_space (lstrip s) = all_space s.
Proof.
  induction s as [|c s IH]; [done|]. cbn.
  destruct (isspace c) eqn:Hc; cbn; [done|]. by rewrite Hc.
Qed.

Lemma lstrip_empty s : lstrip s = EmptyString ↔ all_space s = true.
Proof.
  induction s as [|c s IH]; [done|]. cbn.
  destruct (isspace c); cbn; [done|]. split; discriminate.
Qed.

Lemma all_space_rev_app s1 s2 :
  all_space (String.rev_app s1 s2) = all_space s1 && all_space s2.
Proof.
  revert s2. induction s1 as [|c s1 IH]; intros s2; [done|].
  cbn. rewrite IH. cbn. by destruct (isspace c), (all_space s1).
Qed.

Lemma all_space_rev s : all_space (String.rev s) = all_space s.
Proof. unfold String.rev. rewrite all_space_rev_app. cbn. apply andb_true_r. Qed.

Lemma strip_empty s : strip s = EmptyString ↔ all_space s = true.
Proof.
  unfold strip, rstrip.
  by rewrite lstrip_empty, all_space_rev, all_space_lstrip, all_space_rev.
Qed.

Lemma content_of_blank data : content_of data = EmptyString ↔ blank data = true.
Proof. apply strip_empty. Qed.

Lemma first_char_lstrip s c : first_char (lstrip s) = Some c → isspace c = false.
Proof.
  induction s as [|a s IH]; [done|]. cbn.
  destruct (isspace a) eqn:Ha; [done|]. cbn. by intros [= <-].
Qed.

Lemma rev_app_append s1 s2 :
  String.rev_app s1 s2 = String.rev s1 +:+ s2.
Proof.
  unfold String.rev. revert s2.
  induction s1 as [|a s1 IH]; intros s2; [done|].
  cbn [String.rev_app]. rewrite IH, (IH (String a EmptyString)).
  generalize (String.rev_app s1 EmptyString). intros t.
  induction t as [|b t IHt]; [done|].
  change (String b t +:+ String a s2) with (String b (t +:+ String a s2)).
  rewrite IHt. reflexivity.
Qed.

Lemma first_char_append s1 s2 c :
  first_char s1 = Some c → first_char (s1 +:+ s2) = Some c.
Proof. by destruct s1. Qed.

Lemma last_char_cons a s c :
  last_char s = Some c → last_char (String a s) = Some c.
Proof.
  unfold last_char, String.rev. cbn [String.rev_app].
  rewrite (rev_app_append s (String a EmptyString)). apply first_char_append.
Qed.

Lemma last_char_lstrip s c : last_char (lstrip s) = Some c → last_char s = Some c.
Proof.
  induction s as [|a s IH]; [done|]. cbn [lstrip].
  destruct (isspace a); [|done]. intros H. by apply last_char_cons, IH.
Qed.

(** [strip] returns a string with no white space at either end, so that
    stripping again changes nothing. *)
Lemma strip_strip s : strip (strip s) = strip s.
Proof.
  apply strip_clean.
  - unfold strip. apply first_char_lstrip.
  - intros c Hc. unfold strip in Hc. apply last_char_lstrip in Hc.
    unfold rstrip, last_char in Hc. rewrite rev_involutive in Hc.
    by apply first_char_lstrip in Hc.
Qed.

(** ** Rejected and accepted messages *)

(** X1.  A [send_message] whose payload has no content, or content made
    of white space only, changes nothing: no session is created, no message
    stored, no reply scheduled; the sender alone is told. *)
Theorem blank_message_changes_nothing st client_id data uid now api :
  blank data = true →
  let e := SendMessage client_id data uid now api in
  step e st = st ∧
  emitted e st
  = [Emit (error "Message content cannot be empty") (Room client_id)].
Proof.
  intros Hb%content_of_blank e. unfold e.
  rewrite step_send_eq, emitted_send_eq. unfold send_result, route_of.
  by rewrite Hb.
Qed.

Lemma blank_message_changes_nothing_witness :
  let e := SendMessage "A" (content "  	 ") "u1" "t1" fine in
  step e initial = initial ∧
  emitted e initial
  = [Emit (error "Message content cannot be empty") (Room "A")].
Proof.
  exact (blank_message_changes_nothing initial "A" (content "  	 ")
           "u1" "t1" fine eq_refl).
Defined.

(** X2.  A [send_message] with any other content appends exactly one
    message to the store, the user message with the stripped content;
    counts one more message for the sender, whose session is created if
    it was missing; starts exactly one delayed reply, for the sender; and
    leaves every other session alone. *)
Theorem accepted_message_effects st client_id data uid now api :
  blank data = false →
  let e := SendMessage client_id data uid now api in
  let user_message := Message uid (content_of data) "User" "user" now in
  messages (step e st) = messages st ++ [user_message] ∧
  (∃ s', sessions (step e st) !! client_id = Some s' ∧
         message_count s'
         = message_count (default new_session (sessions st !! client_id)) + 1) ∧
  (∃ text, threads (step e st) = threads st ++ [Delayed client_id text 500]) ∧
  (∀ c, c ≠ client_id → sessions (step e st) !! c = sessions st !! c) ∧
  head (emitted e st) = Some (Emit (new_message user_message) Broadcast).
Proof.
  intros Hb e user_message.
  assert (Hne : content_of data ≠ EmptyString).
  { intros H%content_of_blank. congruence. }
  unfold e. rewrite step_send_eq, emitted_send_eq. unfold send_result, route_of.
  rewrite (truthy_nonempty _ Hne).
  assert (Hcount : message_count (counted st client_id)
    = message_count (default new_session (sessions st !! client_id)) + 1)
    by done.
  destruct (decide (_ = 1)) as [H1|H1]; cbn [fst snd messages sessions threads].
  { repeat split; eauto.
    - eexists. split; [apply lookup_insert_eq|done].
    - intros c Hc. by rewrite lookup_insert_ne. }
  destruct (dispatched_fields api (counted st client_id)) as (_ & _ & _ & Hd).
  destruct (preferences_complete (counted st client_id));
    cbn [fst snd messages sessions threads].
  { repeat split; eauto.
    - eexists. split; [apply lookup_insert_eq|]. by rewrite Hd.
    - intros c Hc. by rewrite lookup_insert_ne. }
  destruct (decide (_ < _)) as [Hlt|Hge];
    cbn [fst snd messages sessions threads].
  - destruct (lookup_lt_is_Some_2 _ _ Hlt) as [q Hq]. rewrite Hq.
    cbn [fst snd messages sessions threads].
    destruct (answered_fields q (content_of data) _ Hq) as (_ & _ & _ & Ha & _).
    repeat split; eauto.
    + eexists. split; [apply lookup_insert_eq|]. by rewrite Ha.
    + intros c Hc. by rewrite lookup_insert_ne.
  - repeat split; eauto.
    + eexists. split; [apply lookup_insert_eq|]. by rewrite Hd.
    + intros c Hc. by rewrite lookup_insert_ne.
Qed.

Lemma accepted_message_effects_witness :
  let e := SendMessage "A" (content " hello ") "u1" "t1" fine in
  messages (step e initial) = [Message "u1" "hello" "User" "user" "t1"].
Proof.
  exact (proj1 (accepted_message_effects initial "A" (content " hello ")
                  "u1" "t1" fine eq_refl)).
Defined.

(** ** Connecting, disconnecting and the first message *)

Lemma step_connect_eq client_id st :
  step (Connect client_id) st
  = MkServer (messages st) (<[client_id := new_session]> (sessions st))
             (threads st).
Proof. done. Qed.

Lemma step_disconnect_eq client_id st :
  step (Disconnect client_id) st
  = MkServer (messages st) (delete client_id (sessions st)) (threads st).
Proof. unfold step. cbn [handle]. by rewrite handle_disconnect_eq. Qed.

(** X3.  An accepted message from a client that has no session is
    handled, as far as the state goes, exactly as if the client had
    connected first. *)
Theorem missing_session_as_connected st client_id data uid now api :
  sessions st !! client_id = None →
  blank data = false →
  step (SendMessage client_id data uid now api) st
  = step (SendMessage client_id data uid now api)
         (step (Connect client_id) st).
Proof.
  intros Hs Hb. rewrite !step_send_eq, step_connect_eq.
  assert (Hne : content_of data ≠ EmptyString).
  { intros H%content_of_blank. congruence. }
  assert (Hc : counted (MkServer (messages st)
                          (<[client_id := new_session]> (sessions st))
                          (threads st)) client_id
               = counted st client_id).
  { unfold counted. cbn [sessions]. by rewrite lookup_insert_eq, Hs. }
  unfold send_result, route_of. rewrite Hc, (truthy_nonempty _ Hne).
  cbn [messages sessions threads].
  destruct (decide (_ = 1));
    [cbn [fst snd]; by rewrite insert_insert_eq|].
  destruct (preferences_complete _);
    [cbn [fst snd]; by rewrite insert_insert_eq|].
  destruct (decide (_ < _)) as [Hlt|];
    [|cbn [fst snd]; by rewrite insert_insert_eq].
  destruct (lookup_lt_is_Some_2 _ _ Hlt) as [q ->].
  cbn [fst snd]. by rewrite insert_insert_eq.
Qed.

Lemma missing_session_as_connected_witness :
  step (SendMessage "A" (content "hello") "u1" "t1" fine) initial
  = step (SendMessage "A" (content "hello") "u1" "t1" fine)
         (step (Connect "A") initial).
Proof.
  exact (missing_session_as_connected initial "A" (content "hello")
           "u1" "t1" fine eq_refl eq_refl).
Defined.

(** X4.  For a client without a session, connecting and then
    disconnecting gives the state back; in any state, connecting twice is
    as connecting once and disconnecting twice as disconnecting once, and a
    connect replaces whatever session the client had by a fresh one. *)
Theorem connect_disconnect_round_trip st client_id :
  sessions st !! client_id = None →
  step (Disconnect client_id) (step (Connect client_id) st) = st ∧
  step (Disconnect client_id) st = st ∧
  (∀ st1, step (Connect client_id) (step (Connect client_id) st1)
          = step (Connect client_id) st1) ∧
  (∀ st1, step (Disconnect client_id) (step (Disconnect client_id) st1)
          = step (Disconnect client_id) st1) ∧
  (∀ st1, step (Connect client_id) (step (Disconnect client_id) st1)
          = step (Connect client_id) st1) ∧
  (∀ st1, sessions (step (Connect client_id) st1) !! client_id
          = Some new_session).
Proof.
  intros Hs. rewrite !step_disconnect_eq, step_connect_eq.
  cbn [messages sessions threads].
  repeat split.
  - rewrite delete_insert_eq, delete_id by done. apply server_eta.
  - rewrite delete_id by done. apply server_eta.
  - intros st1. rewrite !step_connect_eq. cbn [messages sessions threads].
    by rewrite insert_insert_eq.
  - intros st1. rewrite !step_disconnect_eq. cbn [messages sessions threads].
    by rewrite delete_delete_eq.
  - intros st1. rewrite step_disconnect_eq, !step_connect_eq.
    cbn [messages sessions threads]. by rewrite insert_delete_eq.
  - intros st1. rewrite step_connect_eq. apply lookup_insert_eq.
Qed.

Lemma connect_disconnect_round_trip_witness :
  step (Disconnect "B") (step (Connect "B") onboarded) = onboarded.
Proof.
  assert (H : sessions onboarded !! "B"%string = None)
    by (vm_compute; reflexivity).
  exact (proj1 (connect_disconnect_round_trip onboarded "B" H)).
Defined.

(** ** Delayed deliveries are not cancelled *)

Lemma step_threads_prefix e st :
  not_wake e = true → threads st `prefix_of` threads (step e st).
Proof.
  event_cases e; intros Hw; try done.
  - by rewrite step_disconnect_eq.
  - rewrite step_send_eq. unfold send_result.
    repeat (case_match; cbn [fst snd threads]);
      try done; by apply prefix_app_r.
  - rewrite step_delete_eq, handle_delete_message_eq.
    by repeat (case_match; cbn [fst snd threads]).
  - unfold step. cbn [handle]. by rewrite handle_clear_chat_eq.
Qed.

Lemma run_snoc es e st : run (es ++ [e]) st = step e (run es st).
Proof. unfold run. by rewrite foldl_app. Qed.

Lemma run_threads_prefix es st :
  forallb not_wake es = true → threads st `prefix_of` threads (run es st).
Proof.
  induction es as [|e es IH] using rev_ind; [done|].
  rewrite forallb_app, run_snoc. cbn.
  intros [H1 [H2 _]%andb_true_iff]%andb_true_iff.
  etrans; [by apply IH|]. by apply step_threads_prefix.
Qed.

(** X5.  A delivery that is pending stays pending, at the same place in
    the pool, through any events other than wake-ups: a disconnect of its
    target or a clear does not cancel it.  When its thread then wakes, the
    bot message is appended to the store, whatever the store holds by then,
    and is emitted to the target's room. *)
Theorem delivery_not_cancelled st k d es uid now :
  threads st !! k = Some d →
  forallb not_wake es = true →
  let st1 := run es st in
  threads st1 !! k = Some d ∧
  messages (step (Wake k uid now) st1)
  = messages st1 ++ [bot_message d uid now] ∧
  emitted (Wake k uid now) st1
  = [Emit (new_message (bot_message d uid now)) (Room (d_client_id d))].
Proof.
  intros Hk Hes st1.
  assert (Hk1 : threads st1 !! k = Some d).
  { destruct (run_threads_prefix es st Hes) as [l Hl]. fold st1 in Hl.
    rewrite Hl. by apply lookup_app_l_Some. }
  split; [done|]. unfold step, emitted. rewrite handle_wake_eq, Hk1. done.
Qed.

Lemma delivery_not_cancelled_witness :
  let st := run [Connect "A";
                 SendMessage "A" (content "hello") "u1" "t1" fine] initial in
  let st1 := run [Disconnect "A"; ClearChat "B" "t2"] st in
  messages (step (Wake 0 "u3" "t3") st1)
  = [Message "u3"
       (from_option question_text EmptyString (preference_questions !! 0))
       "Assistant" "assistant" "t3"].
Proof.
  intros st st1.
  set (d := Delayed "A"
              (from_option question_text EmptyString
                 (preference_questions !! 0)) 500).
  assert (Hk : threads st !! 0 = Some d) by (vm_compute; reflexivity).
  destruct (delivery_not_cancelled st 0 d
              [Disconnect "A"; ClearChat "B" "t2"] "u3" "t3" Hk eq_refl)
    as (_ & Hm & _).
  fold st1 in Hm. rewrite Hm. reflexivity.
Defined.

(** ** More about delete_message *)

Lemma scan_first message_id l1 m l2 :
  (∀ m', m' ∈ l1 → m_id m' ≠ message_id) →
  m_id m = message_id →
  scan message_id (l1 ++ m :: l2)
  = if decide (m_user_id m = "user"%string) then Popped m (l1 ++ l2)
    else Refused.
Proof.
  intros Hl1 Hm. induction l1 as [|msg l1 IH]; cbn [scan app].
  - destruct (decide _); [done|congruence].
  - destruct (decide (m_id msg = message_id)) as [He|_].
    { by destruct (Hl1 msg); [left|]. }
    rewrite IH; [by case_decide|]. intros m' Hm'. apply Hl1. by right.
Qed.

Lemma scan_popped_inv message_id msgs m remaining :
  scan message_id msgs = Popped m remaining →
  ∃ l1 l2, msgs = l1 ++ m :: l2 ∧ remaining = l1 ++ l2 ∧
           (∀ m', m' ∈ l1 → m_id m' ≠ message_id) ∧
           m_id m = message_id ∧ m_user_id m = "user"%string.
Proof.
  revert remaining. induction msgs as [|msg rest IH]; intros remaining;
    [done|].
  cbn [scan]. destruct (decide (m_id msg = message_id)) as [He|Hne].
  - destruct (decide _) as [Hu|]; [|done]. intros [= <- <-].
    exists [], rest. repeat split; try done. by intros m' ?%elem_of_nil.
  - destruct (scan message_id rest) as [m1 r| |] eqn:Hs; [|done..].
    intros [= -> <-].
    destruct (IH r eq_refl) as (l1 & l2 & -> & -> & Hl1 & Hid & Hu).
    exists (msg :: l1), l2. repeat split; try done.
    intros m' [->|Hin]%elem_of_cons; [done|by apply Hl1].
Qed.

(** X6.  A delete request looks at the first message that carries the
    id, and at no other: if that message is a user message it is the one
    removed; if it is not, the request is refused and nothing is removed,
    even when a later user message carries the same id. *)
Theorem delete_first_match st client_id data message_id l1 m l2 :
  data !! "message_id"%string = Some message_id →
  message_id ≠ EmptyString →
  messages st = l1 ++ m :: l2 →
  (∀ m', m' ∈ l1 → m_id m' ≠ message_id) →
  m_id m = message_id →
  let e := DeleteMessage client_id data in
  (m_user_id m = "user"%string →
   step e st = MkServer (l1 ++ l2) (sessions st) (threads st) ∧
   emitted e st = [Emit (message_deleted message_id "User") Broadcast]) ∧
  (m_user_id m ≠ "user"%string →
   step e st = st ∧
   emitted e st
   = [Emit (error "You can only delete your own messages")
           (Room client_id)]).
Proof.
  intros Hd Hne Hm Hl1 Hid e. unfold e, step, emitted. cbn [handle].
  rewrite handle_delete_message_eq, Hd.
  rewrite (truthy_nonempty _ Hne), Hm, (scan_first _ _ _ _ Hl1 Hid).
  split; intros Hu; by destruct (decide _).
Qed.

Lemma delete_first_match_witness :
  let st := MkServer [Message "x" "hi" "Assistant" "assistant" "t1";
                      Message "x" "yo" "User" "user" "t2"] ∅ [] in
  step (DeleteMessage "A" (delete_request "x")) st = st.
Proof.
  intros st.
  assert (Hne : "x"%string ≠ EmptyString) by discriminate.
  assert (Hnu : "assistant"%string ≠ "user"%string) by discriminate.
  assert (Hl1 : ∀ m' : message, m' ∈ [] → m_id m' ≠ "x"%string)
    by (by intros m' ?%elem_of_nil).
  exact (proj1 (proj2 (delete_first_match st "A" (delete_request "x") "x"
                         [] _ [_] eq_refl Hne eq_refl Hl1 eq_refl) Hnu)).
Defined.

Lemma delete_messages_sublist st client_id data :
  messages (step (DeleteMessage client_id data) st) `sublist_of` messages st.
Proof.
  rewrite step_delete_eq, handle_delete_message_eq.
  destruct (data !! _) as [message_id|]; [|done].
  destruct (negb _); [done|].
  destruct (scan _ _) as [m r| |] eqn:Hs; [|done..].
  apply scan_popped_inv in Hs as (l1 & l2 & -> & -> & _).
  cbn [fst snd messages]. apply sublist_app; [done|]. by apply sublist_cons.
Qed.

(** X7.  A delete request changes nothing but the store; what it leaves
    is the store with at most one message taken out, and every message
    that is not a user message is still there. *)
Theorem delete_touches_store_only st client_id data :
  let st1 := step (DeleteMessage client_id data) st in
  sessions st1 = sessions st ∧
  threads st1 = threads st ∧
  messages st1 `sublist_of` messages st ∧
  length (messages st) ≤ S (length (messages st1)) ∧
  filter (λ m, m_user_id m ≠ "user"%string) (messages st1)
  = filter (λ m, m_user_id m ≠ "user"%string) (messages st).
Proof.
  intros st1. unfold st1. rewrite step_delete_eq, handle_delete_message_eq.
  assert (Hsame : sessions st = sessions st ∧ threads st = threads st ∧
    messages st `sublist_of` messages st ∧
    length (messages st) ≤ S (length (messages st)) ∧
    filter (λ m, m_user_id m ≠ "user"%string) (messages st)
    = filter (λ m, m_user_id m ≠ "user"%string) (messages st)).
  { repeat split; [done|lia]. }
  destruct (data !! _) as [message_id|]; [|exact Hsame].
  destruct (negb _); [exact Hsame|].
  destruct (scan _ _) as [m r| |] eqn:Hs; [|exact Hsame..].
  clear Hsame.
  apply scan_popped_inv in Hs as (l1 & l2 & Hm & -> & _ & _ & Hu).
  cbn [fst snd messages sessions threads]. rewrite Hm.
  repeat split.
  - apply sublist_app; [done|]. by apply sublist_cons.
  - rewrite !length_app. cbn. lia.
  - rewrite !filter_app, filter_cons. by destruct (decide _).
Qed.

(** ** What the store and the sessions hold *)

Lemma step_messages_in e st m :
  m ∈ messages (step e st) → m ∈ messages st ∨ well_formed_message m.
Proof.
  event_cases e.
  - by left.
  - rewrite step_disconnect_eq. by left.
  - rewrite step_send_eq. unfold send_result, route_of.
    destruct (negb (truthy (content_of data))) eqn:Ht; [by left|].
    assert (Hnew : m ∈ messages st
                       ++ [Message uid (content_of data) "User" "user" now] →
                   m ∈ messages st ∨ well_formed_message m).
    { intros [?| ->%list_elem_of_singleton]%elem_of_app; [by left|].
      right. left. cbn. repeat split.
      - intros He. by rewrite He in Ht.
      - apply strip_strip. }
    repeat (case_match; cbn [fst snd messages]); try done; by left.
  - intros Hin. left.
    by eapply elem_of_sublist, delete_messages_sublist.
  - unfold step. cbn [handle]. rewrite handle_clear_chat_eq.
    by intros ?%elem_of_nil.
  - unfold step. rewrite handle_wake_eq.
    destruct (threads st !! k); [|by left]. cbn.
    intros [?| ->%list_elem_of_singleton]%elem_of_app; [by left|].
    right. by right.
Qed.

(** X8.  In every state the server can reach, each stored message is a
    user message (author "User", user id "user") whose content is not
    empty and carries no white space at either end, or a bot message
    (author "Assistant", user id "assistant"). *)
Theorem stored_messages_well_formed st :
  reachable st → ∀ m, m ∈ messages st → well_formed_message m.
Proof.
  induction 1 as [|e st _ IH]; intros m Hm.
  - by apply elem_of_nil in Hm.
  - apply step_messages_in in Hm as [Hm|Hm]; [by apply IH|done].
Qed.

Lemma stored_messages_well_formed_witness :
  well_formed_message (Message "u1" "hello" "User" "user" "t1").
Proof.
  apply (stored_messages_well_formed
           (step (SendMessage "A" (content " hello ") "u1" "t1" fine)
                 initial)
           (reachable_step _ _ reachable_initial)).
  vm_compute. left.
Defined.

Lemma question_keys_bound q :
  q ∈ preference_questions → key q ∈ dom no_preferences.
Proof.
  intros Hq. apply elem_of_dom.
  assert (H : Forall (λ q, is_Some (no_preferences !! key q))
                     preference_questions).
  { repeat constructor; by eexists; vm_compute. }
  by apply (proj1 (Forall_forall _ _) H).
Qed.

Lemma new_session_tidy : session_tidy new_session.
Proof.
  split; [done|]. split; [|cbn; lia].
  intros k v Hv. cbn in Hv. by apply no_preferences_None in Hv.
Qed.

Lemma cleared_tidy s : session_tidy (cleared s).
Proof.
  split; [done|]. split; [|cbn; lia].
  intros k v Hv. cbn in Hv. by apply no_preferences_None in Hv.
Qed.

Lemma tidy_carried s s1 :
  preferences s1 = preferences s →
  current_preference_index s1 = current_preference_index s →
  message_count s ≤ message_count s1 →
  session_tidy s → session_tidy s1.
Proof.
  intros Hp Hi Hn (Hdom & Hans & Hidx). unfold session_tidy.
  rewrite Hp, Hi. split; [done|]. split; [done|lia].
Qed.

Lemma counted_tidy st c :
  (∀ s, sessions st !! c = Some s → session_tidy s) →
  session_tidy (counted st c) ∧
  (message_count (counted st c) = 1 ∨
   current_preference_index (counted st c) + 2
   ≤ message_count (counted st c)).
Proof.
  intros Hinv. unfold counted.
  assert (Hc : session_tidy (default new_session (sessions st !! c))).
  { destruct (sessions st !! c) eqn:Hs; [by eapply Hinv|].
    apply new_session_tidy. }
  split; [|destruct Hc as (_ & _ & Hidx); cbn; lia].
  eapply tidy_carried; [| | |exact Hc]; cbn; [done|done|lia].
Qed.

Lemma answered_tidy q input s :
  preference_questions !! current_preference_index s = Some q →
  strip input ≠ EmptyString →
  current_preference_index s + 2 ≤ message_count s →
  session_tidy s → session_tidy (answered q (strip input) s).
Proof.
  intros Hq Hne Hn (Hdom & Hans & Hidx).
  destruct (answered_fields q (strip input) s Hq) as (Hp & Hi & _ & Hm & _).
  unfold session_tidy. rewrite Hp, Hi, Hm. split; [|split; [|lia]].
  - rewrite dom_insert_L, Hdom.
    apply subseteq_union_1_L, singleton_subseteq_l.
    apply question_keys_bound. by eapply list_elem_of_lookup_2.
  - intros k v. rewrite lookup_insert. case_decide; [|by apply Hans].
    intros [= <-]. split; [|apply strip_strip]. done.
Qed.

Lemma session_after_tidy e st c s1 :
  (∀ c s, sessions st !! c = Some s → session_tidy s) →
  session_after e st c = Some s1 → session_tidy s1.
Proof.
  intros Hinv.
  event_cases e; cbn [session_after]; try (by apply Hinv).
  - case_decide; [|by apply Hinv]. intros [= <-]. apply new_session_tidy.
  - case_decide; [done|by apply Hinv].
  - case_decide; [subst c|by apply Hinv].
    unfold session_after_send, route_of.
    destruct (counted_tidy st sid (Hinv sid)) as [Hc Hn].
    destruct (dispatched_fields api (counted st sid)) as (Hp & _ & Hi & Hm).
    assert (Hd : session_tidy (dispatched api (counted st sid))).
    { eapply tidy_carried; [exact Hp|exact Hi|lia|exact Hc]. }
    destruct (negb (truthy (content_of data))) eqn:Ht; [by apply Hinv|].
    destruct (decide (_ = 1)) as [H1|H1]; [by intros [= <-]|].
    destruct (preferences_complete _); [by intros [= <-]|].
    destruct (decide (_ < _)) as [Hlt|Hge]; [|by intros [= <-]].
    destruct (lookup_lt_is_Some_2 _ _ Hlt) as [q Hq]. rewrite Hq.
    intros [= <-]. unfold content_of in *.
    apply answered_tidy; [done| |by destruct Hn|done].
    intros He. by rewrite He in Ht.
  - case_decide; [subst c|by apply Hinv].
    destruct (sessions st !! sid); [|done].
    intros [= <-]. apply cleared_tidy.
Qed.

(** X9.  In every state the server can reach, the preference dictionary
    of each session has exactly the five keys it was created with, every
    stored answer is a non-empty string without white space at either end,
    and the question index is strictly below the message count, except in
    a session that has seen no message, where both are 0. *)
Theorem sessions_tidy st :
  reachable st →
  ∀ c s, sessions st !! c = Some s →
    dom (preferences s) = dom no_preferences ∧
    (∀ k v, preferences s !! k = Some (Some v) →
            v ≠ EmptyString ∧ strip v = v) ∧
    (current_preference_index s < message_count s ∨
     current_preference_index s = 0 ∧ message_count s = 0).
Proof.
  induction 1 as [|e st _ IH]; intros c s.
  - unfold initial. cbn [sessions]. by rewrite lookup_empty.
  - rewrite step_session. by apply session_after_tidy.
Qed.

Lemma sessions_tidy_witness :
  ∃ s, sessions onboarded !! "A"%string = Some s ∧
       dom (preferences s) = dom no_preferences ∧
       (current_preference_index s < message_count s ∨
        current_preference_index s = 0 ∧ message_count s = 0).
Proof.
  assert (Hr : reachable onboarded).
  { unfold onboarded, run. cbn [foldl].
    repeat apply reachable_step. apply reachable_initial. }
  assert (Hs : sessions onboarded !! "A"%string
    = Some (Session None None
        (<["news_topics"%string := Some "technology"%string]>
        (<["interaction_style"%string := Some "concise"%string]>
        (<["language"%string := Some "English"%string]>
        (<["response_format"%string := Some "bullet points"%string]>
        (<["tone_of_voice"%string := Some "formal"%string]>
           no_preferences)))))
        true 5 6)) by (vm_compute; reflexivity).
  destruct (sessions_tidy onboarded Hr "A" _ Hs) as (Hd & _ & Hi).
  eexists. split; [exact Hs|]. split; assumption.
Defined.

(** ** Onboarding as a function of the accepted messages *)

Lemma zip_snoc_in {A B} (l : list A) (k : list B) a b :
  l !! length k = Some a → zip l (k ++ [b]) = zip l k ++ [(a, b)].
Proof.
  revert l. induction k as [|x k IH]; intros [|y l]; try done; cbn.
  - intros [= ->]. by destruct l.
  - intros H. by rewrite IH.
Qed.

Lemma zip_snoc_out {A B} (l : list A) (k : list B) b :
  length l ≤ length k → zip l (k ++ [b]) = zip l k.
Proof.
  revert l. induction k as [|x k IH]; intros [|y l]; cbn; try done; try lia.
  intros H. rewrite IH; [done|lia].
Qed.

Lemma answers_of_snoc_in vs v q :
  preference_questions !! length vs = Some q →
  answers_of (vs ++ [v]) = <[key q := Some v]> (answers_of vs).
Proof.
  intros Hq. unfold answers_of. by rewrite (zip_snoc_in _ _ _ _ Hq), foldl_app.
Qed.

Lemma answers_of_snoc_out vs v :
  length preference_questions ≤ length vs →
  answers_of (vs ++ [v]) = answers_of vs.
Proof. intros H. unfold answers_of. by rewrite zip_snoc_out. Qed.

Lemma accepted_snoc c es e :
  accepted c (es ++ [e]) = accepted c es ++ accepted c [e].
Proof. unfold accepted. by rewrite omap_app. Qed.

Lemma not_accepted_quiet c e :
  no_reset c e = true → accepted c [e] = [] → quiet c e = true.
Proof.
  event_cases e; cbn; try done.
  intros _. destruct (bool_decide (sid = c)); [|done]. cbn.
  by destruct (truthy (content_of data)).
Qed.

Lemma accepted_inv c e v l :
  accepted c [e] = v :: l →
  l = [] ∧ ∃ data uid now api,
    e = SendMessage c data uid now api ∧ v = content_of data ∧
    truthy v = true.
Proof.
  event_cases e; cbn; try done.
  destruct (bool_decide (sid = c)) eqn:Hc; [|done]. cbn.
  destruct (truthy (content_of data)) eqn:Ht; [|done].
  intros [= <- <-]. apply bool_decide_eq_true in Hc as ->.
  split; [done|]. by exists data, uid, now, api.
Qed.

Lemma progress_send st c data api cs :
  truthy (content_of data) = true →
  progress cs (sessions st !! c) →
  progress (cs ++ [content_of data]) (session_after_send st c data api).
Proof.
  intros Ht Hp. unfold session_after_send, route_of. rewrite Ht. cbn [negb].
  destruct cs as [|v0 cs].
  - destruct (counted_at_start _ _ Hp) as (Hn & Hi & Hc & Hpr).
    destruct (decide (_ = 1)); [|done]. cbn.
    eexists. split; [done|]. rewrite Hn, Hi, Hc, Hpr. done.
  - destruct Hp as (s & Hs & Hn & Hi & Hc & Hpr).
    rewrite (counted_fields _ _ _ Hs).
    cbn [message_count preferences_complete current_preference_index
         with_message_count].
    assert (Hn1 : message_count s = S (length cs)) by exact Hn.
    assert (Hi1 : current_preference_index s
                  = length cs `min` length preference_questions).
    { rewrite Hi. cbn [length]. f_equal. lia. }
    assert (Hc1 : preferences_complete s
                  = bool_decide (length preference_questions
                                 < S (length cs))) by exact Hc.
    assert (Hpr1 : preferences s = answers_of cs) by exact Hpr.
    clear Hn Hi Hc Hpr.
    destruct (decide (_ = 1)); [lia|].
    unfold progress. cbn [app].
    change (drop 1 (v0 :: cs ++ [content_of data]))
      with (cs ++ [content_of data]).
    assert (Hlen : length (v0 :: cs ++ [content_of data])
                   = S (S (length cs))).
    { cbn [length]. rewrite length_app. cbn. lia. }
    rewrite Hlen. clear Hlen.
    replace (S (S (length cs)) - 1) with (S (length cs)) by lia.
    destruct (dispatched_fields api
                (with_message_count (message_count s + 1) s))
      as (Hdp & Hdc & Hdi & Hdn).
    cbn [message_count preferences_complete current_preference_index
         preferences with_message_count] in Hdp, Hdc, Hdi, Hdn.
    rewrite Hc1. case_bool_decide as Hfull.
    + eexists. split; [done|]. rewrite Hdp, Hdc, Hdi, Hdn, Hn1, Hi1, Hc1, Hpr1.
      rewrite !bool_decide_eq_true_2 by lia.
      repeat split; try lia.
      rewrite answers_of_snoc_out; [done|lia].
    + assert (Hlt : length cs < length preference_questions) by lia.
      assert (Hi2 : current_preference_index s = length cs).
      { rewrite Hi1. apply Nat.min_l. lia. }
      rewrite Hi2.
      destruct (decide (_ < _)) as [_|]; [|lia].
      destruct (lookup_lt_is_Some_2 _ _ Hlt) as [q Hq]. rewrite Hq.
      eexists. split; [done|].
      assert (Hq1 : preference_questions
                    !! current_preference_index
                         (with_message_count (message_count s + 1) s)
                    = Some q).
      { cbn [current_preference_index with_message_count]. by rewrite Hi2. }
      destruct (answered_fields q (content_of data) _ Hq1)
        as (Hap & Hai & Hac & Han & _).
      cbn [message_count preferences_complete current_preference_index
           preferences with_message_count] in Hap, Hai, Hac, Han.
      rewrite Hap, Hai, Hac, Han, Hn1, Hi2, Hc1, Hpr1. clear Hac.
      repeat split; try lia.
      * case_decide; case_bool_decide; try done; lia.
      * by rewrite (answers_of_snoc_in _ _ _ Hq).
Qed.

Lemma run_progress st c es :
  at_start (sessions st !! c) →
  forallb (no_reset c) es = true →
  progress (accepted c es) (sessions (run es st) !! c).
Proof.
  intros Hstart. induction es as [|e es IH] using rev_ind; [done|].
  rewrite forallb_app, accepted_snoc, run_snoc. cbn [forallb].
  intros [Hes [He _]%andb_true_iff]%andb_true_iff.
  specialize (IH Hes).
  destruct (accepted c [e]) as [|v l] eqn:Ha.
  - rewrite app_nil_r. by rewrite (quiet_step _ _ _ (not_accepted_quiet _ _ He Ha)).
  - apply accepted_inv in Ha
      as (-> & data & uid & now & api & -> & -> & Ht).
    rewrite step_session. cbn [session_after].
    case_decide; [|done]. by apply progress_send.
Qed.

(** X10.  Take a session that has not yet seen a message and any events
    among which the client neither connects, disconnects nor clears, and
    let [cs] be the contents of the client's accepted messages, in order.
    If there is at least one, the session has counted them all; its index
    is the number of messages less one, up to the number of questions; it
    is complete exactly when there are more messages than questions; and
    its preferences are the answers given by the second and later messages
    to the questions in their order, the first message and those after the
    last question being stored nowhere. *)
Theorem onboarding_transcript st c es :
  at_start (sessions st !! c) →
  forallb (no_reset c) es = true →
  accepted c es ≠ [] →
  ∃ s, sessions (run es st) !! c = Some s ∧
    message_count s = length (accepted c es) ∧
    current_preference_index s
    = (length (accepted c es) - 1) `min` length preference_questions ∧
    preferences_complete s
    = bool_decide (length preference_questions < length (accepted c es)) ∧
    preferences s = answers_of (drop 1 (accepted c es)).
Proof.
  intros Hstart Hes Hne. pose proof (run_progress st c es Hstart Hes) as Hp.
  unfold progress in Hp. by destruct (accepted c es).
Qed.

Lemma onboarding_transcript_witness :
  let es := [Connect "B";
             SendMessage "A" (content "hello") "u1" "t1" fine;
             SendMessage "A" (content "  ") "u2" "t2" fine;
             SendMessage "B" (content "hi") "u3" "t3" fine;
             SendMessage "A" (content "formal") "u4" "t4" fine;
             Wake 0 "u5" "t5";
             SendMessage "A" (content "paragraphs") "u6" "t6" fine] in
  ∃ s, sessions (run es initial) !! "A"%string = Some s ∧
       current_preference_index s = 2 ∧
       preferences s = answers_of ["formal"; "paragraphs"]%string.
Proof.
  intros es.
  assert (Hne : accepted "A" es ≠ []) by (vm_compute; discriminate).
  destruct (onboarding_transcript initial "A" es I eq_refl Hne)
    as (s & Hs & _ & Hi & _ & Hp).
  exists s. split; [exact Hs|]. split; [exact Hi|exact Hp].
Defined.

(** ** Whom the emissions are for *)

(** X11.  Of the events a handler emits, [error], [preference_update],
    [preferences_reset] and [connection_response] go to the room of the
    client whose event is handled; [chat_cleared] and [message_deleted] go
    to everyone; a [new_message] goes to everyone when it carries a user
    message and to the room of the woken thread's client otherwise. *)
Theorem emissions_addressed e st em :
  em ∈ emitted e st → addressed e st em.
Proof.
  unfold emitted, addressed.
  event_cases e; [cbn [handle]..|].
  - rewrite handle_connect_eq. cbn. intros ->%list_elem_of_singleton. cbn.
    by eexists.
  - rewrite handle_disconnect_eq. by intros ?%elem_of_nil.
  - rewrite handle_send_message_by_route. unfold send_result.
    destruct (route_of st sid data); cbn [snd].
    + intros ->%list_elem_of_singleton. cbn. by eexists.
    + by intros ->%list_elem_of_singleton.
    + by intros ->%list_elem_of_singleton.
    + destruct (preference_questions !! _); cbn [snd];
        [|by intros ?%elem_of_nil].
      intros [->|[->|?%elem_of_nil]%elem_of_cons]%elem_of_cons;
        cbn; first [done|by eexists].
    + by intros ->%list_elem_of_singleton.
  - rewrite handle_delete_message_eq.
    repeat (case_match; cbn [snd]);
      intros ->%list_elem_of_singleton; cbn; first [done|by eexists].
  - rewrite handle_clear_chat_eq. cbn [snd].
    destruct (sessions st !! sid); cbn [app].
    + intros [->|[->|?%elem_of_nil]%elem_of_cons]%elem_of_cons;
        cbn; first [done|by eexists].
    + intros ->%list_elem_of_singleton. done.
  - rewrite handle_wake_eq. destruct (threads st !! k) as [d|] eqn:Hd;
      [|by intros ?%elem_of_nil].
    cbn. intros ->%list_elem_of_singleton. cbn. by exists k, uid, now, d.
Qed.

Lemma emissions_addressed_witness :
  addressed (ClearChat "A" "t8") onboarded
            (Emit preferences_reset (Room "A")).
Proof.
  apply emissions_addressed. vm_compute. left.
Defined.

(** ** The conversation handle *)

Lemma conversation_body_ids b tid text sd :
  conversation_body b tid = inr (text, sd) →
  ∃ a t, get_or_create_assistant b = inr a ∧
         thread_of_turn b tid = inr t ∧
         sd_assistant_id sd = Some a ∧ sd_thread_id sd = Some t.
Proof.
  unfold conversation_body, try_, thread_of_turn. intros H.
  repeat (case_match; simplify_eq/=); by eexists _, _.
Qed.

Lemma process_message_cases b tid :
  (∃ text sd, conversation_body b tid = inr (text, sd) ∧
              process_message b tid = inr (text, sd)) ∨
  (∃ x, conversation_body b tid = inl x ∧
        process_message b tid
        = inr ("Error in assistant conversation: " +:+ str x,
               SessionData None None
                 (Some ("Error in assistant conversation: " +:+ str x)))).
Proof.
  unfold process_message, _handle_assistant_conversation.
  destruct (conversation_body b tid) as [x|[text sd]]; eauto.
Qed.

Lemma dispatched_ids api s :
  (∃ text sd a t,
     conversation_body api (thread_id s) = inr (text, sd) ∧
     get_or_create_assistant api = inr a ∧
     thread_of_turn api (thread_id s) = inr t ∧
     assistant_id (dispatched api s) = Some a ∧
     thread_id (dispatched api s) = Some t) ∨
  (∃ x, conversation_body api (thread_id s) = inl x ∧
        assistant_id (dispatched api s) = assistant_id s ∧
        thread_id (dispatched api s) = thread_id s).
Proof.
  unfold dispatched.
  pose proof (process_message_reply api (thread_id s)) as Hr.
  destruct (process_message_cases api (thread_id s))
    as [(text & sd & Hb & Hp)|(x & Hb & Hp)]; rewrite Hp in Hr;
    injection Hr as <-; cbn [snd].
  - destruct (conversation_body_ids _ _ _ _ Hb) as (a & t & Ha & Ht & -> & ->).
    left. by exists text, sd, a, t.
  - right. by exists x.
Qed.

Lemma dispatched_thread api s t :
  thread_id s = Some t → truthy t = true →
  thread_id (dispatched api s) = Some t.
Proof.
  intros Hs Ht.
  destruct (dispatched_ids api s)
    as [(text & sd & a & t1 & _ & _ & Ht1 & _ & ->)|(x & _ & _ & ->)];
    [|done].
  unfold thread_of_turn in Ht1. rewrite Hs, Ht in Ht1. congruence.
Qed.

(** X12.  Once a session holds a non-empty thread id, it holds that same
    id after every event other than a connect or a disconnect of its
    client: no conversation turn replaces it, whether the turn succeeds or
    fails, and a clear keeps it. *)
Theorem conversation_handle_kept st c s t e :
  sessions st !! c = Some s →
  thread_id s = Some t →
  truthy t = true →
  e ≠ Connect c →
  e ≠ Disconnect c →
  ∃ s1, sessions (step e st) !! c = Some s1 ∧ thread_id s1 = Some t.
Proof.
  intros Hs Hid Ht Hc Hd. rewrite step_session.
  event_cases e; cbn [session_after]; eauto.
  - case_decide; [congruence|eauto].
  - case_decide; [congruence|eauto].
  - case_decide; [subst sid|eauto].
    unfold session_after_send. rewrite (counted_fields _ _ _ Hs).
    set (s0 := with_message_count (message_count s + 1) s).
    assert (Hid0 : thread_id s0 = Some t) by done.
    destruct (route_of st c data); eauto.
    + eexists. split; [done|]. by apply dispatched_thread.
    + destruct (preference_questions !! _) eqn:Hq; [|eauto].
      destruct (answered_fields _ (content_of data) _ Hq)
        as (_ & _ & _ & _ & Hth & _).
      eexists. split; [done|]. by rewrite Hth.
    + eexists. split; [done|]. by apply dispatched_thread.
  - case_decide; [subst sid|eauto]. rewrite Hs. cbn. eauto.
Qed.

Lemma conversation_handle_kept_witness :
  let st := step (SendMessage "A" (content "space news") "u7" "t7" fine)
                 onboarded in
  ∃ s1, sessions (step (ClearChat "A" "t8") st) !! "A"%string = Some s1 ∧
        thread_id s1 = Some "thread_1"%string.
Proof.
  intros st.
  assert (Hs : sessions st !! "A"%string
    = Some (Session (Some "thread_1"%string) (Some "asst_1"%string)
        (<["news_topics"%string := Some "technology"%string]>
        (<["interaction_style"%string := Some "concise"%string]>
        (<["language"%string := Some "English"%string]>
        (<["response_format"%string := Some "bullet points"%string]>
        (<["tone_of_voice"%string := Some "formal"%string]>
           no_preferences)))))
        true 5 7)) by (vm_compute; reflexivity).
  assert (H1 : ClearChat "A" "t8" ≠ Connect "A") by discriminate.
  assert (H2 : ClearChat "A" "t8" ≠ Disconnect "A") by discriminate.
  exact (conversation_handle_kept st "A" _ "thread_1" (ClearChat "A" "t8")
           Hs eq_refl eq_refl H1 H2).
Defined.

(** X13.  After a message that goes to the news agent: when an external
    call of the turn other than the submission of tool outputs raised, both
    ids of the session are as before, so that a thread created earlier in
    that turn is not remembered; when none of them raised, the session
    holds the assistant id the agent returned and the thread the turn
    worked on (the one it held, or the newly created one), and that is so
    in particular when the submission of tool outputs raised. *)
Theorem conversation_turn_ids st c data uid now api s :
  sessions st !! c = Some s →
  preferences_complete s = true →
  message_count s ≠ 0 →
  blank data = false →
  let e := SendMessage c data uid now api in
  (∀ x, raised_by api (thread_id s) x →
     ∃ s1, sessions (step e st) !! c = Some s1 ∧
           assistant_id s1 = assistant_id s ∧ thread_id s1 = thread_id s) ∧
  ((∀ x, ¬ raised_by api (thread_id s) x) →
     ∃ a t s1, get_or_create_assistant api = inr a ∧
               thread_of_turn api (thread_id s) = inr t ∧
               sessions (step e st) !! c = Some s1 ∧
               assistant_id s1 = Some a ∧ thread_id s1 = Some t) ∧
  (∀ a t run0 n x,
     started api (thread_id s) a t →
     create_and_poll api = inr run0 →
     status run0 = "requires_action"%string →
     execute_tool_calls api = inr (S n) →
     submit_tool_outputs_and_poll api = inl x →
     ∃ s1, sessions (step e st) !! c = Some s1 ∧
           assistant_id s1 = Some a ∧ thread_id s1 = Some t).
Proof.
  intros Hs Hc Hn Hb e.
  assert (Hne : content_of data ≠ EmptyString).
  { intros H%content_of_blank. congruence. }
  destruct (send_dispatch st c data uid now api s Hs Hn Hc Hne) as [Hr _].
  assert (Hs1 : sessions (step e st) !! c
                = Some (dispatched api (counted st c))).
  { unfold e. rewrite step_send_eq, Hr. apply lookup_insert_eq. }
  rewrite Hs1. rewrite (counted_fields _ _ _ Hs).
  set (s0 := with_message_count (message_count s + 1) s).
  destruct (dispatched_ids api s0)
    as [(text & sd & a & t & Hb1 & Ha & Ht & Has & Hts)|(x & Hb1 & Has & Hts)];
    change (thread_id s0) with (thread_id s) in *; repeat split.
  - intros x Hx%raised_by_body. congruence.
  - intros _. by exists a, t, (dispatched api s0).
  - intros a1 t1 run0 n x (Ha1 & Ht1 & _) _ _ _ _.
    exists (dispatched api s0). split; [done|]. split; congruence.
  - intros x1 _. by exists (dispatched api s0).
  - intros Hno. by destruct (Hno x); apply body_raised_by.
  - intros a1 t1 run0 n x1 Hst Hcp Hrs He Hx.
    rewrite (conversation_body_submit _ _ _ _ _ _ _ Hst Hcp Hrs He Hx)
      in Hb1. discriminate Hb1.
Qed.

(** A backend on which the thread is created and the next call raises, and
    one on which the submission of tool outputs raises. *)
Lemma conversation_turn_ids_witness :
  let api := Backend (inr "asst_1"%string) (inr "thread_1"%string)
               (Some (Exception "Rate limit")) (inr (Run "completed"))
               (inr 0) (inr (Run "completed")) (inr []) in
  let no_submit :=
    Backend (inr "asst_1"%string) (inr "thread_1"%string) None
            (inr (Run "requires_action")) (inr 1)
            (inl (Exception "Bad request")) (inr []) in
  let send := SendMessage "A" (content "space news") "u7" "t7" in
  (∃ s1, sessions (step (send api) onboarded) !! "A"%string = Some s1 ∧
         assistant_id s1 = None ∧ thread_id s1 = None) ∧
  (∃ s1, sessions (step (send no_submit) onboarded) !! "A"%string = Some s1 ∧
         assistant_id s1 = Some "asst_1"%string ∧
         thread_id s1 = Some "thread_1"%string).
Proof.
  intros api no_submit send.
  assert (Hs : sessions onboarded !! "A"%string
    = Some (Session None None
        (<["news_topics"%string := Some "technology"%string]>
        (<["interaction_style"%string := Some "concise"%string]>
        (<["language"%string := Some "English"%string]>
        (<["response_format"%string := Some "bullet points"%string]>
        (<["tone_of_voice"%string := Some "formal"%string]>
           no_preferences)))))
        true 5 6)) by (vm_compute; reflexivity).
  assert (Hn : 6 ≠ 0) by discriminate.
  split.
  - exact (proj1 (conversation_turn_ids onboarded "A" (content "space news")
                    "u7" "t7" api _ Hs eq_refl Hn eq_refl)
                 (Exception "Rate limit")
                 (raised_by_message api None _ "asst_1" "thread_1"
                    eq_refl eq_refl eq_refl)).
  - exact (proj2 (proj2 (conversation_turn_ids onboarded "A"
                           (content "space news") "u7" "t7" no_submit _
                           Hs eq_refl Hn eq_refl))
                 "asst_1"%string "thread_1"%string (Run "requires_action") 0
                 (Exception "Bad request")
                 (conj eq_refl (conj eq_refl eq_refl))
                 eq_refl eq_refl eq_refl eq_refl).
Defined.

(** ** More about the agent *)

(** X14.  [process_message] never raises, and its own [except] clause is
    never taken: whatever the external calls do, its result is the result
    of [_handle_assistant_conversation], a reply and a dictionary. *)
Theorem process_message_outer_handler_dead b tid :
  process_message b tid = _handle_assistant_conversation b tid ∧
  ∃ text sd, process_message b tid = inr (text, sd).
Proof.
  unfold process_message.
  destruct (_handle_assistant_conversation_returns b tid) as [[text sd] ->].
  eauto.
Qed.

(** X15.  A reply that comes without an error entry is the text of the
    first content part of the latest message of the thread, and the run
    was completed: at once, or after tool outputs were submitted. *)
Theorem reply_without_error b tid text sd :
  process_message b tid = inr (text, sd) →
  sd_error sd = None →
  (∃ rest more, messages_list b = inr ((inr text :: rest) :: more)) ∧
  (create_and_poll b = inr (Run "completed") ∨
   (create_and_poll b = inr (Run "requires_action") ∧
    (∃ n, execute_tool_calls b = inr (S n)) ∧
    submit_tool_outputs_and_poll b = inr (Run "completed"))).
Proof.
  intros Hp Herr.
  destruct (process_message_cases b tid)
    as [(text1 & sd1 & Hb & Hp1)|(x & _ & Hp1)];
    rewrite Hp1 in Hp; injection Hp as <- <-; [|done].
  revert Hb Herr. unfold conversation_body, try_.
  intros Hb Herr.
  repeat (case_match; simplify_eq/=);
    repeat match goal with r : Agent.run |- _ => destruct r end;
    simplify_eq/=; (split; [by eexists _, _|]); try (by left).
  all: right; split; [done|]; split; [|done].
  all: match goal with
       | H : ?n ≠ 0 |- _ => destruct n; [done|by eexists]
       end.
Qed.

Lemma reply_without_error_witness :
  ∃ rest more,
    messages_list fine = inr ((inr "Here is the news."%string :: rest) :: more).
Proof.
  exact (proj1 (reply_without_error fine None "Here is the news."
                  (SessionData (Some "asst_1"%string)
                               (Some "thread_1"%string) None)
                  eq_refl eq_refl)).
Defined.

(** X16.  When the run asks for tool calls but the loop over them
    collects no output, nothing is submitted and the thread is not read:
    the turn is reported as failed with the status "requires_action". *)
Theorem no_tool_outputs_is_a_failure b tid a t :
  get_or_create_assistant b = inr a →
  thread_of_turn b tid = inr t →
  messages_create b = None →
  create_and_poll b = inr (Run "requires_action") →
  execute_tool_calls b = inr 0 →
  process_message b tid
  = inr ("Assistant run failed with status: requires_action"%string,
         SessionData (Some a) (Some t)
           (Some "Assistant run failed with status: requires_action"%string)).
Proof.
  intros Ha Ht Hm Hr He.
  unfold process_message, _handle_assistant_conversation, conversation_body.
  unfold thread_of_turn in Ht. rewrite Ha. cbn [try_]. rewrite Ht.
  cbn [try_]. rewrite Hm. cbn [try_]. rewrite Hr. cbn [try_ status].
  destruct (decide _) as [_|]; [|done]. rewrite He. cbn [try_].
  destruct (decide (0 = 0)) as [_|]; [|done]. cbn [try_ status].
  by destruct (decide _).
Qed.

Lemma no_tool_outputs_is_a_failure_witness :
  process_message
    (Backend (inr "asst_1"%string) (inr "thread_1"%string) None
             (inr (Run "requires_action")) (inr 0)
             (inl (Exception "unused")) (inl (Exception "unused")))
    (Some "thread_0"%string)
  = inr ("Assistant run failed with status: requires_action"%string,
         SessionData (Some "asst_1"%string) (Some "thread_0"%string)
           (Some "Assistant run failed with status: requires_action"%string)).
Proof.
  exact (no_tool_outputs_is_a_failure
           (Backend (inr "asst_1"%string) (inr "thread_1"%string) None
                    (inr (Run "requires_action")) (inr 0)
                    (inl (Exception "unused")) (inl (Exception "unused")))
           (Some "thread_0"%string)
           "asst_1" "thread_0" eq_refl eq_refl eq_refl eq_refl eq_refl).
Defined.

(** X17.  Constructing the agent needs both API keys: when
    OPENAI_API_KEY is unset or empty the constructor raises the ValueError
    that names it, whatever else holds; when it is set and EXA_API_KEY is
    unset or empty, the ValueError that names that one; and an agent that is
    constructed has the model "gpt-4.1-nano" and the five questions. *)
Theorem agent_needs_both_keys env :
  (present (OPENAI_API_KEY env) = false →
   load_agent_module env
   = inl (ValueError "OPENAI_API_KEY environment variable is required")) ∧
  (present (OPENAI_API_KEY env) = true →
   present (EXA_API_KEY env) = false →
   load_agent_module env
   = inl (ValueError "EXA_API_KEY environment variable is required")) ∧
  (∀ agent, load_agent_module env = inr agent →
     present (OPENAI_API_KEY env) = true ∧
     present (EXA_API_KEY env) = true ∧
     agent = MkNewsAgent "gpt-4.1-nano" preference_questions).
Proof.
  unfold load_agent_module, call_NewsAgent. cbn [length init_params].
  destruct (decide _) as [_|]; [|lia]. unfold init_body, present.
  destruct (OPENAI_API_KEY env) as [k1|]; [destruct (truthy k1)|];
    cbn [negb];
    (destruct (EXA_API_KEY env) as [k2|]; [destruct (truthy k2)|]);
    cbn [negb]; repeat split; try done;
    repeat case_match; by simplify_eq.
Qed.

(** ** The system prompt *)

Lemma get_rendered_answer (d : gmap string (option string)) k v default :
  d !! k = Some (Some v) → get_rendered d k default = v.
Proof. unfold get_rendered. by intros ->. Qed.

(** X18.  For a session of a reachable state whose onboarding is
    complete, the system prompt built from its preferences is the prompt
    text with the five stored answers in its five places: neither the
    default "not specified" nor a rendered [None] occurs as a value. *)
Theorem prompt_after_onboarding st c s :
  reachable st →
  sessions st !! c = Some s →
  preferences_complete s = true →
  ∃ tone format language style topics,
    preferences s !! "tone_of_voice"%string = Some (Some tone) ∧
    preferences s !! "response_format"%string = Some (Some format) ∧
    preferences s !! "language"%string = Some (Some language) ∧
    preferences s !! "interaction_style"%string = Some (Some style) ∧
    preferences s !! "news_topics"%string = Some (Some topics) ∧
    _build_system_prompt (preferences s)
    = prompt_with tone format language style topics.
Proof.
  intros Hr Hs Hc.
  destruct (reachable_invariant st Hr c s Hs) as [_ Hiff Hans].
  apply Hiff in Hc.
  assert (Hq : ∀ j q, preference_questions !! j = Some q →
                      ∃ v, preferences s !! key q = Some (Some v)).
  { intros j q Hj. apply (Hans j q Hj). rewrite Hc.
    by eapply lookup_lt_Some. }
  destruct (Hq 0 _ eq_refl) as [v0 H0]. destruct (Hq 1 _ eq_refl) as [v1 H1].
  destruct (Hq 2 _ eq_refl) as [v2 H2]. destruct (Hq 3 _ eq_refl) as [v3 H3].
  destruct (Hq 4 _ eq_refl) as [v4 H4]. cbn [key] in *.
  exists v0, v1, v2, v3, v4. repeat split; try done.
  unfold _build_system_prompt.
  by rewrite (get_rendered_answer _ _ _ _ H0), (get_rendered_answer _ _ _ _ H1),
    (get_rendered_answer _ _ _ _ H2), (get_rendered_answer _ _ _ _ H3),
    (get_rendered_answer _ _ _ _ H4).
Qed.

Lemma prompt_after_onboarding_witness :
  ∃ s, sessions onboarded !! "A"%string = Some s ∧
       _build_system_prompt (preferences s)
       = prompt_with "formal" "bullet points" "English" "concise" "technology".
Proof.
  assert (Hr : reachable onboarded).
  { unfold onboarded, run. cbn [foldl].
    repeat apply reachable_step. apply reachable_initial. }
  assert (Hs : sessions onboarded !! "A"%string
    = Some (Session None None
        (<["news_topics"%string := Some "technology"%string]>
        (<["interaction_style"%string := Some "concise"%string]>
        (<["language"%string := Some "English"%string]>
        (<["response_format"%string := Some "bullet points"%string]>
        (<["tone_of_voice"%string := Some "formal"%string]>
           no_preferences)))))
        true 5 6)) by (vm_compute; reflexivity).
  destruct (prompt_after_onboarding onboarded "A" _ Hr Hs eq_refl)
    as (v0 & v1 & v2 & v3 & v4 & H0 & H1 & H2 & H3 & H4 & Hp).
  eexists. split; [exact Hs|]. rewrite Hp.
  vm_compute in H0, H1, H2, H3, H4.
  injection H0 as <-. injection H1 as <-. injection H2 as <-.
  injection H3 as <-. injection H4 as <-. reflexivity.
Defined.

(** ** The shared assistant *)

Lemma get_or_create_many_cons self preferences api calls :
  get_or_create_many self ((preferences, api) :: calls)
  = let r := _get_or_create_assistant self preferences api in
    let m := get_or_create_many r.1.2 calls in
    (r.1.1 :: m.1.1, m.1.2, r.2 ++ m.2).
Proof.
  cbn [get_or_create_many].
  destruct (_get_or_create_assistant self preferences api) as [[r self1] log1].
  cbn [fst snd]. by destruct (get_or_create_many self1 calls) as [[rs s2] l2].
Qed.

Lemma get_or_create_many_kept a self calls :
  self_assistant_id self = Some a →
  (get_or_create_many self calls).1.2 = self ∧
  Forall (λ r, ∀ x, r = inr x → x = a) (get_or_create_many self calls).1.1 ∧
  Forall (λ call, match call with
                  | Create _ _ _ => False
                  | Retrieve a1 | Update a1 _ => a1 = a
                  end) (get_or_create_many self calls).2.
Proof.
  intros Ha. induction calls as [|[preferences api] calls IH]; [done|].
  cbn [get_or_create_many].
  assert (H1 : (_get_or_create_assistant self preferences api).1.2 = self ∧
    (∀ x, (_get_or_create_assistant self preferences api).1.1 = inr x →
          x = a) ∧
    Forall (λ call, match call with
                    | Create _ _ _ => False
                    | Retrieve a1 | Update a1 _ => a1 = a
                    end) (_get_or_create_assistant self preferences api).2).
  { unfold _get_or_create_assistant. rewrite Ha.
    repeat case_match; cbn; repeat split; try done;
      try (by intros x [= <-]); by repeat constructor. }
  destruct (_get_or_create_assistant self preferences api) as [[r self1] log1].
  cbn [fst snd] in H1. destruct H1 as (-> & Hr & Hlog).
  destruct (get_or_create_many self calls) as [[rs self2] log2].
  cbn [fst snd] in *. destruct IH as (-> & Hrs & Hlog2).
  repeat split; [by constructor|by apply Forall_app].
Qed.

(** X19.  Over any sequence of calls of [_get_or_create_assistant] on one
    agent, every call that returns, returns the same assistant id; and once
    the agent holds an id, it keeps it, it creates no other assistant, and
    every retrieve and update is for that id. *)
Theorem one_assistant_for_all self calls :
  (∀ i j x y,
     (get_or_create_many self calls).1.1 !! i = Some (inr x) →
     (get_or_create_many self calls).1.1 !! j = Some (inr y) → x = y) ∧
  (∀ a, self_assistant_id self = Some a →
     (get_or_create_many self calls).1.2 = self ∧
     Forall (λ call, match call with
                     | Create _ _ _ => False
                     | Retrieve a1 | Update a1 _ => a1 = a
                     end) (get_or_create_many self calls).2).
Proof.
  split.
  - revert self. induction calls as [|[preferences api] calls IH];
      intros self i j x y; [done|].
    destruct (self_assistant_id self) as [a|] eqn:Ha.
    { destruct (get_or_create_many_kept a self ((preferences, api) :: calls) Ha)
        as (_ & Hrs & _).
      intros Hi Hj.
      rewrite Forall_forall in Hrs.
      rewrite (Hrs _ (list_elem_of_lookup_2 _ _ _ Hi) x eq_refl).
      by rewrite (Hrs _ (list_elem_of_lookup_2 _ _ _ Hj) y eq_refl). }
    rewrite get_or_create_many_cons.
    assert (Hcall : ∃ log,
      _get_or_create_assistant self preferences api
      = match assistants_create api with
        | inl e => (inl e, self, log)
        | inr id =>
          (inr id, AgentState (Some id) (self_thread_id self), log)
        end).
    { unfold _get_or_create_assistant. rewrite Ha. eexists.
      by destruct (assistants_create api). }
    destruct Hcall as [log ->].
    destruct (assistants_create api) as [e|id]; cbn [fst snd].
    + destruct i as [|i], j as [|j]; cbn; try done. apply IH.
    + pose proof (get_or_create_many_kept id
                    (AgentState (Some id) (self_thread_id self)) calls
                    eq_refl) as (_ & Hrs & _).
      rewrite Forall_forall in Hrs.
      assert (Hall : ∀ k z,
        (inr id :: (get_or_create_many
                      (AgentState (Some id) (self_thread_id self))
                      calls).1.1) !! k = Some (inr z) → z = id).
      { intros [|k] z; cbn; [by intros [= <-]|].
        intros Hk. by apply (Hrs _ (list_elem_of_lookup_2 _ _ _ Hk)). }
      intros Hi Hj. by rewrite (Hall _ _ Hi), (Hall _ _ Hj).
  - intros a Ha.
    destruct (get_or_create_many_kept a self calls Ha) as (H1 & _ & H3).
    by split.
Qed.

(** ** Clearing twice *)

Lemma step_clear_eq client_id now st :
  step (ClearChat client_id now) st
  = MkServer [] (match sessions st !! client_id with
                 | Some s => <[client_id := cleared s]> (sessions st)
                 | None => sessions st
                 end) (threads st).
Proof. unfold step. cbn [handle]. by rewrite handle_clear_chat_eq. Qed.

(** X20.  A second clear by the same client changes nothing more: the
    state after two clears is the state after one, and the second one
    reports that 0 messages were removed.  A clear by a client that has no
    session creates none. *)
Theorem clear_twice st client_id now1 now2 :
  let st1 := step (ClearChat client_id now1) st in
  step (ClearChat client_id now2) st1 = st1 ∧
  last (emitted (ClearChat client_id now2) st1)
  = Some (Emit (chat_cleared "User" "Chat cleared (0 messages removed)" now2)
               Broadcast) ∧
  (sessions st !! client_id = None → sessions st1 = sessions st).
Proof.
  intros st1. unfold st1. rewrite !step_clear_eq. unfold emitted.
  cbn [handle]. rewrite handle_clear_chat_eq.
  cbn [messages sessions threads snd].
  destruct (sessions st !! client_id) as [s|] eqn:Hs.
  - rewrite lookup_insert_eq, insert_insert_eq. by repeat split.
  - rewrite Hs. by repeat split.
Qed.
